(** * Comic Storyboarder: the server actions over the Astro DB tables

    A shallow embedding of [src/db/tables.ts] (the three tables) and of the
    actions file (the authorization check [requireUser], the resolvers [getOwnedProject] and
    [getOwnedPage], and the eleven actions of [server]).

    Modelling decisions, all of them about the external collaborators:
    - a table is the list of its rows in insertion order; [select] filters it,
      [insert] appends, [update] rewrites the matching rows in place and
      [delete] drops them and reports how many it dropped;
    - the statements come in two layers.  The first is the store at its
      most permissive: it refuses an [insert] whose primary key is already
      present and nothing else.  The second, [Strict], is the same statements
      and handlers with what the store behind [astro:db] refuses besides: the
      [references] of the tables on insert and delete, and handing back an
      integer that is not a safe integer.  A handler over [Strict] returns
      only what the handler over the first layer returns
      ([strict_handler_refines]); what [Strict] adds are failures;
    - every statement sent to the store is recorded in a trace, so that
      "no store access" is a statement about the trace;
    - [crypto.randomUUID()] and [new Date()] are read from an environment
      handed to the handler: each handler calls either at most once;
    - a JavaScript number that passed [z.number().int()] is a [Z]; a date is
      a [Z] (milliseconds);
    - [defineAction] parses the input with the action's schema and throws an
      input error before the handler body runs when the schema rejects it. *)

From Stdlib Require Import String List ZArith Bool Arith Lia.
Import ListNotations.
Open Scope string_scope.
Open Scope list_scope.

Set Implicit Arguments.

(** ** Tables ([src/db/tables.ts]) *)

Definition Date := Z.

Inductive Table := ComicProjectsT | ComicPagesT | ComicPanelsT.

Module ComicProjects.
Record row := mk {
  id : string;
  userId : string;
  title : string;
  description : option string;
  genre : option string;
  format : option string;
  targetAudience : option string;
  createdAt : Date;
  updatedAt : Date
}.

(** One entry of the object given to [.set(...)]. *)
Inductive assign :=
| set_title (v : string)
| set_description (v : string)
| set_genre (v : string)
| set_format (v : string)
| set_targetAudience (v : string)
| set_updatedAt (v : Date).

Definition apply (a : assign) (r : row) : row :=
  match a with
  | set_title v =>
      mk (id r) (userId r) v (description r) (genre r) (format r) (targetAudience r) (createdAt r) (updatedAt r)
  | set_description v =>
      mk (id r) (userId r) (title r) (Some v) (genre r) (format r) (targetAudience r) (createdAt r) (updatedAt r)
  | set_genre v =>
      mk (id r) (userId r) (title r) (description r) (Some v) (format r) (targetAudience r) (createdAt r) (updatedAt r)
  | set_format v =>
      mk (id r) (userId r) (title r) (description r) (genre r) (Some v) (targetAudience r) (createdAt r) (updatedAt r)
  | set_targetAudience v =>
      mk (id r) (userId r) (title r) (description r) (genre r) (format r) (Some v) (createdAt r) (updatedAt r)
  | set_updatedAt v =>
      mk (id r) (userId r) (title r) (description r) (genre r) (format r) (targetAudience r) (createdAt r) v
  end.
End ComicProjects.

Module ComicPages.
Record row := mk {
  id : string;
  projectId : string;
  pageNumber : Z;
  title : option string;
  thumbnailUrl : option string;
  notes : option string;
  createdAt : Date;
  updatedAt : Date
}.

Inductive assign :=
| set_pageNumber (v : Z)
| set_title (v : string)
| set_thumbnailUrl (v : string)
| set_notes (v : string)
| set_updatedAt (v : Date).

Definition apply (a : assign) (r : row) : row :=
  match a with
  | set_pageNumber v =>
      mk (id r) (projectId r) v (title r) (thumbnailUrl r) (notes r) (createdAt r) (updatedAt r)
  | set_title v =>
      mk (id r) (projectId r) (pageNumber r) (Some v) (thumbnailUrl r) (notes r) (createdAt r) (updatedAt r)
  | set_thumbnailUrl v =>
      mk (id r) (projectId r) (pageNumber r) (title r) (Some v) (notes r) (createdAt r) (updatedAt r)
  | set_notes v =>
      mk (id r) (projectId r) (pageNumber r) (title r) (thumbnailUrl r) (Some v) (createdAt r) (updatedAt r)
  | set_updatedAt v =>
      mk (id r) (projectId r) (pageNumber r) (title r) (thumbnailUrl r) (notes r) (createdAt r) v
  end.
End ComicPages.

Module ComicPanels.
Record row := mk {
  id : string;
  pageId : string;
  panelIndex : Z;
  layoutJson : option string;
  description : option string;
  dialogue : option string;
  caption : option string;
  soundEffects : option string;
  createdAt : Date
}.

Inductive assign :=
| set_panelIndex (v : Z)
| set_layoutJson (v : string)
| set_description (v : string)
| set_dialogue (v : string)
| set_caption (v : string)
| set_soundEffects (v : string).

Definition apply (a : assign) (r : row) : row :=
  match a with
  | set_panelIndex v =>
      mk (id r) (pageId r) v (layoutJson r) (description r) (dialogue r) (caption r) (soundEffects r) (createdAt r)
  | set_layoutJson v =>
      mk (id r) (pageId r) (panelIndex r) (Some v) (description r) (dialogue r) (caption r) (soundEffects r) (createdAt r)
  | set_description v =>
      mk (id r) (pageId r) (panelIndex r) (layoutJson r) (Some v) (dialogue r) (caption r) (soundEffects r) (createdAt r)
  | set_dialogue v =>
      mk (id r) (pageId r) (panelIndex r) (layoutJson r) (description r) (Some v) (caption r) (soundEffects r) (createdAt r)
  | set_caption v =>
      mk (id r) (pageId r) (panelIndex r) (layoutJson r) (description r) (dialogue r) (Some v) (soundEffects r) (createdAt r)
  | set_soundEffects v =>
      mk (id r) (pageId r) (panelIndex r) (layoutJson r) (description r) (dialogue r) (caption r) (Some v) (createdAt r)
  end.
End ComicPanels.

(** ** The store *)

Record Db := mkDb {
  projects : list ComicProjects.row;
  pages : list ComicPages.row;
  panels : list ComicPanels.row
}.

Inductive DbOp :=
| OpSelect (t : Table)
| OpInsert (t : Table)
| OpUpdate (t : Table)
| OpDelete (t : Table).

Record World := mkWorld {
  db : Db;
  trace : list DbOp
}.

(** What [.from(T)], [.insert(T)], [.update(T)] and [.delete(T)] need to know
    about [T]: its name, its primary key and where its rows live. *)
Record TableDesc (R : Type) := mkTable {
  tname : Table;
  pk : R -> string;
  rows : Db -> list R;
  with_rows : list R -> Db -> Db
}.

Definition tbl_ComicProjects : TableDesc ComicProjects.row :=
  mkTable ComicProjectsT ComicProjects.id projects
          (fun l d => mkDb l (pages d) (panels d)).

Definition tbl_ComicPages : TableDesc ComicPages.row :=
  mkTable ComicPagesT ComicPages.id pages
          (fun l d => mkDb (projects d) l (panels d)).

Definition tbl_ComicPanels : TableDesc ComicPanels.row :=
  mkTable ComicPanelsT ComicPanels.id panels
          (fun l d => mkDb (projects d) (pages d) l).

(** ** Errors and the handler monad *)

Inductive ErrorCode := UNAUTHORIZED | NOT_FOUND | BAD_REQUEST | INTERNAL_SERVER_ERROR.

(** An issue reported by the input schema: a [.min(1)] that failed at a
    path, or the message of a [.refine]. *)
Inductive ZodIssue :=
| too_small (path : string)
| custom (message : string).

Inductive Thrown :=
| ActionError (code : ErrorCode) (message : string)
| ActionInputError (issues : list ZodIssue)
| ConstraintError (t : Table)
| RangeError.

Inductive Result (A : Type) :=
| Ok (a : A)
| Throw (e : Thrown).
Arguments Throw {A} e.

Definition M (A : Type) := World -> Result A * World.

Definition ret {A} (a : A) : M A := fun w => (Ok a, w).

Definition throw {A} (e : Thrown) : M A := fun w => (Throw e, w).

Definition bind {A B} (m : M A) (k : A -> M B) : M B :=
  fun w =>
    match m w with
    | (Ok a, w') => k a w'
    | (Throw e, w') => (Throw e, w')
    end.

Definition lift {A} (r : Result A) : M A := fun w => (r, w).

Declare Scope action_scope.
Delimit Scope action_scope with action.
Notation "x <- m ;; k" := (bind m (fun x => k))
  (at level 100, m at next level, right associativity) : action_scope.
Notation "m ;;; k" := (bind m (fun _ => k))
  (at level 100, right associativity) : action_scope.
Open Scope action_scope.

Definition logged (o : DbOp) (w : World) : World :=
  mkWorld (db w) (trace w ++ [o]).

Section Statements.
Variable R : Type.
Variable T : TableDesc R.

(** [db.select().from(T).where(cond)] *)
Definition select (cond : R -> bool) : M (list R) :=
  fun w => (Ok (filter cond (rows T (db w))), logged (OpSelect (tname T)) w).

(** [db.insert(T).values(r).returning()] *)
Definition insert (r : R) : M (list R) :=
  fun w =>
    if existsb (fun x => String.eqb (pk T x) (pk T r)) (rows T (db w))
    then (Throw (ConstraintError (tname T)), logged (OpInsert (tname T)) w)
    else (Ok [r],
          mkWorld (with_rows T (rows T (db w) ++ [r]) (db w))
                  (trace w ++ [OpInsert (tname T)])).

(** [db.update(T).set(s).where(cond).returning()] *)
Definition update (s : R -> R) (cond : R -> bool) : M (list R) :=
  fun w =>
    (Ok (map s (filter cond (rows T (db w)))),
     mkWorld (with_rows T (map (fun r => if cond r then s r else r) (rows T (db w))) (db w))
             (trace w ++ [OpUpdate (tname T)])).

(** [db.delete(T).where(cond)]; the result is [rowsAffected]. *)
Definition delete (cond : R -> bool) : M nat :=
  fun w =>
    (Ok (length (filter cond (rows T (db w)))),
     mkWorld (with_rows T (filter (fun r => negb (cond r)) (rows T (db w))) (db w))
             (trace w ++ [OpDelete (tname T)])).
End Statements.

(** [const [x] = ...]: the first element, [undefined] when there is none. *)
Definition first {A} (l : list A) : option A := hd_error l.

(** The filter operators of [astro:db]: [eq(column, value)] on a text column
    and [and(c1, c2)]. *)
Module sql.
Definition eq (a b : string) : bool := String.eqb a b.
Definition and (c1 c2 : bool) : bool := c1 && c2.
End sql.

(** ** [requireUser] and the resolvers *)

Record User := mkUser { user_id : string }.

Record Locals := mkLocals { user : option User }.

Record Context := mkContext { locals : option Locals }.

(** [context.locals?.user] *)
Definition locals_user (context : Context) : option User :=
  match locals context with
  | Some l => user l
  | None => None
  end.

Definition requireUser (context : Context) : M User :=
  match locals_user context with
  | None => throw (ActionError UNAUTHORIZED "You must be signed in to perform this action.")
  | Some u => ret u
  end.

Definition getOwnedProject (projectId userId : string) : M ComicProjects.row :=
  found <- select tbl_ComicProjects
             (fun r => sql.and (sql.eq (ComicProjects.id r) projectId)
                               (sql.eq (ComicProjects.userId r) userId)) ;;
  match first found with
  | None => throw (ActionError NOT_FOUND "Project not found.")
  | Some project => ret project
  end.

Definition getOwnedPage (pageId projectId userId : string) : M ComicPages.row :=
  getOwnedProject projectId userId ;;;
  found <- select tbl_ComicPages
             (fun r => sql.and (sql.eq (ComicPages.id r) pageId)
                               (sql.eq (ComicPages.projectId r) projectId)) ;;
  match first found with
  | None => throw (ActionError NOT_FOUND "Page not found.")
  | Some page => ret page
  end.

(** ** Input schemas and [defineAction] *)

(** [z.string().min(1)] at [path] *)
Definition min1 (path : string) (s : string) : list ZodIssue :=
  if (1 <=? String.length s)%nat then [] else [too_small path].

(** [z.number().int().min(1)] at [path] *)
Definition num_min1 (path : string) (n : Z) : list ZodIssue :=
  if (1 <=? n)%Z then [] else [too_small path].

(** [.optional()] *)
Definition optional {A} (check : A -> list ZodIssue) (o : option A) : list ZodIssue :=
  match o with
  | None => []
  | Some v => check v
  end.

(** [.refine(pred, { message })] *)
Definition refine (pred : bool) (message : string) : list ZodIssue :=
  if pred then [] else [custom message].

(** [x !== undefined] *)
Definition supplied {A} (o : option A) : bool :=
  match o with
  | Some _ => true
  | None => false
  end.

(** [...(x !== undefined ? { col: x } : {})] *)
Definition spread {A B} (o : option A) (col : A -> B) : list B :=
  match o with
  | Some v => [col v]
  | None => []
  end.

Record Env := mkEnv {
  randomUUID : string;
  now : Date
}.

Record Reply (A : Type) := mkReply {
  success : bool;
  data : A
}.

Record Listing (R : Type) := mkListing {
  items : list R;
  total : nat
}.

Definition defineAction {I O} (schema : I -> list ZodIssue)
    (handler : I -> Context -> Env -> M O) (input : I) (context : Context) (env : Env) : M O :=
  match schema input with
  | [] => handler input context env
  | issues => throw (ActionInputError issues)
  end.

Definition no_fields_message : string := "At least one field must be provided to update.".

(** ** The actions of [server] *)

Module createProject.
Record input := mk {
  title : string;
  description : option string;
  genre : option string;
  format : option string;
  targetAudience : option string
}.

Definition schema (i : input) : list ZodIssue := min1 "title" (title i).

Definition handler (i : input) (context : Context) (env : Env)
  : M (Reply (option ComicProjects.row)) :=
  u <- requireUser context ;;
  inserted <- insert tbl_ComicProjects
    (ComicProjects.mk (randomUUID env) (user_id u) (title i) (description i) (genre i)
                      (format i) (targetAudience i) (now env) (now env)) ;;
  ret (mkReply true (first inserted)).

Definition action := defineAction schema handler.
End createProject.

Module updateProject.
Record input := mk {
  id : string;
  title : option string;
  description : option string;
  genre : option string;
  format : option string;
  targetAudience : option string
}.

Definition some_field (i : input) : bool :=
  supplied (title i) || supplied (description i) || supplied (genre i)
  || supplied (format i) || supplied (targetAudience i).

Definition schema (i : input) : list ZodIssue :=
  min1 "id" (id i) ++ optional (min1 "title") (title i)
  ++ refine (some_field i) no_fields_message.

Definition set_clause (i : input) (env : Env) : list ComicProjects.assign :=
  spread (title i) ComicProjects.set_title
  ++ spread (description i) ComicProjects.set_description
  ++ spread (genre i) ComicProjects.set_genre
  ++ spread (format i) ComicProjects.set_format
  ++ spread (targetAudience i) ComicProjects.set_targetAudience
  ++ [ComicProjects.set_updatedAt (now env)].

Definition set (i : input) (env : Env) (r : ComicProjects.row) : ComicProjects.row :=
  fold_left (fun r a => ComicProjects.apply a r) (set_clause i env) r.

Definition handler (i : input) (context : Context) (env : Env)
  : M (Reply (option ComicProjects.row)) :=
  u <- requireUser context ;;
  getOwnedProject (id i) (user_id u) ;;;
  updated <- update tbl_ComicProjects (set i env) (fun r => sql.eq (ComicProjects.id r) (id i)) ;;
  ret (mkReply true (first updated)).

Definition action := defineAction schema handler.
End updateProject.

Module listProjects.
Definition input := unit.

Definition schema (i : input) : list ZodIssue := [].

Definition handler (i : input) (context : Context) (env : Env)
  : M (Reply (Listing ComicProjects.row)) :=
  u <- requireUser context ;;
  found <- select tbl_ComicProjects (fun r => sql.eq (ComicProjects.userId r) (user_id u)) ;;
  ret (mkReply true (mkListing found (length found))).

Definition action := defineAction schema handler.
End listProjects.

Module createPage.
Record input := mk {
  projectId : string;
  pageNumber : Z;
  title : option string;
  thumbnailUrl : option string;
  notes : option string
}.

Definition schema (i : input) : list ZodIssue :=
  min1 "projectId" (projectId i) ++ num_min1 "pageNumber" (pageNumber i).

Definition handler (i : input) (context : Context) (env : Env)
  : M (Reply (option ComicPages.row)) :=
  u <- requireUser context ;;
  getOwnedProject (projectId i) (user_id u) ;;;
  inserted <- insert tbl_ComicPages
    (ComicPages.mk (randomUUID env) (projectId i) (pageNumber i) (title i) (thumbnailUrl i)
                   (notes i) (now env) (now env)) ;;
  ret (mkReply true (first inserted)).

Definition action := defineAction schema handler.
End createPage.

Module updatePage.
Record input := mk {
  id : string;
  projectId : string;
  pageNumber : option Z;
  title : option string;
  thumbnailUrl : option string;
  notes : option string
}.

Definition some_field (i : input) : bool :=
  supplied (pageNumber i) || supplied (title i) || supplied (thumbnailUrl i)
  || supplied (notes i).

Definition schema (i : input) : list ZodIssue :=
  min1 "id" (id i) ++ min1 "projectId" (projectId i)
  ++ optional (num_min1 "pageNumber") (pageNumber i)
  ++ refine (some_field i) no_fields_message.

Definition set_clause (i : input) (env : Env) : list ComicPages.assign :=
  spread (pageNumber i) ComicPages.set_pageNumber
  ++ spread (title i) ComicPages.set_title
  ++ spread (thumbnailUrl i) ComicPages.set_thumbnailUrl
  ++ spread (notes i) ComicPages.set_notes
  ++ [ComicPages.set_updatedAt (now env)].

Definition set (i : input) (env : Env) (r : ComicPages.row) : ComicPages.row :=
  fold_left (fun r a => ComicPages.apply a r) (set_clause i env) r.

Definition handler (i : input) (context : Context) (env : Env)
  : M (Reply (option ComicPages.row)) :=
  u <- requireUser context ;;
  getOwnedPage (id i) (projectId i) (user_id u) ;;;
  updated <- update tbl_ComicPages (set i env) (fun r => sql.eq (ComicPages.id r) (id i)) ;;
  ret (mkReply true (first updated)).

Definition action := defineAction schema handler.
End updatePage.

Module deletePage.
Record input := mk {
  id : string;
  projectId : string
}.

Definition schema (i : input) : list ZodIssue :=
  min1 "id" (id i) ++ min1 "projectId" (projectId i).

Definition handler (i : input) (context : Context) (env : Env) : M (Reply unit) :=
  u <- requireUser context ;;
  getOwnedPage (id i) (projectId i) (user_id u) ;;;
  delete tbl_ComicPages (fun r => sql.eq (ComicPages.id r) (id i)) ;;;
  delete tbl_ComicPanels (fun r => sql.eq (ComicPanels.pageId r) (id i)) ;;;
  ret (mkReply true tt).

Definition action := defineAction schema handler.
End deletePage.

Module listPages.
Record input := mk { projectId : string }.

Definition schema (i : input) : list ZodIssue := min1 "projectId" (projectId i).

Definition handler (i : input) (context : Context) (env : Env)
  : M (Reply (Listing ComicPages.row)) :=
  u <- requireUser context ;;
  getOwnedProject (projectId i) (user_id u) ;;;
  found <- select tbl_ComicPages (fun r => sql.eq (ComicPages.projectId r) (projectId i)) ;;
  ret (mkReply true (mkListing found (length found))).

Definition action := defineAction schema handler.
End listPages.

Module createPanel.
Record input := mk {
  pageId : string;
  projectId : string;
  panelIndex : Z;
  layoutJson : option string;
  description : option string;
  dialogue : option string;
  caption : option string;
  soundEffects : option string
}.

Definition schema (i : input) : list ZodIssue :=
  min1 "pageId" (pageId i) ++ min1 "projectId" (projectId i).

Definition handler (i : input) (context : Context) (env : Env)
  : M (Reply (option ComicPanels.row)) :=
  u <- requireUser context ;;
  getOwnedPage (pageId i) (projectId i) (user_id u) ;;;
  inserted <- insert tbl_ComicPanels
    (ComicPanels.mk (randomUUID env) (pageId i) (panelIndex i) (layoutJson i) (description i)
                    (dialogue i) (caption i) (soundEffects i) (now env)) ;;
  ret (mkReply true (first inserted)).

Definition action := defineAction schema handler.
End createPanel.

Module updatePanel.
Record input := mk {
  id : string;
  pageId : string;
  projectId : string;
  panelIndex : option Z;
  layoutJson : option string;
  description : option string;
  dialogue : option string;
  caption : option string;
  soundEffects : option string
}.

Definition some_field (i : input) : bool :=
  supplied (panelIndex i) || supplied (layoutJson i) || supplied (description i)
  || supplied (dialogue i) || supplied (caption i) || supplied (soundEffects i).

Definition schema (i : input) : list ZodIssue :=
  min1 "id" (id i) ++ min1 "pageId" (pageId i) ++ min1 "projectId" (projectId i)
  ++ refine (some_field i) no_fields_message.

Definition set_clause (i : input) : list ComicPanels.assign :=
  spread (panelIndex i) ComicPanels.set_panelIndex
  ++ spread (layoutJson i) ComicPanels.set_layoutJson
  ++ spread (description i) ComicPanels.set_description
  ++ spread (dialogue i) ComicPanels.set_dialogue
  ++ spread (caption i) ComicPanels.set_caption
  ++ spread (soundEffects i) ComicPanels.set_soundEffects.

Definition set (i : input) (r : ComicPanels.row) : ComicPanels.row :=
  fold_left (fun r a => ComicPanels.apply a r) (set_clause i) r.

Definition handler (i : input) (context : Context) (env : Env)
  : M (Reply (option ComicPanels.row)) :=
  u <- requireUser context ;;
  getOwnedPage (pageId i) (projectId i) (user_id u) ;;;
  found <- select tbl_ComicPanels (fun r => sql.eq (ComicPanels.id r) (id i)) ;;
  match first found with
  | None => throw (ActionError NOT_FOUND "Panel not found.")
  | Some existing =>
      updated <- update tbl_ComicPanels (set i) (fun r => sql.eq (ComicPanels.id r) (id i)) ;;
      ret (mkReply true (first updated))
  end.

Definition action := defineAction schema handler.
End updatePanel.

Module deletePanel.
Record input := mk {
  id : string;
  pageId : string;
  projectId : string
}.

Definition schema (i : input) : list ZodIssue :=
  min1 "id" (id i) ++ min1 "pageId" (pageId i) ++ min1 "projectId" (projectId i).

Definition handler (i : input) (context : Context) (env : Env) : M (Reply unit) :=
  u <- requireUser context ;;
  getOwnedPage (pageId i) (projectId i) (user_id u) ;;;
  rowsAffected <- delete tbl_ComicPanels (fun r => sql.eq (ComicPanels.id r) (id i)) ;;
  if (rowsAffected =? 0)%nat
  then throw (ActionError NOT_FOUND "Panel not found.")
  else ret (mkReply true tt).

Definition action := defineAction schema handler.
End deletePanel.

Module listPanels.
Record input := mk {
  pageId : string;
  projectId : string
}.

Definition schema (i : input) : list ZodIssue :=
  min1 "pageId" (pageId i) ++ min1 "projectId" (projectId i).

Definition handler (i : input) (context : Context) (env : Env)
  : M (Reply (Listing ComicPanels.row)) :=
  u <- requireUser context ;;
  getOwnedPage (pageId i) (projectId i) (user_id u) ;;;
  found <- select tbl_ComicPanels (fun r => sql.eq (ComicPanels.pageId r) (pageId i)) ;;
  ret (mkReply true (mkListing found (length found))).

Definition action := defineAction schema handler.
End listPanels.

(** ** The [server] object: one request per action *)

Inductive Request :=
| CreateProject (i : createProject.input)
| UpdateProject (i : updateProject.input)
| ListProjects (i : listProjects.input)
| CreatePage (i : createPage.input)
| UpdatePage (i : updatePage.input)
| DeletePage (i : deletePage.input)
| ListPages (i : listPages.input)
| CreatePanel (i : createPanel.input)
| UpdatePanel (i : updatePanel.input)
| DeletePanel (i : deletePanel.input)
| ListPanels (i : listPanels.input).

Inductive Response :=
| ProjectReply (r : Reply (option ComicProjects.row))
| ProjectsReply (r : Reply (Listing ComicProjects.row))
| PageReply (r : Reply (option ComicPages.row))
| PagesReply (r : Reply (Listing ComicPages.row))
| PanelReply (r : Reply (option ComicPanels.row))
| PanelsReply (r : Reply (Listing ComicPanels.row))
| SuccessReply (r : Reply unit).

Definition fmap {A B} (f : A -> B) (m : M A) : M B :=
  a <- m ;; ret (f a).

(** The handler body of the action a request names. *)
Definition handler_of (q : Request) (context : Context) (env : Env) : M Response :=
  match q with
  | CreateProject i => fmap ProjectReply (createProject.handler i context env)
  | UpdateProject i => fmap ProjectReply (updateProject.handler i context env)
  | ListProjects i => fmap ProjectsReply (listProjects.handler i context env)
  | CreatePage i => fmap PageReply (createPage.handler i context env)
  | UpdatePage i => fmap PageReply (updatePage.handler i context env)
  | DeletePage i => fmap SuccessReply (deletePage.handler i context env)
  | ListPages i => fmap PagesReply (listPages.handler i context env)
  | CreatePanel i => fmap PanelReply (createPanel.handler i context env)
  | UpdatePanel i => fmap PanelReply (updatePanel.handler i context env)
  | DeletePanel i => fmap SuccessReply (deletePanel.handler i context env)
  | ListPanels i => fmap PanelsReply (listPanels.handler i context env)
  end.

(** The action itself: the schema first, then the handler. *)
Definition server (q : Request) (context : Context) (env : Env) : M Response :=
  match q with
  | CreateProject i => fmap ProjectReply (createProject.action i context env)
  | UpdateProject i => fmap ProjectReply (updateProject.action i context env)
  | ListProjects i => fmap ProjectsReply (listProjects.action i context env)
  | CreatePage i => fmap PageReply (createPage.action i context env)
  | UpdatePage i => fmap PageReply (updatePage.action i context env)
  | DeletePage i => fmap SuccessReply (deletePage.action i context env)
  | ListPages i => fmap PagesReply (listPages.action i context env)
  | CreatePanel i => fmap PanelReply (createPanel.action i context env)
  | UpdatePanel i => fmap PanelReply (updatePanel.action i context env)
  | DeletePanel i => fmap SuccessReply (deletePanel.action i context env)
  | ListPanels i => fmap PanelsReply (listPanels.action i context env)
  end.

(** The issues the schema of the named action reports on the request's input. *)
Definition schema_of (q : Request) : list ZodIssue :=
  match q with
  | CreateProject i => createProject.schema i
  | UpdateProject i => updateProject.schema i
  | ListProjects i => listProjects.schema i
  | CreatePage i => createPage.schema i
  | UpdatePage i => updatePage.schema i
  | DeletePage i => deletePage.schema i
  | ListPages i => listPages.schema i
  | CreatePanel i => createPanel.schema i
  | UpdatePanel i => updatePanel.schema i
  | DeletePanel i => deletePanel.schema i
  | ListPanels i => listPanels.schema i
  end.

(** ** Sequences of calls *)

Record Call := mkCall {
  call_context : Context;
  call_env : Env;
  call_request : Request
}.

Definition step (c : Call) (w : World) : Result Response * World :=
  server (call_request c) (call_context c) (call_env c) w.

Fixpoint run (cs : list Call) (w : World) : World :=
  match cs with
  | [] => w
  | c :: cs' => run cs' (snd (step c w))
  end.

(** The (generated id, caller id) of a call that created a project. *)
Definition creation (c : Call) (w : World) : list (string * string) :=
  match call_request c, locals_user (call_context c), fst (step c w) with
  | CreateProject _, Some u, Ok _ => [(randomUUID (call_env c), user_id u)]
  | _, _, _ => []
  end.

Fixpoint creations (cs : list Call) (w : World) : list (string * string) :=
  match cs with
  | [] => []
  | c :: cs' => creation c w ++ creations cs' (snd (step c w))
  end.

Definition owner_of (p : ComicProjects.row) : string * string :=
  (ComicProjects.id p, ComicProjects.userId p).

(** ** Names used by the statements *)

(** The two [where] conditions of the resolvers, named. *)
Definition owned_project (projectId userId : string) (r : ComicProjects.row) : bool :=
  sql.and (sql.eq (ComicProjects.id r) projectId) (sql.eq (ComicProjects.userId r) userId).

Definition page_of (pageId projectId : string) (r : ComicPages.row) : bool :=
  sql.and (sql.eq (ComicPages.id r) pageId) (sql.eq (ComicPages.projectId r) projectId).

(** The [where] conditions of the statements that go by primary key. *)
Definition by_project_id (id : string) (r : ComicProjects.row) : bool :=
  sql.eq (ComicProjects.id r) id.

Definition by_page_id (id : string) (r : ComicPages.row) : bool :=
  sql.eq (ComicPages.id r) id.

Definition by_panel_id (id : string) (r : ComicPanels.row) : bool :=
  sql.eq (ComicPanels.id r) id.

(** [or_else o old]: the supplied value, the old one when none is supplied. *)
Definition or_else {A} (o : option A) (old : A) : A :=
  match o with
  | Some v => v
  | None => old
  end.

Definition or_keep {A} (o : option A) (old : option A) : option A :=
  match o with
  | Some v => Some v
  | None => old
  end.

(** What a partial update is to leave of a row, field by field: the
    supplied fields replaced, the others as they were ([updatedAt] set for
    projects and pages). *)
Definition patched_project (i : updateProject.input) (env : Env) (r : ComicProjects.row)
  : ComicProjects.row :=
  ComicProjects.mk (ComicProjects.id r) (ComicProjects.userId r)
    (or_else (updateProject.title i) (ComicProjects.title r))
    (or_keep (updateProject.description i) (ComicProjects.description r))
    (or_keep (updateProject.genre i) (ComicProjects.genre r))
    (or_keep (updateProject.format i) (ComicProjects.format r))
    (or_keep (updateProject.targetAudience i) (ComicProjects.targetAudience r))
    (ComicProjects.createdAt r) (now env).

Definition patched_page (i : updatePage.input) (env : Env) (r : ComicPages.row)
  : ComicPages.row :=
  ComicPages.mk (ComicPages.id r) (ComicPages.projectId r)
    (or_else (updatePage.pageNumber i) (ComicPages.pageNumber r))
    (or_keep (updatePage.title i) (ComicPages.title r))
    (or_keep (updatePage.thumbnailUrl i) (ComicPages.thumbnailUrl r))
    (or_keep (updatePage.notes i) (ComicPages.notes r))
    (ComicPages.createdAt r) (now env).

Definition patched_panel (i : updatePanel.input) (r : ComicPanels.row) : ComicPanels.row :=
  ComicPanels.mk (ComicPanels.id r) (ComicPanels.pageId r)
    (or_else (updatePanel.panelIndex i) (ComicPanels.panelIndex r))
    (or_keep (updatePanel.layoutJson i) (ComicPanels.layoutJson r))
    (or_keep (updatePanel.description i) (ComicPanels.description r))
    (or_keep (updatePanel.dialogue i) (ComicPanels.dialogue r))
    (or_keep (updatePanel.caption i) (ComicPanels.caption r))
    (or_keep (updatePanel.soundEffects i) (ComicPanels.soundEffects r))
    (ComicPanels.createdAt r).

(** A computation that leaves the project table as it found it. *)
Definition keeps_projects {A} (m : M A) : Prop :=
  forall w, projects (db (snd (m w))) = projects (db w).

(** The error of [requireUser]. *)
Definition unauthorized : Thrown :=
  ActionError UNAUTHORIZED "You must be signed in to perform this action.".

(** ** Sample data *)

Definition alice : Context := mkContext (Some (mkLocals (Some (mkUser "alice")))).
Definition bob : Context := mkContext (Some (mkLocals (Some (mkUser "bob")))).
Definition anonymous : Context := mkContext (Some (mkLocals None)).
Definition no_locals : Context := mkContext None.

Definition sample_project (id owner : string) : ComicProjects.row :=
  ComicProjects.mk id owner "Issue 1" None (Some "noir") None None 10%Z 10%Z.

Definition sample_page (id projectId : string) : ComicPages.row :=
  ComicPages.mk id projectId 1%Z (Some "Opening") None None 20%Z 20%Z.

Definition sample_panel (id pageId : string) : ComicPanels.row :=
  ComicPanels.mk id pageId 0%Z None None (Some "Hello") None None 30%Z.

(** Alice owns project p1 with page g1 and panel n1; Bob owns project p2
    with page g2 and panel n2. *)
Definition sample_db : Db :=
  mkDb [sample_project "p1" "alice"; sample_project "p2" "bob"]
       [sample_page "g1" "p1"; sample_page "g2" "p2"]
       [sample_panel "n1" "g1"; sample_panel "n2" "g2"].

Definition sample_world : World := mkWorld sample_db [].

Definition sample_env : Env := mkEnv "fresh-1" 100%Z.

Definition empty_world : World := mkWorld (mkDb [] [] []) [].

(** Alice creates a project; Bob tries to retitle it; Alice retitles it;
    Bob creates a project of his own; Bob lists his projects. *)
Definition sample_calls : list Call :=
  [ mkCall alice (mkEnv "u1" 1%Z)
      (CreateProject (createProject.mk "Issue 1" None None None None));
    mkCall bob (mkEnv "u2" 2%Z)
      (UpdateProject (updateProject.mk "u1" (Some "Stolen") None None None None));
    mkCall alice (mkEnv "u3" 3%Z)
      (UpdateProject (updateProject.mk "u1" (Some "Issue 1, revised") None None None None));
    mkCall bob (mkEnv "u4" 4%Z)
      (CreateProject (createProject.mk "Issue 2" None None None None));
    mkCall bob (mkEnv "u5" 5%Z) (ListProjects tt) ].

(** ** Store invariants and the transitions of the store *)

Definition is_select (o : DbOp) : bool :=
  match o with
  | OpSelect _ => true
  | _ => false
  end.

Definition is_listing (q : Request) : bool :=
  match q with
  | ListProjects _ | ListPages _ | ListPanels _ => true
  | _ => false
  end.

(** No key occurs twice. *)
Fixpoint unique_ids (l : list string) : bool :=
  match l with
  | [] => true
  | k :: l' => negb (existsb (String.eqb k) l') && unique_ids l'
  end.

(** The primary keys of the three tables. *)
Definition keys_ok (d : Db) : bool :=
  unique_ids (map ComicProjects.id (projects d))
  && unique_ids (map ComicPages.id (pages d))
  && unique_ids (map ComicPanels.id (panels d)).

(** The two [references] of [tables.ts]: every page points to a project
    row, every panel to a page row. *)
Definition refs_ok (d : Db) : bool :=
  forallb (fun g => existsb (fun p => String.eqb (ComicProjects.id p) (ComicPages.projectId g))
                            (projects d)) (pages d)
  && forallb (fun n => existsb (fun g => String.eqb (ComicPages.id g) (ComicPanels.pageId n))
                               (pages d)) (panels d).

(** What the schemas ask of stored values: a project title has at least
    one character, a page number is at least 1. *)
Definition fields_ok (d : Db) : bool :=
  forallb (fun p => (1 <=? String.length (ComicProjects.title p))%nat) (projects d)
  && forallb (fun g => (1 <=? ComicPages.pageNumber g)%Z) (pages d).

(** The changes a call of the named action can make to the tables. *)
Inductive db_step : Request -> Db -> Db -> Prop :=
| st_none q d : db_step q d d
| st_insert_project i p d :
    (forall x, In x (projects d) -> ComicProjects.id x <> ComicProjects.id p) ->
    (1 <= String.length (ComicProjects.title p))%nat ->
    db_step (CreateProject i) d (mkDb (projects d ++ [p]) (pages d) (panels d))
| st_update_project i env d :
    (forall t, updateProject.title i = Some t -> (1 <= String.length t)%nat) ->
    db_step (UpdateProject i) d
      (mkDb (map (fun r => if by_project_id (updateProject.id i) r
                           then patched_project i env r else r) (projects d))
            (pages d) (panels d))
| st_insert_page i g d :
    (forall x, In x (pages d) -> ComicPages.id x <> ComicPages.id g) ->
    (exists p, In p (projects d) /\ ComicProjects.id p = ComicPages.projectId g) ->
    (1 <= ComicPages.pageNumber g)%Z ->
    db_step (CreatePage i) d (mkDb (projects d) (pages d ++ [g]) (panels d))
| st_update_page i env d :
    (forall n, updatePage.pageNumber i = Some n -> (1 <= n)%Z) ->
    db_step (UpdatePage i) d
      (mkDb (projects d)
            (map (fun r => if by_page_id (updatePage.id i) r
                           then patched_page i env r else r) (pages d))
            (panels d))
| st_delete_page i d :
    db_step (DeletePage i) d
      (mkDb (projects d)
            (filter (fun r => negb (by_page_id (deletePage.id i) r)) (pages d))
            (filter (fun r => negb (sql.eq (ComicPanels.pageId r) (deletePage.id i)))
                    (panels d)))
| st_insert_panel i n d :
    (forall x, In x (panels d) -> ComicPanels.id x <> ComicPanels.id n) ->
    (exists g, In g (pages d) /\ ComicPages.id g = ComicPanels.pageId n) ->
    db_step (CreatePanel i) d (mkDb (projects d) (pages d) (panels d ++ [n]))
| st_update_panel i d :
    db_step (UpdatePanel i) d
      (mkDb (projects d) (pages d)
            (map (fun r => if by_panel_id (updatePanel.id i) r
                           then patched_panel i r else r) (panels d)))
| st_delete_panel i d :
    db_step (DeletePanel i) d
      (mkDb (projects d) (pages d)
            (filter (fun r => negb (by_panel_id (deletePanel.id i) r)) (panels d))).

(** The inputs an action takes, written out: what its schema is to accept. *)
Definition acceptable (q : Request) : Prop :=
  match q with
  | CreateProject i => createProject.title i <> ""
  | UpdateProject i =>
      updateProject.id i <> "" /\ updateProject.title i <> Some "" /\
      (updateProject.title i <> None \/ updateProject.description i <> None \/
       updateProject.genre i <> None \/ updateProject.format i <> None \/
       updateProject.targetAudience i <> None)
  | ListProjects _ => True
  | CreatePage i => createPage.projectId i <> "" /\ (1 <= createPage.pageNumber i)%Z
  | UpdatePage i =>
      updatePage.id i <> "" /\ updatePage.projectId i <> "" /\
      (forall n, updatePage.pageNumber i = Some n -> (1 <= n)%Z) /\
      (updatePage.pageNumber i <> None \/ updatePage.title i <> None \/
       updatePage.thumbnailUrl i <> None \/ updatePage.notes i <> None)
  | DeletePage i => deletePage.id i <> "" /\ deletePage.projectId i <> ""
  | ListPages i => listPages.projectId i <> ""
  | CreatePanel i => createPanel.pageId i <> "" /\ createPanel.projectId i <> ""
  | UpdatePanel i =>
      updatePanel.id i <> "" /\ updatePanel.pageId i <> "" /\
      updatePanel.projectId i <> "" /\
      (updatePanel.panelIndex i <> None \/ updatePanel.layoutJson i <> None \/
       updatePanel.description i <> None \/ updatePanel.dialogue i <> None \/
       updatePanel.caption i <> None \/ updatePanel.soundEffects i <> None)
  | DeletePanel i =>
      deletePanel.id i <> "" /\ deletePanel.pageId i <> "" /\ deletePanel.projectId i <> ""
  | ListPanels i => listPanels.pageId i <> "" /\ listPanels.projectId i <> ""
  end.

(** The actions that insert a row. *)
Definition is_create (q : Request) : bool :=
  match q with
  | CreateProject _ | CreatePage _ | CreatePanel _ => true
  | _ => false
  end.

(** ** The store with its refusals

    The statements above are the store at its most permissive: a delete
    always goes through and every row written or found is handed back.  The
    store behind [astro:db] refuses more than that, and [Strict] is the same
    set of statements and handlers with these refusals:
    - the [references] of [tables.ts] are enforced: an insert whose parent
      row is missing and a delete of a row that a child row still points to
      are refused, and nothing is written;
    - a [column.number()] is an integer column, and the client hands an
      integer back only if it is a safe integer; a statement that has to
      return a row holding any other integer throws [RangeError], an insert
      or update after the row was written.
    [z.number().int()] lets integers beyond the safe range through. *)

Definition MAX_SAFE_INTEGER : Z := 9007199254740991.

(** [Number.isSafeInteger] on an integer. *)
Definition safe_integer (n : Z) : bool :=
  (- MAX_SAFE_INTEGER <=? n)%Z && (n <=? MAX_SAFE_INTEGER)%Z.

Module Strict.

(** A table with what the store checks on it: whether a row can be handed
    back, whether the parent an inserted row points to is there, whether a
    row is still pointed to by a child row. *)
Record Table (R : Type) := mkTable {
  plain : TableDesc R;
  readable : R -> bool;
  parent_present : R -> Db -> bool;
  referenced : R -> Db -> bool
}.

Definition tbl_ComicProjects : Table ComicProjects.row :=
  mkTable tbl_ComicProjects
    (fun _ => true)
    (fun _ _ => true)
    (fun r d => existsb (fun g => String.eqb (ComicPages.projectId g) (ComicProjects.id r))
                        (pages d)).

Definition tbl_ComicPages : Table ComicPages.row :=
  mkTable tbl_ComicPages
    (fun r => safe_integer (ComicPages.pageNumber r))
    (fun r d => existsb (fun p => String.eqb (ComicProjects.id p) (ComicPages.projectId r))
                        (projects d))
    (fun r d => existsb (fun n => String.eqb (ComicPanels.pageId n) (ComicPages.id r))
                        (panels d)).

Definition tbl_ComicPanels : Table ComicPanels.row :=
  mkTable tbl_ComicPanels
    (fun r => safe_integer (ComicPanels.panelIndex r))
    (fun r d => existsb (fun g => String.eqb (ComicPages.id g) (ComicPanels.pageId r))
                        (pages d))
    (fun _ _ => false).

Section Statements.
Variable R : Type.
Variable T : Table R.

(** The rows of a result, or [RangeError] when one of them cannot be
    handed back. *)
Definition handed_back (l : list R) : Result (list R) :=
  if forallb (readable T) l then Ok l else Throw RangeError.

Definition select (cond : R -> bool) : M (list R) :=
  fun w =>
    (handed_back (filter cond (rows (plain T) (db w))),
     logged (OpSelect (tname (plain T))) w).

Definition insert (r : R) : M (list R) :=
  fun w =>
    if existsb (fun x => String.eqb (pk (plain T) x) (pk (plain T) r)) (rows (plain T) (db w))
       || negb (parent_present T r (db w))
    then (Throw (ConstraintError (tname (plain T))), logged (OpInsert (tname (plain T))) w)
    else (handed_back [r],
          mkWorld (with_rows (plain T) (rows (plain T) (db w) ++ [r]) (db w))
                  (trace w ++ [OpInsert (tname (plain T))])).

Definition update (s : R -> R) (cond : R -> bool) : M (list R) :=
  fun w =>
    (handed_back (map s (filter cond (rows (plain T) (db w)))),
     mkWorld (with_rows (plain T)
                (map (fun r => if cond r then s r else r) (rows (plain T) (db w))) (db w))
             (trace w ++ [OpUpdate (tname (plain T))])).

Definition delete (cond : R -> bool) : M nat :=
  fun w =>
    if existsb (fun r => referenced T r (db w)) (filter cond (rows (plain T) (db w)))
    then (Throw (ConstraintError (tname (plain T))), logged (OpDelete (tname (plain T))) w)
    else (Ok (length (filter cond (rows (plain T) (db w)))),
          mkWorld (with_rows (plain T)
                     (filter (fun r => negb (cond r)) (rows (plain T) (db w))) (db w))
                  (trace w ++ [OpDelete (tname (plain T))])).
End Statements.

Definition getOwnedProject (projectId userId : string) : M ComicProjects.row :=
  found <- select tbl_ComicProjects
             (fun r => sql.and (sql.eq (ComicProjects.id r) projectId)
                               (sql.eq (ComicProjects.userId r) userId)) ;;
  match first found with
  | None => throw (ActionError NOT_FOUND "Project not found.")
  | Some project => ret project
  end.

Definition getOwnedPage (pageId projectId userId : string) : M ComicPages.row :=
  getOwnedProject projectId userId ;;;
  found <- select tbl_ComicPages
             (fun r => sql.and (sql.eq (ComicPages.id r) pageId)
                               (sql.eq (ComicPages.projectId r) projectId)) ;;
  match first found with
  | None => throw (ActionError NOT_FOUND "Page not found.")
  | Some page => ret page
  end.

(** The eleven handlers, statement for statement as above. *)
Definition createProject (i : createProject.input) (context : Context) (env : Env)
  : M (Reply (option ComicProjects.row)) :=
  u <- requireUser context ;;
  inserted <- insert tbl_ComicProjects
    (ComicProjects.mk (randomUUID env) (user_id u) (createProject.title i)
       (createProject.description i) (createProject.genre i) (createProject.format i)
       (createProject.targetAudience i) (now env) (now env)) ;;
  ret (mkReply true (first inserted)).

Definition updateProject (i : updateProject.input) (context : Context) (env : Env)
  : M (Reply (option ComicProjects.row)) :=
  u <- requireUser context ;;
  getOwnedProject (updateProject.id i) (user_id u) ;;;
  updated <- update tbl_ComicProjects (updateProject.set i env)
               (fun r => sql.eq (ComicProjects.id r) (updateProject.id i)) ;;
  ret (mkReply true (first updated)).

Definition listProjects (i : listProjects.input) (context : Context) (env : Env)
  : M (Reply (Listing ComicProjects.row)) :=
  u <- requireUser context ;;
  found <- select tbl_ComicProjects (fun r => sql.eq (ComicProjects.userId r) (user_id u)) ;;
  ret (mkReply true (mkListing found (length found))).

Definition createPage (i : createPage.input) (context : Context) (env : Env)
  : M (Reply (option ComicPages.row)) :=
  u <- requireUser context ;;
  getOwnedProject (createPage.projectId i) (user_id u) ;;;
  inserted <- insert tbl_ComicPages
    (ComicPages.mk (randomUUID env) (createPage.projectId i) (createPage.pageNumber i)
       (createPage.title i) (createPage.thumbnailUrl i) (createPage.notes i)
       (now env) (now env)) ;;
  ret (mkReply true (first inserted)).

Definition updatePage (i : updatePage.input) (context : Context) (env : Env)
  : M (Reply (option ComicPages.row)) :=
  u <- requireUser context ;;
  getOwnedPage (updatePage.id i) (updatePage.projectId i) (user_id u) ;;;
  updated <- update tbl_ComicPages (updatePage.set i env)
               (fun r => sql.eq (ComicPages.id r) (updatePage.id i)) ;;
  ret (mkReply true (first updated)).

Definition deletePage (i : deletePage.input) (context : Context) (env : Env)
  : M (Reply unit) :=
  u <- requireUser context ;;
  getOwnedPage (deletePage.id i) (deletePage.projectId i) (user_id u) ;;;
  delete tbl_ComicPages (fun r => sql.eq (ComicPages.id r) (deletePage.id i)) ;;;
  delete tbl_ComicPanels (fun r => sql.eq (ComicPanels.pageId r) (deletePage.id i)) ;;;
  ret (mkReply true tt).

Definition listPages (i : listPages.input) (context : Context) (env : Env)
  : M (Reply (Listing ComicPages.row)) :=
  u <- requireUser context ;;
  getOwnedProject (listPages.projectId i) (user_id u) ;;;
  found <- select tbl_ComicPages
             (fun r => sql.eq (ComicPages.projectId r) (listPages.projectId i)) ;;
  ret (mkReply true (mkListing found (length found))).

Definition createPanel (i : createPanel.input) (context : Context) (env : Env)
  : M (Reply (option ComicPanels.row)) :=
  u <- requireUser context ;;
  getOwnedPage (createPanel.pageId i) (createPanel.projectId i) (user_id u) ;;;
  inserted <- insert tbl_ComicPanels
    (ComicPanels.mk (randomUUID env) (createPanel.pageId i) (createPanel.panelIndex i)
       (createPanel.layoutJson i) (createPanel.description i) (createPanel.dialogue i)
       (createPanel.caption i) (createPanel.soundEffects i) (now env)) ;;
  ret (mkReply true (first inserted)).

Definition updatePanel (i : updatePanel.input) (context : Context) (env : Env)
  : M (Reply (option ComicPanels.row)) :=
  u <- requireUser context ;;
  getOwnedPage (updatePanel.pageId i) (updatePanel.projectId i) (user_id u) ;;;
  found <- select tbl_ComicPanels (fun r => sql.eq (ComicPanels.id r) (updatePanel.id i)) ;;
  match first found with
  | None => throw (ActionError NOT_FOUND "Panel not found.")
  | Some existing =>
      updated <- update tbl_ComicPanels (updatePanel.set i)
                   (fun r => sql.eq (ComicPanels.id r) (updatePanel.id i)) ;;
      ret (mkReply true (first updated))
  end.

Definition deletePanel (i : deletePanel.input) (context : Context) (env : Env)
  : M (Reply unit) :=
  u <- requireUser context ;;
  getOwnedPage (deletePanel.pageId i) (deletePanel.projectId i) (user_id u) ;;;
  rowsAffected <- delete tbl_ComicPanels
                    (fun r => sql.eq (ComicPanels.id r) (deletePanel.id i)) ;;
  if (rowsAffected =? 0)%nat
  then throw (ActionError NOT_FOUND "Panel not found.")
  else ret (mkReply true tt).

Definition listPanels (i : listPanels.input) (context : Context) (env : Env)
  : M (Reply (Listing ComicPanels.row)) :=
  u <- requireUser context ;;
  getOwnedPage (listPanels.pageId i) (listPanels.projectId i) (user_id u) ;;;
  found <- select tbl_ComicPanels
             (fun r => sql.eq (ComicPanels.pageId r) (listPanels.pageId i)) ;;
  ret (mkReply true (mkListing found (length found))).

Definition handler_of (q : Request) (context : Context) (env : Env) : M Response :=
  match q with
  | CreateProject i => fmap ProjectReply (createProject i context env)
  | UpdateProject i => fmap ProjectReply (updateProject i context env)
  | ListProjects i => fmap ProjectsReply (listProjects i context env)
  | CreatePage i => fmap PageReply (createPage i context env)
  | UpdatePage i => fmap PageReply (updatePage i context env)
  | DeletePage i => fmap SuccessReply (deletePage i context env)
  | ListPages i => fmap PagesReply (listPages i context env)
  | CreatePanel i => fmap PanelReply (createPanel i context env)
  | UpdatePanel i => fmap PanelReply (updatePanel i context env)
  | DeletePanel i => fmap SuccessReply (deletePanel i context env)
  | ListPanels i => fmap PanelsReply (listPanels i context env)
  end.

(** The action: [defineAction] with the schema of the request. *)
Definition server (q : Request) (context : Context) (env : Env) : M Response :=
  defineAction schema_of (fun q => handler_of q) q context env.

End Strict.

(** The [readable] of the page and panel tables, named. *)
Definition readable_page (g : ComicPages.row) : bool :=
  safe_integer (ComicPages.pageNumber g).

Definition readable_panel (n : ComicPanels.row) : bool :=
  safe_integer (ComicPanels.panelIndex n).

(** [s] refines [p]: whenever [s] returns, [p] returns the same from the
    same world. *)
Definition refines {A} (s p : M A) : Prop :=
  forall w a w', s w = (Ok a, w') -> p w = (Ok a, w').

(** The actions whose statements return page or panel rows. *)
Definition reads_numbers (q : Request) : bool :=
  match q with
  | CreateProject _ | UpdateProject _ | ListProjects _ => false
  | _ => true
  end.

(** The actions whose statements the store can refuse: the inserts, and
    the delete of a page. *)
Definition can_be_refused (q : Request) : bool :=
  match q with
  | CreateProject _ | CreatePage _ | CreatePanel _ | DeletePage _ => true
  | _ => false
  end.

(** Alice's project p1 with page g1 (panel n1) and page g3 (no panel);
    Bob's project p2 with page g2 (panel n2). *)
Definition sample_db3 : Db :=
  mkDb [sample_project "p1" "alice"; sample_project "p2" "bob"]
       [sample_page "g1" "p1"; sample_page "g2" "p2"; sample_page "g3" "p1"]
       [sample_panel "n1" "g1"; sample_panel "n2" "g2"].

Definition sample_world3 : World := mkWorld sample_db3 [].

(** ** Lists, filters and the monad *)

Unset Implicit Arguments.

Lemma filter_none {A} (f : A -> bool) (l : list A) :
  (forall x, In x l -> f x = false) -> filter f l = [].
Proof.
  induction l as [|a l IH]; intros H; simpl; [reflexivity|].
  rewrite (H a (or_introl eq_refl)). apply IH. intros x Hx. apply H. now right.
Qed.

Lemma filter_some {A} (f : A -> bool) (l : list A) (x : A) :
  In x l -> f x = true -> exists y, first (filter f l) = Some y /\ In y l /\ f y = true.
Proof.
  induction l as [|a l IH]; intros Hin Hf; [destruct Hin|].
  simpl. destruct (f a) eqn:Ha.
  - exists a. simpl. auto.
  - destruct Hin as [->|Hin]; [congruence|].
    destruct (IH Hin Hf) as (y & Hy & Hy' & Hy''). exists y. auto.
Qed.

Lemma first_filter_in {A} (f : A -> bool) (l : list A) (y : A) :
  first (filter f l) = Some y -> In y l /\ f y = true.
Proof.
  intros H. assert (Hin : In y (filter f l)).
  { destruct (filter f l); simpl in H; [discriminate|]. injection H as ->. now left. }
  now apply filter_In in Hin.
Qed.

Lemma sql_eq_true (a b : string) : sql.eq a b = true <-> a = b.
Proof. apply String.eqb_eq. Qed.

Lemma sql_eq_false (a b : string) : sql.eq a b = false <-> a <> b.
Proof. apply String.eqb_neq. Qed.

Lemma bind_ok {A B} (m : M A) (k : A -> M B) w a w' :
  m w = (Ok a, w') -> bind m k w = k a w'.
Proof. intros H. unfold bind. now rewrite H. Qed.

Lemma bind_throw {A B} (m : M A) (k : A -> M B) w e w' :
  m w = (Throw e, w') -> bind m k w = (Throw e, w').
Proof. intros H. unfold bind. now rewrite H. Qed.

Lemma fmap_run {A B} (f : A -> B) (m : M A) w :
  fmap f m w =
  (match fst (m w) with Ok a => Ok (f a) | Throw e => Throw e end, snd (m w)).
Proof. unfold fmap, bind, ret. destruct (m w) as [[a|e] w']; reflexivity. Qed.

(** ** [requireUser] *)

Lemma requireUser_none context w :
  locals_user context = None -> requireUser context w = (Throw unauthorized, w).
Proof. intros H. unfold requireUser. now rewrite H. Qed.

Lemma requireUser_some context u w :
  locals_user context = Some u -> requireUser context w = (Ok u, w).
Proof. intros H. unfold requireUser. now rewrite H. Qed.

(** ** The resolvers, as equations *)

Lemma getOwnedProject_run projectId userId w :
  getOwnedProject projectId userId w =
  (match first (filter (owned_project projectId userId) (projects (db w))) with
   | Some project => Ok project
   | None => Throw (ActionError NOT_FOUND "Project not found.")
   end, logged (OpSelect ComicProjectsT) w).
Proof.
  unfold getOwnedProject, bind, select. cbn [rows tbl_ComicProjects tname].
  fold (owned_project projectId userId).
  destruct (first _); reflexivity.
Qed.

Lemma getOwnedPage_run pageId projectId userId w :
  getOwnedPage pageId projectId userId w =
  match first (filter (owned_project projectId userId) (projects (db w))) with
  | None => (Throw (ActionError NOT_FOUND "Project not found."),
             logged (OpSelect ComicProjectsT) w)
  | Some _ =>
      (match first (filter (page_of pageId projectId) (pages (db w))) with
       | Some page => Ok page
       | None => Throw (ActionError NOT_FOUND "Page not found.")
       end, logged (OpSelect ComicPagesT) (logged (OpSelect ComicProjectsT) w))
  end.
Proof.
  unfold getOwnedPage. unfold bind at 1. rewrite getOwnedProject_run.
  destruct (first (filter (owned_project _ _) _)); [|reflexivity].
  unfold bind, select. cbn [rows tbl_ComicPages tname logged db].
  fold (page_of pageId projectId).
  destruct (first _); reflexivity.
Qed.

(** The resolvers only read. *)
Lemma getOwnedProject_db projectId userId w :
  db (snd (getOwnedProject projectId userId w)) = db w.
Proof. rewrite getOwnedProject_run. reflexivity. Qed.

Lemma getOwnedPage_db pageId projectId userId w :
  db (snd (getOwnedPage pageId projectId userId w)) = db w.
Proof. rewrite getOwnedPage_run. destruct (first _); reflexivity. Qed.

(** ** C3 *)

(** C3: when no project row has both the given id and the given owner,
    [getOwnedProject] throws NOT_FOUND "Project not found." after its one
    select and leaves the tables as they were.  The hypothesis does not look
    at rows of other owners, so a project that exists under another owner
    gives the very same error as a project that does not exist. *)
Theorem getOwnedProject_not_owned (projectId userId : string) (w : World) :
  (forall p, In p (projects (db w)) ->
             ComicProjects.id p = projectId -> ComicProjects.userId p <> userId) ->
  getOwnedProject projectId userId w =
  (Throw (ActionError NOT_FOUND "Project not found."), logged (OpSelect ComicProjectsT) w).
Proof.
  intros H. rewrite getOwnedProject_run.
  rewrite filter_none; [reflexivity|].
  intros p Hp. unfold owned_project.
  destruct (sql.eq (ComicProjects.id p) projectId) eqn:E; [|reflexivity].
  apply sql_eq_true in E. unfold sql.and. simpl. apply sql_eq_false. now apply H.
Qed.

(** Bob asks for p1, which exists and belongs to Alice; then for a project
    that does not exist at all: the two answers are the same. *)
Lemma getOwnedProject_not_owned_witness :
  (exists p, In p (projects (db sample_world)) /\ ComicProjects.id p = "p1") /\
  getOwnedProject "p1" "bob" sample_world =
  (Throw (ActionError NOT_FOUND "Project not found."),
   logged (OpSelect ComicProjectsT) sample_world) /\
  fst (getOwnedProject "p1" "bob" sample_world) = fst (getOwnedProject "p9" "bob" sample_world).
Proof.
  split; [exists (sample_project "p1" "alice"); split; [now left|reflexivity]|].
  split.
  - apply (getOwnedProject_not_owned "p1" "bob" sample_world).
    intros p [<-|[<-|[]]]; simpl; intros H; discriminate.
  - reflexivity.
Defined.

(** ** C4 *)

(** C4: [getOwnedPage] resolves the project first and passes its failure on
    unchanged (same error, same world); once the project resolves it throws
    NOT_FOUND "Page not found." whenever no page row has both the given id
    and the given projectId, whatever other project the page may be under. *)
Theorem getOwnedPage_chain (pageId projectId userId : string) (w : World) :
  (forall e w', getOwnedProject projectId userId w = (Throw e, w') ->
                getOwnedPage pageId projectId userId w = (Throw e, w')) /\
  (forall project w', getOwnedProject projectId userId w = (Ok project, w') ->
     (forall g, In g (pages (db w)) ->
                ComicPages.id g = pageId -> ComicPages.projectId g <> projectId) ->
     getOwnedPage pageId projectId userId w =
     (Throw (ActionError NOT_FOUND "Page not found."), logged (OpSelect ComicPagesT) w')).
Proof.
  split.
  - intros e w' H. unfold getOwnedPage. now apply bind_throw.
  - intros project w' H Hnone.
    rewrite getOwnedPage_run. rewrite getOwnedProject_run in H.
    destruct (first (filter (owned_project _ _) _)); [|discriminate].
    injection H as _ <-.
    rewrite filter_none; [reflexivity|].
    intros g Hg. unfold page_of.
    destruct (sql.eq (ComicPages.id g) pageId) eqn:E; [|reflexivity].
    apply sql_eq_true in E. unfold sql.and. simpl. apply sql_eq_false. now apply Hnone.
Qed.

(** Page g2 exists, but under Bob's project p2: Alice, who owns p1, asks
    for g2 under p1.  And Bob asking for g1 under p1 gets the project's
    failure. *)
Lemma getOwnedPage_chain_witness :
  getOwnedPage "g2" "p1" "alice" sample_world =
  (Throw (ActionError NOT_FOUND "Page not found."),
   logged (OpSelect ComicPagesT) (logged (OpSelect ComicProjectsT) sample_world)) /\
  getOwnedPage "g1" "p1" "bob" sample_world =
  (Throw (ActionError NOT_FOUND "Project not found."),
   logged (OpSelect ComicProjectsT) sample_world).
Proof.
  split.
  - apply (proj2 (getOwnedPage_chain "g2" "p1" "alice" sample_world)
             (sample_project "p1" "alice")).
    + reflexivity.
    + intros g [<-|[<-|[]]]; simpl; intros H; discriminate.
  - apply (proj1 (getOwnedPage_chain "g1" "p1" "bob" sample_world)). reflexivity.
Defined.

(** ** C1 *)

Lemma handler_of_unauthenticated q context env w :
  locals_user context = None -> handler_of q context env w = (Throw unauthorized, w).
Proof.
  intros H.
  destruct q; cbn [handler_of]; rewrite fmap_run;
    [ unfold createProject.handler | unfold updateProject.handler
    | unfold listProjects.handler | unfold createPage.handler
    | unfold updatePage.handler | unfold deletePage.handler
    | unfold listPages.handler | unfold createPanel.handler
    | unfold updatePanel.handler | unfold deletePanel.handler
    | unfold listPanels.handler ];
    unfold bind; rewrite (requireUser_none _ _ H); reflexivity.
Qed.

Lemma defineAction_run {I O} (schema : I -> list ZodIssue)
    (handler : I -> Context -> Env -> M O) i context env w :
  defineAction schema handler i context env w =
  match schema i with
  | [] => handler i context env w
  | issues => (Throw (ActionInputError issues), w)
  end.
Proof. unfold defineAction. destruct (schema i); reflexivity. Qed.

Lemma server_run q context env w :
  server q context env w =
  match schema_of q with
  | [] => handler_of q context env w
  | issues => (Throw (ActionInputError issues), w)
  end.
Proof.
  destruct q; cbn [server schema_of handler_of]; rewrite !fmap_run;
    [ unfold createProject.action | unfold updateProject.action
    | unfold listProjects.action | unfold createPage.action
    | unfold updatePage.action | unfold deletePage.action
    | unfold listPages.action | unfold createPanel.action
    | unfold updatePanel.action | unfold deletePanel.action
    | unfold listPanels.action ];
    rewrite defineAction_run;
    match goal with |- context [match ?s with [] => _ | _ :: _ => _ end] => destruct s end;
    reflexivity.
Qed.

(** C1: when the request context carries no user, the handler of each of
    the eleven actions throws UNAUTHORIZED and hands the world back as it
    got it: no row is inserted, updated or deleted, and the statement trace
    is not even extended by a select.  The same holds for the whole action
    on every input its schema accepts; on an input the schema rejects the
    world is untouched as well. *)
Theorem unauthenticated_rejected (q : Request) (context : Context) (env : Env) (w : World) :
  locals_user context = None ->
  handler_of q context env w =
    (Throw (ActionError UNAUTHORIZED "You must be signed in to perform this action."), w) /\
  (schema_of q = [] ->
   server q context env w =
     (Throw (ActionError UNAUTHORIZED "You must be signed in to perform this action."), w)) /\
  snd (server q context env w) = w.
Proof.
  intros H. pose proof (handler_of_unauthenticated q context env w H) as Hh.
  fold unauthorized. split; [exact Hh|]. split.
  - intros Hs. rewrite server_run, Hs. exact Hh.
  - rewrite server_run. destruct (schema_of q); [now rewrite Hh|reflexivity].
Qed.

Lemma unauthenticated_rejected_witness :
  handler_of (DeletePanel (deletePanel.mk "n1" "g1" "p1")) anonymous sample_env sample_world =
    (Throw (ActionError UNAUTHORIZED "You must be signed in to perform this action."),
     sample_world) /\
  server (CreateProject (createProject.mk "Issue 2" None None None None)) no_locals sample_env
         sample_world =
    (Throw (ActionError UNAUTHORIZED "You must be signed in to perform this action."),
     sample_world).
Proof.
  split.
  - exact (proj1 (unauthenticated_rejected (DeletePanel (deletePanel.mk "n1" "g1" "p1"))
                    anonymous sample_env sample_world eq_refl)).
  - exact (proj1 (proj2 (unauthenticated_rejected
                           (CreateProject (createProject.mk "Issue 2" None None None None))
                           no_locals sample_env sample_world eq_refl)) eq_refl).
Defined.

(** ** C7 *)

Lemma refine_false message : refine false message = [custom message].
Proof. reflexivity. Qed.

Lemma rejected_with {I O} (schema : I -> list ZodIssue)
    (handler : I -> Context -> Env -> M O) i context env w issue :
  In issue (schema i) ->
  exists issues,
    defineAction schema handler i context env w = (Throw (ActionInputError issues), w) /\
    In issue issues.
Proof.
  intros H. rewrite defineAction_run. destruct (schema i) as [|x l]; [destruct H|].
  exists (x :: l). split; [reflexivity|exact H].
Qed.

(** C7: an update input that supplies none of the action's mutable fields
    is turned down by the schema of [updateProject], [updatePage] and
    [updatePanel]: the action throws the input error, the message
    "At least one field must be provided to update." is among its issues, and
    the world (tables and statement trace) is the one the call started
    from: the handler body, and with it every select and update, never
    runs. *)
Theorem empty_update_rejected (context : Context) (env : Env) (w : World) :
  (forall i,
     updateProject.title i = None -> updateProject.description i = None ->
     updateProject.genre i = None -> updateProject.format i = None ->
     updateProject.targetAudience i = None ->
     exists issues,
       updateProject.action i context env w = (Throw (ActionInputError issues), w) /\
       In (custom "At least one field must be provided to update.") issues) /\
  (forall i,
     updatePage.pageNumber i = None -> updatePage.title i = None ->
     updatePage.thumbnailUrl i = None -> updatePage.notes i = None ->
     exists issues,
       updatePage.action i context env w = (Throw (ActionInputError issues), w) /\
       In (custom "At least one field must be provided to update.") issues) /\
  (forall i,
     updatePanel.panelIndex i = None -> updatePanel.layoutJson i = None ->
     updatePanel.description i = None -> updatePanel.dialogue i = None ->
     updatePanel.caption i = None -> updatePanel.soundEffects i = None ->
     exists issues,
       updatePanel.action i context env w = (Throw (ActionInputError issues), w) /\
       In (custom "At least one field must be provided to update.") issues).
Proof.
  fold no_fields_message. repeat split.
  - intros i H1 H2 H3 H4 H5. apply rejected_with.
    unfold updateProject.schema, updateProject.some_field.
    rewrite H1, H2, H3, H4, H5. cbn [supplied orb refine].
    rewrite !in_app_iff. right. right. now left.
  - intros i H1 H2 H3 H4. apply rejected_with.
    unfold updatePage.schema, updatePage.some_field.
    rewrite H1, H2, H3, H4. cbn [supplied orb refine].
    rewrite !in_app_iff. do 3 right. now left.
  - intros i H1 H2 H3 H4 H5 H6. apply rejected_with.
    unfold updatePanel.schema, updatePanel.some_field.
    rewrite H1, H2, H3, H4, H5, H6. cbn [supplied orb refine].
    rewrite !in_app_iff. do 3 right. now left.
Qed.

Lemma empty_update_rejected_witness :
  (exists issues,
     updateProject.action (updateProject.mk "p1" None None None None None) alice sample_env
                          sample_world = (Throw (ActionInputError issues), sample_world) /\
     In (custom "At least one field must be provided to update.") issues) /\
  (exists issues,
     updatePage.action (updatePage.mk "g1" "p1" None None None None) alice sample_env
                       sample_world = (Throw (ActionInputError issues), sample_world) /\
     In (custom "At least one field must be provided to update.") issues) /\
  (exists issues,
     updatePanel.action (updatePanel.mk "n1" "g1" "p1" None None None None None None) alice
                        sample_env sample_world
     = (Throw (ActionInputError issues), sample_world) /\
     In (custom "At least one field must be provided to update.") issues).
Proof.
  destruct (empty_update_rejected alice sample_env sample_world) as (H1 & H2 & H3).
  split; [|split].
  - apply (H1 (updateProject.mk "p1" None None None None None)); reflexivity.
  - apply (H2 (updatePage.mk "g1" "p1" None None None None)); reflexivity.
  - apply (H3 (updatePanel.mk "n1" "g1" "p1" None None None None None None)); reflexivity.
Defined.

(** ** The handlers past [requireUser] and the resolver *)

Lemma getOwnedProject_ok projectId userId w project w1 :
  getOwnedProject projectId userId w = (Ok project, w1) ->
  w1 = logged (OpSelect ComicProjectsT) w /\
  In project (projects (db w)) /\
  ComicProjects.id project = projectId /\ ComicProjects.userId project = userId.
Proof.
  rewrite getOwnedProject_run. intros H.
  destruct (first _) as [p|] eqn:E; [|discriminate].
  injection H as -> <-. split; [reflexivity|].
  apply first_filter_in in E. destruct E as [Hin Hc]. split; [exact Hin|].
  unfold owned_project, sql.and in Hc. apply andb_true_iff in Hc.
  destruct Hc as [H1 H2]. now rewrite sql_eq_true in H1, H2.
Qed.

Lemma getOwnedPage_ok pageId projectId userId w page w1 :
  getOwnedPage pageId projectId userId w = (Ok page, w1) ->
  w1 = logged (OpSelect ComicPagesT) (logged (OpSelect ComicProjectsT) w) /\
  In page (pages (db w)) /\
  ComicPages.id page = pageId /\ ComicPages.projectId page = projectId.
Proof.
  rewrite getOwnedPage_run. intros H.
  destruct (first (filter (owned_project _ _) _)); [|discriminate].
  destruct (first _) as [g|] eqn:E; [|discriminate].
  injection H as -> <-. split; [reflexivity|].
  apply first_filter_in in E. destruct E as [Hin Hc]. split; [exact Hin|].
  unfold page_of, sql.and in Hc. apply andb_true_iff in Hc.
  destruct Hc as [H1 H2]. now rewrite sql_eq_true in H1, H2.
Qed.

Lemma updatePanel_run i context env w u page w1 :
  locals_user context = Some u ->
  getOwnedPage (updatePanel.pageId i) (updatePanel.projectId i) (user_id u) w = (Ok page, w1) ->
  updatePanel.handler i context env w =
  match first (filter (by_panel_id (updatePanel.id i)) (panels (db w))) with
  | None => (Throw (ActionError NOT_FOUND "Panel not found."),
             logged (OpSelect ComicPanelsT) w1)
  | Some _ =>
      (Ok (mkReply true
             (first (map (updatePanel.set i)
                         (filter (by_panel_id (updatePanel.id i)) (panels (db w)))))),
       mkWorld (mkDb (projects (db w)) (pages (db w))
                     (map (fun r => if by_panel_id (updatePanel.id i) r
                                    then updatePanel.set i r else r) (panels (db w))))
               (trace w1 ++ [OpSelect ComicPanelsT; OpUpdate ComicPanelsT]))
  end.
Proof.
  intros Hu Hp. unfold updatePanel.handler.
  rewrite (bind_ok _ _ _ _ _ (requireUser_some _ _ _ Hu)).
  rewrite (bind_ok _ _ _ _ _ Hp).
  apply getOwnedPage_ok in Hp. destruct Hp as (-> & _).
  unfold bind, select, update, ret, throw, logged. cbn.
  fold (by_panel_id (updatePanel.id i)).
  destruct (first _); simpl; rewrite <- ?app_assoc; reflexivity.
Qed.

Lemma deletePanel_run i context env w u page w1 :
  locals_user context = Some u ->
  getOwnedPage (deletePanel.pageId i) (deletePanel.projectId i) (user_id u) w = (Ok page, w1) ->
  deletePanel.handler i context env w =
  (if (length (filter (by_panel_id (deletePanel.id i)) (panels (db w))) =? 0)%nat
   then Throw (ActionError NOT_FOUND "Panel not found.")
   else Ok (mkReply true tt),
   mkWorld (mkDb (projects (db w)) (pages (db w))
                 (filter (fun r => negb (by_panel_id (deletePanel.id i) r)) (panels (db w))))
           (trace w1 ++ [OpDelete ComicPanelsT])).
Proof.
  intros Hu Hp. unfold deletePanel.handler.
  rewrite (bind_ok _ _ _ _ _ (requireUser_some _ _ _ Hu)).
  rewrite (bind_ok _ _ _ _ _ Hp).
  apply getOwnedPage_ok in Hp. destruct Hp as (-> & _).
  unfold bind, delete, ret, throw, logged. cbn.
  fold (by_panel_id (deletePanel.id i)).
  destruct (_ =? _)%nat; simpl; rewrite <- ?app_assoc; reflexivity.
Qed.

Lemma no_panel_with_id id l :
  (forall n, In n l -> ComicPanels.id n <> id) <-> filter (by_panel_id id) l = [].
Proof.
  split.
  - intros H. apply filter_none. intros n Hn. apply sql_eq_false. now apply H.
  - intros H n Hn E.
    assert (Hin : In n (filter (by_panel_id id) l)).
    { apply filter_In. split; [exact Hn|]. now apply sql_eq_true. }
    rewrite H in Hin. destruct Hin.
Qed.

Lemma updateProject_run i context env w u project w1 :
  locals_user context = Some u ->
  getOwnedProject (updateProject.id i) (user_id u) w = (Ok project, w1) ->
  updateProject.handler i context env w =
  (Ok (mkReply true
         (first (map (updateProject.set i env)
                     (filter (by_project_id (updateProject.id i)) (projects (db w)))))),
   mkWorld (mkDb (map (fun r => if by_project_id (updateProject.id i) r
                                then updateProject.set i env r else r) (projects (db w)))
                 (pages (db w)) (panels (db w)))
           (trace w1 ++ [OpUpdate ComicProjectsT])).
Proof.
  intros Hu Hp. unfold updateProject.handler.
  rewrite (bind_ok _ _ _ _ _ (requireUser_some _ _ _ Hu)).
  rewrite (bind_ok _ _ _ _ _ Hp).
  apply getOwnedProject_ok in Hp. destruct Hp as (-> & _).
  unfold bind, update, ret, logged. cbn. reflexivity.
Qed.

Lemma updatePage_run i context env w u page w1 :
  locals_user context = Some u ->
  getOwnedPage (updatePage.id i) (updatePage.projectId i) (user_id u) w = (Ok page, w1) ->
  updatePage.handler i context env w =
  (Ok (mkReply true
         (first (map (updatePage.set i env)
                     (filter (by_page_id (updatePage.id i)) (pages (db w)))))),
   mkWorld (mkDb (projects (db w))
                 (map (fun r => if by_page_id (updatePage.id i) r
                                then updatePage.set i env r else r) (pages (db w)))
                 (panels (db w)))
           (trace w1 ++ [OpUpdate ComicPagesT])).
Proof.
  intros Hu Hp. unfold updatePage.handler.
  rewrite (bind_ok _ _ _ _ _ (requireUser_some _ _ _ Hu)).
  rewrite (bind_ok _ _ _ _ _ Hp).
  apply getOwnedPage_ok in Hp. destruct Hp as (-> & _).
  unfold bind, update, ret, logged. cbn. reflexivity.
Qed.

(** ** C9 *)

(** C9: once [requireUser] and [getOwnedPage] have succeeded, [updatePanel]
    selects the panel by its id and, when no panel row has that id, throws
    NOT_FOUND "Panel not found." with the tables untouched and no update
    statement in the trace.  [updateProject] and [updatePage] send their
    update right after the resolver: the trace they leave is the resolver's
    followed by the one update, with no select of the target in between. *)
Theorem updatePanel_existence_check (context : Context) (env : Env) (w : World) (u : User) :
  locals_user context = Some u ->
  (forall i page w1,
     getOwnedPage (updatePanel.pageId i) (updatePanel.projectId i) (user_id u) w
     = (Ok page, w1) ->
     (forall n, In n (panels (db w)) -> ComicPanels.id n <> updatePanel.id i) ->
     updatePanel.handler i context env w =
     (Throw (ActionError NOT_FOUND "Panel not found."),
      mkWorld (db w) (trace w1 ++ [OpSelect ComicPanelsT]))) /\
  (forall i page w1,
     getOwnedPage (updatePanel.pageId i) (updatePanel.projectId i) (user_id u) w
     = (Ok page, w1) ->
     (exists n, In n (panels (db w)) /\ ComicPanels.id n = updatePanel.id i) ->
     trace (snd (updatePanel.handler i context env w))
     = trace w1 ++ [OpSelect ComicPanelsT; OpUpdate ComicPanelsT]) /\
  (forall i project w1,
     getOwnedProject (updateProject.id i) (user_id u) w = (Ok project, w1) ->
     trace (snd (updateProject.handler i context env w))
     = trace w1 ++ [OpUpdate ComicProjectsT]) /\
  (forall i page w1,
     getOwnedPage (updatePage.id i) (updatePage.projectId i) (user_id u) w = (Ok page, w1) ->
     trace (snd (updatePage.handler i context env w)) = trace w1 ++ [OpUpdate ComicPagesT]).
Proof.
  intros Hu. repeat split.
  - intros i page w1 Hp Hnone.
    rewrite (updatePanel_run i context env w u page w1 Hu Hp).
    apply no_panel_with_id in Hnone. rewrite Hnone. cbn [first hd_error].
    apply getOwnedPage_ok in Hp. destruct Hp as (-> & _). reflexivity.
  - intros i page w1 Hp (n & Hn & E).
    rewrite (updatePanel_run i context env w u page w1 Hu Hp).
    destruct (filter_some (by_panel_id (updatePanel.id i)) _ n Hn) as (y & Hy & _).
    { now apply sql_eq_true. }
    rewrite Hy. reflexivity.
  - intros i project w1 Hp.
    rewrite (updateProject_run i context env w u project w1 Hu Hp). reflexivity.
  - intros i page w1 Hp.
    rewrite (updatePage_run i context env w u page w1 Hu Hp). reflexivity.
Qed.

(** Alice updates panel n7, which does not exist, under her own page. *)
Lemma updatePanel_existence_check_witness :
  updatePanel.handler
    (updatePanel.mk "n7" "g1" "p1" None None None (Some "Hi") None None)
    alice sample_env sample_world =
  (Throw (ActionError NOT_FOUND "Panel not found."),
   mkWorld sample_db [OpSelect ComicProjectsT; OpSelect ComicPagesT; OpSelect ComicPanelsT]).
Proof.
  refine (proj1 (updatePanel_existence_check alice sample_env sample_world (mkUser "alice")
                   eq_refl)
            (updatePanel.mk "n7" "g1" "p1" None None None (Some "Hi") None None)
            (sample_page "g1" "p1")
            (mkWorld sample_db [OpSelect ComicProjectsT; OpSelect ComicPagesT]) _ _).
  - reflexivity.
  - intros n [<-|[<-|[]]]; simpl; intros H; discriminate.
Defined.

(** ** The [set] objects, field by field *)

Lemma updateProject_set_patched i env r :
  updateProject.set i env r = patched_project i env r.
Proof.
  destruct i as [id [t|] [d|] [g|] [f|] [a|]]; destruct r; reflexivity.
Qed.

Lemma updatePage_set_patched i env r :
  updatePage.set i env r = patched_page i env r.
Proof.
  destruct i as [id pid [n|] [t|] [th|] [no|]]; destruct r; reflexivity.
Qed.

Lemma updatePanel_set_patched i r :
  updatePanel.set i r = patched_panel i r.
Proof.
  destruct i as [id pg pr [n|] [l|] [d|] [di|] [c|] [s|]]; destruct r; reflexivity.
Qed.


(** ** Listing panels *)

Lemma listPanels_ok j context env w reply w2 :
  listPanels.handler j context env w = (Ok reply, w2) ->
  items (data reply)
  = filter (fun r => sql.eq (ComicPanels.pageId r) (listPanels.pageId j)) (panels (db w)) /\
  total (data reply) = length (items (data reply)) /\
  exists u page,
    locals_user context = Some u /\
    fst (getOwnedPage (listPanels.pageId j) (listPanels.projectId j) (user_id u) w) = Ok page.
Proof.
  unfold listPanels.handler, requireUser.
  destruct (locals_user context) as [u|]; [|discriminate].
  unfold bind at 1. unfold ret at 1. unfold bind at 1.
  pose proof (getOwnedPage_db (listPanels.pageId j) (listPanels.projectId j) (user_id u) w)
    as Hdb.
  destruct (getOwnedPage _ _ _ w) as [[page|e] w1] eqn:E; [|discriminate].
  simpl in Hdb. unfold bind, select, ret. cbn. rewrite Hdb.
  intros H. injection H as <- _. cbn. repeat split. exists u, page. now rewrite E.
Qed.

(** ** C2 *)



(** ** C6 *)

Lemma length_zero_iff_nil {A} (l : list A) : (length l =? 0)%nat = true <-> l = [].
Proof. destruct l; simpl; split; intros H; congruence. Qed.

(** C6: for a caller whose chain resolves, the delete statement of
    [deletePanel] affects zero rows exactly when no panel has the given id,
    and the handler throws NOT_FOUND "Panel not found." exactly then.  When
    a panel with that id exists the handler returns success, and afterwards
    no successful [listPanels], for any page and any caller, has a panel
    with that id among its items. *)
Theorem deletePanel_not_found_iff (i : deletePanel.input) (context : Context) (env : Env)
    (w : World) (u : User) (page : ComicPages.row) (w1 : World) :
  locals_user context = Some u ->
  getOwnedPage (deletePanel.pageId i) (deletePanel.projectId i) (user_id u) w
  = (Ok page, w1) ->
  (fst (delete tbl_ComicPanels (fun r => sql.eq (ComicPanels.id r) (deletePanel.id i)) w1)
   = Ok 0%nat
   <-> forall n, In n (panels (db w)) -> ComicPanels.id n <> deletePanel.id i) /\
  (fst (deletePanel.handler i context env w)
   = Throw (ActionError NOT_FOUND "Panel not found.")
   <-> forall n, In n (panels (db w)) -> ComicPanels.id n <> deletePanel.id i) /\
  ((exists n, In n (panels (db w)) /\ ComicPanels.id n = deletePanel.id i) ->
   fst (deletePanel.handler i context env w) = Ok (mkReply true tt) /\
   forall j context' env' reply w2,
     listPanels.handler j context' env' (snd (deletePanel.handler i context env w))
     = (Ok reply, w2) ->
     forall m, In m (items (data reply)) -> ComicPanels.id m <> deletePanel.id i).
Proof.
  intros Hu Hp.
  rewrite (deletePanel_run i context env w u page w1 Hu Hp).
  pose proof (getOwnedPage_ok _ _ _ _ _ _ Hp) as (Hw1 & _).
  rewrite no_panel_with_id. cbn [fst snd].
  split; [|split].
  - unfold delete. cbn [fst]. subst w1. cbn [db logged rows tbl_ComicPanels].
    fold (by_panel_id (deletePanel.id i)).
    split.
    + intros H. injection H as H. now destruct (filter _ _).
    + intros ->. reflexivity.
  - rewrite <- length_zero_iff_nil.
    destruct (_ =? _)%nat; split; intros H; congruence.
  - intros (n & Hn & E).
    assert (Hin : In n (filter (by_panel_id (deletePanel.id i)) (panels (db w)))).
    { apply filter_In. split; [exact Hn|]. now apply sql_eq_true. }
    destruct (filter (by_panel_id _) _) as [|x l] eqn:Ef; [destruct Hin|].
    cbn [length Nat.eqb]. split; [reflexivity|].
    intros j context' env' reply w2 Hl m Hm E'.
    apply listPanels_ok in Hl. destruct Hl as (Hitems & _).
    rewrite Hitems in Hm. cbn [db panels] in Hm.
    apply filter_In in Hm. destruct Hm as [Hm _].
    apply filter_In in Hm. destruct Hm as [_ Hm].
    apply sql_eq_true in E'. unfold by_panel_id in Hm. rewrite E' in Hm. discriminate.
Qed.

(** Alice deletes her panel n1 and lists page g1 afterwards; deleting n7,
    which does not exist, is NOT_FOUND. *)
Lemma deletePanel_not_found_iff_witness :
  fst (deletePanel.handler (deletePanel.mk "n1" "g1" "p1") alice sample_env sample_world)
  = Ok (mkReply true tt) /\
  fst (listPanels.handler (listPanels.mk "g1" "p1") alice sample_env
         (snd (deletePanel.handler (deletePanel.mk "n1" "g1" "p1") alice sample_env
                 sample_world)))
  = Ok (mkReply true (mkListing [] 0)) /\
  fst (deletePanel.handler (deletePanel.mk "n7" "g1" "p1") alice sample_env sample_world)
  = Throw (ActionError NOT_FOUND "Panel not found.").
Proof.
  split; [|split].
  - apply (deletePanel_not_found_iff (deletePanel.mk "n1" "g1" "p1") alice sample_env
             sample_world (mkUser "alice") (sample_page "g1" "p1")
             (mkWorld sample_db [OpSelect ComicProjectsT; OpSelect ComicPagesT])
             eq_refl eq_refl).
    exists (sample_panel "n1" "g1"). split; [simpl; auto|reflexivity].
  - reflexivity.
  - apply (deletePanel_not_found_iff (deletePanel.mk "n7" "g1" "p1") alice sample_env
             sample_world (mkUser "alice") (sample_page "g1" "p1")
             (mkWorld sample_db [OpSelect ComicProjectsT; OpSelect ComicPagesT])
             eq_refl eq_refl).
    intros n [<-|[<-|[]]]; simpl; intros H; discriminate.
Defined.

(** ** [deletePage], opened at its deletes *)

Lemma deletePage_run i context env w u page w1 :
  locals_user context = Some u ->
  getOwnedPage (deletePage.id i) (deletePage.projectId i) (user_id u) w = (Ok page, w1) ->
  deletePage.handler i context env w =
  (Ok (mkReply true tt),
   mkWorld (mkDb (projects (db w))
                 (filter (fun r => negb (by_page_id (deletePage.id i) r)) (pages (db w)))
                 (filter (fun r => negb (sql.eq (ComicPanels.pageId r) (deletePage.id i)))
                         (panels (db w))))
           (trace w1 ++ [OpDelete ComicPagesT; OpDelete ComicPanelsT])).
Proof.
  intros Hu Hp. unfold deletePage.handler.
  rewrite (bind_ok _ _ _ _ _ (requireUser_some _ _ _ Hu)).
  rewrite (bind_ok _ _ _ _ _ Hp).
  apply getOwnedPage_ok in Hp. destruct Hp as (-> & _).
  unfold bind, delete, ret, logged. cbn. rewrite <- ?app_assoc. reflexivity.
Qed.

(** ** Successful updates, inverted *)

Lemma updateProject_ok i context env w reply w' :
  updateProject.handler i context env w = (Ok reply, w') ->
  exists u project w1,
    locals_user context = Some u /\
    getOwnedProject (updateProject.id i) (user_id u) w = (Ok project, w1).
Proof.
  unfold updateProject.handler, requireUser.
  destruct (locals_user context) as [u|]; [|discriminate].
  unfold bind at 1. unfold ret at 1. unfold bind at 1.
  destruct (getOwnedProject _ _ w) as [[project|e] w1] eqn:E; [|discriminate].
  intros _. now exists u, project, w1.
Qed.

Lemma updatePage_ok i context env w reply w' :
  updatePage.handler i context env w = (Ok reply, w') ->
  exists u page w1,
    locals_user context = Some u /\
    getOwnedPage (updatePage.id i) (updatePage.projectId i) (user_id u) w = (Ok page, w1).
Proof.
  unfold updatePage.handler, requireUser.
  destruct (locals_user context) as [u|]; [|discriminate].
  unfold bind at 1. unfold ret at 1. unfold bind at 1.
  destruct (getOwnedPage _ _ _ w) as [[page|e] w1] eqn:E; [|discriminate].
  intros _. now exists u, page, w1.
Qed.

Lemma updatePanel_ok i context env w reply w' :
  updatePanel.handler i context env w = (Ok reply, w') ->
  exists u page w1,
    locals_user context = Some u /\
    getOwnedPage (updatePanel.pageId i) (updatePanel.projectId i) (user_id u) w
    = (Ok page, w1).
Proof.
  unfold updatePanel.handler, requireUser.
  destruct (locals_user context) as [u|]; [|discriminate].
  unfold bind at 1. unfold ret at 1. unfold bind at 1.
  destruct (getOwnedPage _ _ _ w) as [[page|e] w1] eqn:E; [|discriminate].
  intros _. now exists u, page, w1.
Qed.

Lemma filter_map_if {A} (c : A -> bool) (f : A -> A) (l : list A) :
  (forall r, c r = true -> c (f r) = true) ->
  filter c (map (fun r => if c r then f r else r) l) = map f (filter c l).
Proof.
  intros Hc. induction l as [|a l IH]; [reflexivity|].
  simpl. destruct (c a) eqn:Ea.
  - rewrite (Hc a Ea). simpl. now rewrite IH.
  - rewrite Ea. exact IH.
Qed.

Lemma map_if_ext {A} (c : A -> bool) (f g : A -> A) (l : list A) :
  (forall r, f r = g r) ->
  map (fun r => if c r then f r else r) l = map (fun r => if c r then g r else r) l.
Proof. intros H. apply map_ext. intros r. now rewrite H. Qed.

Lemma first_map {A B} (f : A -> B) (l : list A) :
  first (map f l) = option_map f (first l).
Proof. destruct l; reflexivity. Qed.

Lemma filter_app_last {A} (c : A -> bool) (l : list A) (x : A) :
  (forall y, In y l -> c y = false) -> c x = true -> filter c (l ++ [x]) = [x].
Proof.
  intros Hl Hx. rewrite filter_app, (filter_none c l Hl). simpl. now rewrite Hx.
Qed.

(** A successful [createProject]: the key was free, the row is appended. *)
Lemma createProject_ok i context env w reply w1 :
  createProject.handler i context env w = (Ok reply, w1) ->
  exists u,
    locals_user context = Some u /\
    let p := ComicProjects.mk (randomUUID env) (user_id u) (createProject.title i)
               (createProject.description i) (createProject.genre i)
               (createProject.format i) (createProject.targetAudience i)
               (now env) (now env) in
    reply = mkReply true (Some p) /\
    (forall x, In x (projects (db w)) -> ComicProjects.id x <> randomUUID env) /\
    w1 = mkWorld (mkDb (projects (db w) ++ [p]) (pages (db w)) (panels (db w)))
                 (trace w ++ [OpInsert ComicProjectsT]).
Proof.
  unfold createProject.handler, requireUser.
  destruct (locals_user context) as [u|]; [|discriminate].
  unfold bind, ret, insert. cbn.
  destruct (existsb _ _) eqn:E; [discriminate|].
  intros H. injection H as <- <-. exists u. split; [reflexivity|].
  cbv zeta. repeat split.
  intros x Hx. apply sql_eq_false.
  rewrite <- not_true_iff_false in E. rewrite existsb_exists in E.
  apply not_true_iff_false. intros Hc. apply E. now exists x.
Qed.

(** A successful [createPage]: the project resolved, the key was free, the
    row is appended. *)
Lemma createPage_ok i context env w reply w1 :
  createPage.handler i context env w = (Ok reply, w1) ->
  exists u project,
    locals_user context = Some u /\
    getOwnedProject (createPage.projectId i) (user_id u) w
    = (Ok project, logged (OpSelect ComicProjectsT) w) /\
    let g := ComicPages.mk (randomUUID env) (createPage.projectId i) (createPage.pageNumber i)
               (createPage.title i) (createPage.thumbnailUrl i) (createPage.notes i)
               (now env) (now env) in
    reply = mkReply true (Some g) /\
    (forall x, In x (pages (db w)) -> ComicPages.id x <> randomUUID env) /\
    db w1 = mkDb (projects (db w)) (pages (db w) ++ [g]) (panels (db w)).
Proof.
  unfold createPage.handler, requireUser.
  destruct (locals_user context) as [u|]; [|discriminate].
  unfold bind at 1. unfold ret at 1. unfold bind at 1.
  destruct (getOwnedProject _ _ w) as [[project|e] w0] eqn:Ep; [|discriminate].
  pose proof (getOwnedProject_ok _ _ _ _ _ Ep) as (-> & _).
  intros H. exists u, project. split; [reflexivity|]. split; [exact Ep|].
  unfold bind, ret, insert, logged in H. cbn in H.
  destruct (existsb _ _) eqn:E; [discriminate|].
  injection H as <- <-. cbv zeta. repeat split.
  intros x Hx. apply sql_eq_false.
  rewrite <- not_true_iff_false in E. rewrite existsb_exists in E.
  apply not_true_iff_false. intros Hc. apply E. now exists x.
Qed.

(** A successful [createPanel]: the chain resolved, the key was free, the
    row is appended. *)
Lemma createPanel_ok i context env w reply w1 :
  createPanel.handler i context env w = (Ok reply, w1) ->
  exists u page,
    locals_user context = Some u /\
    fst (getOwnedPage (createPanel.pageId i) (createPanel.projectId i) (user_id u) w)
    = Ok page /\
    let n := ComicPanels.mk (randomUUID env) (createPanel.pageId i) (createPanel.panelIndex i)
               (createPanel.layoutJson i) (createPanel.description i)
               (createPanel.dialogue i) (createPanel.caption i) (createPanel.soundEffects i)
               (now env) in
    reply = mkReply true (Some n) /\
    (forall x, In x (panels (db w)) -> ComicPanels.id x <> randomUUID env) /\
    db w1 = mkDb (projects (db w)) (pages (db w)) (panels (db w) ++ [n]).
Proof.
  unfold createPanel.handler, requireUser.
  destruct (locals_user context) as [u|]; [|discriminate].
  unfold bind at 1. unfold ret at 1. unfold bind at 1.
  destruct (getOwnedPage _ _ _ w) as [[page|e] w0] eqn:Ep; [|discriminate].
  pose proof (getOwnedPage_ok _ _ _ _ _ _ Ep) as (-> & _).
  intros H. exists u, page. split; [reflexivity|]. split; [now rewrite Ep|].
  unfold bind, ret, insert, logged in H. cbn in H.
  destruct (existsb _ _) eqn:E; [discriminate|].
  injection H as <- <-. cbv zeta. repeat split.
  intros x Hx. apply sql_eq_false.
  rewrite <- not_true_iff_false in E. rewrite existsb_exists in E.
  apply not_true_iff_false. intros Hc. apply E. now exists x.
Qed.

(** The resolvers read the project and page tables only. *)
Lemma getOwnedPage_same pageId projectId userId w w' :
  projects (db w') = projects (db w) -> pages (db w') = pages (db w) ->
  fst (getOwnedPage pageId projectId userId w') = fst (getOwnedPage pageId projectId userId w).
Proof.
  intros H1 H2. rewrite !getOwnedPage_run, H1, H2.
  destruct (first (filter (owned_project _ _) _)); reflexivity.
Qed.

Lemma fst_pair_run {A} (m : M A) w a : fst (m w) = Ok a -> m w = (Ok a, snd (m w)).
Proof. destruct (m w) as [r w']. simpl. now intros ->. Qed.

(** ** C8 *)

Lemma first_filter_some {A} (c : A -> bool) (l : list A) (x : A) :
  first (filter c l) = Some x -> exists r, In r l /\ c r = true /\ first (filter c l) = Some r.
Proof. intros H. exists x. apply first_filter_in in H as H'. tauto. Qed.

(** C8: a successful [updateProject], [updatePage] or [updatePanel] rewrites
    the rows with the given id to [patched_project], [patched_page] or
    [patched_panel] of their old value (each supplied field replaced, each
    other field as it was, [updatedAt] set to the time of the call for
    projects and pages; a panel has no such column), leaves every other row
    and the other two tables alone, returns the patched row, and a re-read by
    id yields the patched rows.  Round trip: a project created with
    title, description, genre, format and target audience, then updated with
    a new title only, is re-read with the new title and the four other
    fields, the owner and [createdAt] as created. *)
Theorem partial_update_preserves (context : Context) (env : Env) (w : World) :
  (forall i reply w',
     updateProject.handler i context env w = (Ok reply, w') ->
     db w' = mkDb (map (fun r => if by_project_id (updateProject.id i) r
                                 then patched_project i env r else r) (projects (db w)))
                  (pages (db w)) (panels (db w)) /\
     (exists r, In r (projects (db w)) /\ ComicProjects.id r = updateProject.id i /\
                reply = mkReply true (Some (patched_project i env r))) /\
     fst (select tbl_ComicProjects (by_project_id (updateProject.id i)) w')
     = Ok (map (patched_project i env)
               (filter (by_project_id (updateProject.id i)) (projects (db w))))) /\
  (forall i reply w',
     updatePage.handler i context env w = (Ok reply, w') ->
     db w' = mkDb (projects (db w))
                  (map (fun r => if by_page_id (updatePage.id i) r
                                 then patched_page i env r else r) (pages (db w)))
                  (panels (db w)) /\
     (exists r, In r (pages (db w)) /\ ComicPages.id r = updatePage.id i /\
                reply = mkReply true (Some (patched_page i env r))) /\
     fst (select tbl_ComicPages (by_page_id (updatePage.id i)) w')
     = Ok (map (patched_page i env)
               (filter (by_page_id (updatePage.id i)) (pages (db w))))) /\
  (forall i reply w',
     updatePanel.handler i context env w = (Ok reply, w') ->
     db w' = mkDb (projects (db w)) (pages (db w))
                  (map (fun r => if by_panel_id (updatePanel.id i) r
                                 then patched_panel i r else r) (panels (db w))) /\
     (exists r, In r (panels (db w)) /\ ComicPanels.id r = updatePanel.id i /\
                reply = mkReply true (Some (patched_panel i r))) /\
     fst (select tbl_ComicPanels (by_panel_id (updatePanel.id i)) w')
     = Ok (map (patched_panel i)
               (filter (by_panel_id (updatePanel.id i)) (panels (db w))))) /\
  (forall c newTitle env2 reply w1,
     createProject.handler c context env w = (Ok reply, w1) ->
     exists u w2,
       locals_user context = Some u /\
       let reread :=
         ComicProjects.mk (randomUUID env) (user_id u) newTitle
           (createProject.description c) (createProject.genre c) (createProject.format c)
           (createProject.targetAudience c) (now env) (now env2) in
       updateProject.handler
         (updateProject.mk (randomUUID env) (Some newTitle) None None None None)
         context env2 w1 = (Ok (mkReply true (Some reread)), w2) /\
       fst (select tbl_ComicProjects (by_project_id (randomUUID env)) w2) = Ok [reread]) /\
  (forall c newNumber env2 reply w1,
     createPage.handler c context env w = (Ok reply, w1) ->
     exists u w2,
       locals_user context = Some u /\
       let reread :=
         ComicPages.mk (randomUUID env) (createPage.projectId c) newNumber
           (createPage.title c) (createPage.thumbnailUrl c) (createPage.notes c)
           (now env) (now env2) in
       updatePage.handler
         (updatePage.mk (randomUUID env) (createPage.projectId c) (Some newNumber)
                        None None None)
         context env2 w1 = (Ok (mkReply true (Some reread)), w2) /\
       fst (select tbl_ComicPages (by_page_id (randomUUID env)) w2) = Ok [reread]) /\
  (forall c newDialogue env2 reply w1,
     createPanel.handler c context env w = (Ok reply, w1) ->
     exists w2,
       let reread :=
         ComicPanels.mk (randomUUID env) (createPanel.pageId c) (createPanel.panelIndex c)
           (createPanel.layoutJson c) (createPanel.description c) (Some newDialogue)
           (createPanel.caption c) (createPanel.soundEffects c) (now env) in
       updatePanel.handler
         (updatePanel.mk (randomUUID env) (createPanel.pageId c) (createPanel.projectId c)
                         None None None (Some newDialogue) None None)
         context env2 w1 = (Ok (mkReply true (Some reread)), w2) /\
       fst (select tbl_ComicPanels (by_panel_id (randomUUID env)) w2) = Ok [reread]).
Proof.
  split; [|split; [|split; [|split; [|split]]]].
  - intros i reply w' H.
    destruct (updateProject_ok _ _ _ _ _ _ H) as (u & project & w1 & Hu & Hp).
    rewrite (updateProject_run i context env w u project w1 Hu Hp) in H.
    injection H as <- <-. cbn [db].
    rewrite (map_if_ext _ _ _ _ (updateProject_set_patched i env)).
    rewrite (map_ext _ _ (updateProject_set_patched i env)).
    split; [reflexivity|]. split.
    + apply getOwnedProject_ok in Hp. destruct Hp as (_ & Hin & E & _).
      destruct (filter_some (by_project_id (updateProject.id i)) _ project Hin)
        as (r & Hr & Hr1 & Hr2); [now apply sql_eq_true|].
      exists r. split; [exact Hr1|]. split; [now apply sql_eq_true|].
      rewrite first_map, Hr. reflexivity.
    + unfold select. cbn [fst rows tbl_ComicProjects db projects].
      rewrite filter_map_if; [reflexivity|]. intros r Hr. exact Hr.
  - intros i reply w' H.
    destruct (updatePage_ok _ _ _ _ _ _ H) as (u & page & w1 & Hu & Hp).
    rewrite (updatePage_run i context env w u page w1 Hu Hp) in H.
    injection H as <- <-. cbn [db].
    rewrite (map_if_ext _ _ _ _ (updatePage_set_patched i env)).
    rewrite (map_ext _ _ (updatePage_set_patched i env)).
    split; [reflexivity|]. split.
    + apply getOwnedPage_ok in Hp. destruct Hp as (_ & Hin & E & _).
      destruct (filter_some (by_page_id (updatePage.id i)) _ page Hin)
        as (r & Hr & Hr1 & Hr2); [now apply sql_eq_true|].
      exists r. split; [exact Hr1|]. split; [now apply sql_eq_true|].
      rewrite first_map, Hr. reflexivity.
    + unfold select. cbn [fst rows tbl_ComicPages db pages].
      rewrite filter_map_if; [reflexivity|]. intros r Hr. exact Hr.
  - intros i reply w' H.
    destruct (updatePanel_ok _ _ _ _ _ _ H) as (u & page & w1 & Hu & Hp).
    rewrite (updatePanel_run i context env w u page w1 Hu Hp) in H.
    destruct (first (filter (by_panel_id (updatePanel.id i)) (panels (db w))))
      as [r|] eqn:Hr; [|discriminate].
    injection H as <- <-. cbn [db].
    rewrite (map_if_ext _ _ _ _ (updatePanel_set_patched i)).
    rewrite (map_ext _ _ (updatePanel_set_patched i)).
    split; [reflexivity|]. split.
    + pose proof (first_filter_in _ _ _ Hr) as [Hin Hc].
      exists r. split; [exact Hin|]. split; [now apply sql_eq_true|].
      rewrite first_map, Hr. reflexivity.
    + unfold select. cbn [fst rows tbl_ComicPanels db panels].
      rewrite filter_map_if; [reflexivity|]. intros r' Hr'. exact Hr'.
  - intros c newTitle env2 reply w1 H.
    destruct (createProject_ok _ _ _ _ _ _ H) as (u & Hu & Hc).
    cbv zeta in Hc. destruct Hc as (_ & Hfresh & ->).
    set (p := ComicProjects.mk (randomUUID env) (user_id u) (createProject.title c)
                (createProject.description c) (createProject.genre c)
                (createProject.format c) (createProject.targetAudience c)
                (now env) (now env)).
    set (i := updateProject.mk (randomUUID env) (Some newTitle) None None None None).
    set (w1 := mkWorld _ _).
    assert (Hid : filter (by_project_id (randomUUID env)) (projects (db w) ++ [p]) = [p]).
    { apply filter_app_last.
      - intros y Hy. apply sql_eq_false. now apply Hfresh.
      - apply sql_eq_true. reflexivity. }
    assert (Hown : getOwnedProject (updateProject.id i) (user_id u) w1
                   = (Ok p, logged (OpSelect ComicProjectsT) w1)).
    { rewrite getOwnedProject_run. cbn [db projects w1 updateProject.id i].
      rewrite filter_app_last; [reflexivity| |].
      - intros y Hy. unfold owned_project, sql.and.
        replace (sql.eq (ComicProjects.id y) (randomUUID env)) with false; [reflexivity|].
        symmetry. apply sql_eq_false. now apply Hfresh.
      - unfold owned_project, sql.and. apply andb_true_iff. split; apply sql_eq_true; reflexivity. }
    exists u. eexists. split; [exact Hu|]. cbv zeta.
    rewrite (updateProject_run i context env2 w1 u p _ Hu Hown).
    cbn [updateProject.id i w1 db projects]. rewrite Hid. cbn [map first hd_error].
    split; [reflexivity|].
    unfold select. cbn [fst rows tbl_ComicProjects db projects].
    rewrite filter_map_if; [|intros r Hr; rewrite updateProject_set_patched; exact Hr].
    rewrite Hid. reflexivity.
  - intros c newNumber env2 reply w1 H.
    destruct (createPage_ok _ _ _ _ _ _ H) as (u & project & Hu & Hp & Hc).
    cbv zeta in Hc. destruct Hc as (_ & Hfresh & Hdb).
    set (g := ComicPages.mk (randomUUID env) (createPage.projectId c)
                (createPage.pageNumber c) (createPage.title c) (createPage.thumbnailUrl c)
                (createPage.notes c) (now env) (now env)) in *.
    set (i := updatePage.mk (randomUUID env) (createPage.projectId c) (Some newNumber)
                None None None).
    assert (Hid : filter (by_page_id (randomUUID env)) (pages (db w) ++ [g]) = [g]).
    { apply filter_app_last.
      - intros y Hy. apply sql_eq_false. now apply Hfresh.
      - apply sql_eq_true. reflexivity. }
    assert (Hown : getOwnedPage (updatePage.id i) (updatePage.projectId i) (user_id u) w1
                   = (Ok g, logged (OpSelect ComicPagesT)
                                   (logged (OpSelect ComicProjectsT) w1))).
    { rewrite getOwnedPage_run. rewrite Hdb. cbn [projects pages updatePage.id
        updatePage.projectId i].
      rewrite getOwnedProject_run in Hp.
      destruct (first (filter (owned_project _ _) _)); [|discriminate].
      rewrite filter_app_last; [reflexivity| |].
      - intros y Hy. unfold page_of, sql.and.
        replace (sql.eq (ComicPages.id y) (randomUUID env)) with false; [reflexivity|].
        symmetry. apply sql_eq_false. now apply Hfresh.
      - unfold page_of, sql.and. apply andb_true_iff.
        split; apply sql_eq_true; reflexivity. }
    exists u. eexists. split; [exact Hu|]. cbv zeta.
    rewrite (updatePage_run i context env2 w1 u g _ Hu Hown).
    rewrite Hdb. cbn [updatePage.id i pages projects panels]. rewrite Hid.
    cbn [map first hd_error].
    split; [reflexivity|].
    unfold select. cbn [fst rows tbl_ComicPages db pages].
    rewrite filter_map_if; [|intros r Hr; rewrite updatePage_set_patched; exact Hr].
    rewrite Hid. reflexivity.
  - intros c newDialogue env2 reply w1 H.
    destruct (createPanel_ok _ _ _ _ _ _ H) as (u & page & Hu & Hp & Hc).
    cbv zeta in Hc. destruct Hc as (_ & Hfresh & Hdb).
    set (n := ComicPanels.mk (randomUUID env) (createPanel.pageId c)
                (createPanel.panelIndex c) (createPanel.layoutJson c)
                (createPanel.description c) (createPanel.dialogue c) (createPanel.caption c)
                (createPanel.soundEffects c) (now env)) in *.
    set (i := updatePanel.mk (randomUUID env) (createPanel.pageId c)
                (createPanel.projectId c) None None None (Some newDialogue) None None).
    assert (Hid : filter (by_panel_id (randomUUID env)) (panels (db w) ++ [n]) = [n]).
    { apply filter_app_last.
      - intros y Hy. apply sql_eq_false. now apply Hfresh.
      - apply sql_eq_true. reflexivity. }
    assert (Hown : fst (getOwnedPage (updatePanel.pageId i) (updatePanel.projectId i)
                          (user_id u) w1) = Ok page).
    { rewrite <- Hp. apply getOwnedPage_same; rewrite Hdb; reflexivity. }
    apply fst_pair_run in Hown.
    eexists. cbv zeta.
    rewrite (updatePanel_run i context env2 w1 u page _ Hu Hown).
    rewrite Hdb. cbn [updatePanel.id i pages projects panels]. rewrite Hid.
    cbn [map first hd_error].
    split; [reflexivity|].
    unfold select. cbn [fst rows tbl_ComicPanels db panels].
    rewrite filter_map_if; [|intros r Hr; rewrite updatePanel_set_patched; exact Hr].
    rewrite Hid. reflexivity.
Qed.

Lemma partial_update_preserves_witness :
  let created := ComicProjects.mk "fresh-1" "alice" "A" (Some "B") (Some "C") None None
                                  100%Z 100%Z in
  let reread := ComicProjects.mk "fresh-1" "alice" "newA" (Some "B") (Some "C") None None
                                 100%Z 250%Z in
  exists w1 w2,
    createProject.handler (createProject.mk "A" (Some "B") (Some "C") None None) alice
                          sample_env sample_world
    = (Ok (mkReply true (Some created)), w1) /\
    updateProject.handler (updateProject.mk "fresh-1" (Some "newA") None None None None)
                          alice (mkEnv "unused" 250%Z) w1
    = (Ok (mkReply true (Some reread)), w2) /\
    fst (select tbl_ComicProjects (by_project_id "fresh-1") w2) = Ok [reread].
Proof.
  cbv zeta.
  destruct (proj1 (proj2 (proj2 (proj2
                (partial_update_preserves alice sample_env sample_world))))
              (createProject.mk "A" (Some "B") (Some "C") None None) "newA"
              (mkEnv "unused" 250%Z) _ _ eq_refl)
    as (u & w2 & Hu & Hupd & Hread).
  injection Hu as <-.
  eexists. exists w2. split; [reflexivity|]. split; [exact Hupd|exact Hread].
Defined.

(** ** C10 *)

Lemma owner_of_patched i env r : owner_of (patched_project i env r) = owner_of r.
Proof. reflexivity. Qed.

Lemma map_owner_update i env l :
  map owner_of (map (fun r => if by_project_id (updateProject.id i) r
                              then updateProject.set i env r else r) l)
  = map owner_of l.
Proof.
  rewrite map_map. apply map_ext. intros r.
  destruct (by_project_id _ r); [|reflexivity].
  now rewrite updateProject_set_patched.
Qed.

Section KeepsProjects.
Context {A B : Type}.

Lemma keeps_ret (a : A) : keeps_projects (ret a).
Proof. intros w. reflexivity. Qed.

Lemma keeps_throw (e : Thrown) : keeps_projects (@throw A e).
Proof. intros w. reflexivity. Qed.

Lemma keeps_bind (m : M A) (k : A -> M B) :
  keeps_projects m -> (forall a, keeps_projects (k a)) -> keeps_projects (bind m k).
Proof.
  intros Hm Hk w. unfold bind. specialize (Hm w).
  destruct (m w) as [[a|e] w']; simpl in *; [|exact Hm].
  now rewrite Hk.
Qed.

Lemma keeps_fmap (f : A -> B) (m : M A) : keeps_projects m -> keeps_projects (fmap f m).
Proof. intros Hm w. rewrite fmap_run. apply Hm. Qed.
End KeepsProjects.

Lemma keeps_select {R} (T : TableDesc R) cond : keeps_projects (select T cond).
Proof. intros w. reflexivity. Qed.

Lemma keeps_requireUser context : keeps_projects (requireUser context).
Proof. intros w. unfold requireUser. destruct (locals_user context); reflexivity. Qed.

Lemma keeps_insert_page r : keeps_projects (insert tbl_ComicPages r).
Proof. intros w. unfold insert. destruct (existsb _ _); reflexivity. Qed.

Lemma keeps_insert_panel r : keeps_projects (insert tbl_ComicPanels r).
Proof. intros w. unfold insert. destruct (existsb _ _); reflexivity. Qed.

Lemma keeps_update_page s cond : keeps_projects (update tbl_ComicPages s cond).
Proof. intros w. reflexivity. Qed.

Lemma keeps_update_panel s cond : keeps_projects (update tbl_ComicPanels s cond).
Proof. intros w. reflexivity. Qed.

Lemma keeps_delete_page cond : keeps_projects (delete tbl_ComicPages cond).
Proof. intros w. reflexivity. Qed.

Lemma keeps_delete_panel cond : keeps_projects (delete tbl_ComicPanels cond).
Proof. intros w. reflexivity. Qed.

Create HintDb keeps.
#[local] Hint Resolve keeps_ret keeps_throw keeps_select keeps_requireUser
  keeps_insert_page keeps_insert_panel keeps_update_page keeps_update_panel
  keeps_delete_page keeps_delete_panel : keeps.

Ltac keeps :=
  repeat lazymatch goal with
    | |- keeps_projects (fmap _ _) => apply keeps_fmap
    | |- keeps_projects (bind _ _) => apply keeps_bind; [|intros ?]
    | |- keeps_projects (match ?x with _ => _ end) => destruct x
    | |- keeps_projects _ => solve [auto with keeps]
    end.

Lemma keeps_getOwnedProject projectId userId :
  keeps_projects (getOwnedProject projectId userId).
Proof. unfold getOwnedProject. keeps. Qed.

Lemma keeps_getOwnedPage pageId projectId userId :
  keeps_projects (getOwnedPage pageId projectId userId).
Proof. unfold getOwnedPage. pose proof keeps_getOwnedProject. keeps. Qed.

#[local] Hint Resolve keeps_getOwnedProject keeps_getOwnedPage : keeps.

(** Statements on pages and panels leave the project table as it is. *)
Lemma handler_of_projects q context env :
  match q with
  | CreateProject _ | UpdateProject _ => True
  | _ => keeps_projects (handler_of q context env)
  end.
Proof.
  destruct q; try exact I; cbn [handler_of];
    [ unfold listProjects.handler | unfold createPage.handler
    | unfold updatePage.handler | unfold deletePage.handler
    | unfold listPages.handler | unfold createPanel.handler
    | unfold updatePanel.handler | unfold deletePanel.handler
    | unfold listPanels.handler ];
    keeps.
Qed.

Lemma updateProject_owners i context env w :
  map owner_of (projects (db (snd (updateProject.handler i context env w))))
  = map owner_of (projects (db w)).
Proof.
  unfold updateProject.handler, requireUser.
  destruct (locals_user context) as [u|]; [|reflexivity].
  unfold bind at 1. unfold ret at 1. unfold bind at 1.
  pose proof (keeps_getOwnedProject (updateProject.id i) (user_id u) w) as Hk.
  destruct (getOwnedProject _ _ w) as [[project|e] w1]; simpl in Hk;
    [|cbn [snd]; now rewrite Hk].
  unfold bind, update, ret. cbn. rewrite Hk. apply map_owner_update.
Qed.

Lemma createProject_owners i context env w :
  map owner_of (projects (db (snd (createProject.handler i context env w))))
  = map owner_of (projects (db w))
    ++ match locals_user context, fst (createProject.handler i context env w) with
       | Some u, Ok _ => [(randomUUID env, user_id u)]
       | _, _ => []
       end.
Proof.
  unfold createProject.handler, requireUser.
  destruct (locals_user context) as [u|]; [|now rewrite app_nil_r].
  unfold bind, ret, insert. cbn.
  destruct (existsb _ _); cbn; [now rewrite app_nil_r|].
  now rewrite map_app.
Qed.

Lemma step_owners c w :
  map owner_of (projects (db (snd (step c w))))
  = map owner_of (projects (db w)) ++ creation c w.
Proof.
  destruct c as [context env q]. unfold creation, step. cbn [call_request call_context call_env].
  rewrite server_run. destruct (schema_of q) eqn:Hs.
  - pose proof (handler_of_projects q context env) as Hq.
    destruct q; cbn [handler_of] in *;
      try (rewrite app_nil_r; rewrite Hq; reflexivity).
    + rewrite fmap_run. cbn [fst snd]. rewrite createProject_owners.
      destruct (locals_user context); [|reflexivity].
      destruct (fst (createProject.handler i context env w)); reflexivity.
    + rewrite fmap_run. cbn [snd]. rewrite updateProject_owners. now rewrite app_nil_r.
  - cbn [fst snd]. destruct q; try (now rewrite app_nil_r).
    destruct (locals_user context); now rewrite app_nil_r.
Qed.

Lemma run_owners cs : forall w,
  map owner_of (projects (db (run cs w)))
  = map owner_of (projects (db w)) ++ creations cs w.
Proof.
  induction cs as [|c cs IH]; intros w; simpl.
  - now rewrite app_nil_r.
  - rewrite IH, step_owners. now rewrite app_assoc.
Qed.

(** C10: a successful [createProject] appends one row whose userId is the
    caller's id; the [set] object of [updateProject] changes neither id nor
    userId; and over any sequence of calls to the eleven actions the
    (id, userId) pairs of the project table are those it started with,
    followed by one pair (generated id, caller id) per successful
    [createProject], in order.  So a row that was there keeps its owner, and
    in a store that started empty every project row is owned by the caller
    of the [createProject] that generated its id. *)
Theorem project_owner_fixed :
  (forall i context env w reply w' u,
     locals_user context = Some u ->
     createProject.handler i context env w = (Ok reply, w') ->
     exists p, data reply = Some p /\
               ComicProjects.userId p = user_id u /\
               ComicProjects.id p = randomUUID env /\
               projects (db w') = projects (db w) ++ [p]) /\
  (forall i env r,
     ComicProjects.userId (updateProject.set i env r) = ComicProjects.userId r /\
     ComicProjects.id (updateProject.set i env r) = ComicProjects.id r) /\
  (forall cs w,
     map owner_of (projects (db (run cs w)))
     = map owner_of (projects (db w)) ++ creations cs w) /\
  (forall cs w p,
     In p (projects (db w)) ->
     exists p', In p' (projects (db (run cs w))) /\
                ComicProjects.id p' = ComicProjects.id p /\
                ComicProjects.userId p' = ComicProjects.userId p) /\
  (forall cs p,
     In p (projects (db (run cs empty_world))) ->
     In (ComicProjects.id p, ComicProjects.userId p) (creations cs empty_world)).
Proof.
  split; [|split; [|split; [|split]]].
  - intros i context env w reply w' u Hu H.
    destruct (createProject_ok _ _ _ _ _ _ H) as (u' & Hu' & Hc).
    rewrite Hu in Hu'. injection Hu' as <-. cbv zeta in Hc.
    destruct Hc as (-> & _ & ->). eexists. cbn. repeat split.
  - intros i env r. rewrite updateProject_set_patched. split; reflexivity.
  - intros cs w. apply run_owners.
  - intros cs w p Hp.
    assert (Hin : In (owner_of p) (map owner_of (projects (db (run cs w))))).
    { rewrite run_owners. apply in_or_app. left. now apply in_map. }
    apply in_map_iff in Hin. destruct Hin as (p' & E & Hp').
    exists p'. split; [exact Hp'|]. unfold owner_of in E. now injection E.
  - intros cs p Hp.
    apply (in_map owner_of) in Hp. rewrite run_owners in Hp. exact Hp.
Qed.

Lemma project_owner_fixed_witness :
  map owner_of (projects (db (run sample_calls empty_world)))
  = [("u1", "alice"); ("u4", "bob")] /\
  creations sample_calls empty_world = [("u1", "alice"); ("u4", "bob")] /\
  In ("u1", "alice") (creations sample_calls empty_world) /\
  (exists p', In p' (projects (db (run sample_calls sample_world))) /\
              ComicProjects.id p' = "p2" /\ ComicProjects.userId p' = "bob").
Proof.
  destruct project_owner_fixed as (_ & _ & Hrun & Hkeep & Hcreated).
  split; [rewrite (Hrun sample_calls empty_world); reflexivity|].
  split; [reflexivity|]. split.
  - apply (Hcreated sample_calls
             (ComicProjects.mk "u1" "alice" "Issue 1, revised" None None None None 1%Z 3%Z)).
    simpl. auto.
  - apply (Hkeep sample_calls sample_world (sample_project "p2" "bob")). simpl. auto.
Defined.

(** ** Every handler, opened at its resolver *)

Lemma with_user {A} context (k : User -> M A) w :
  bind (requireUser context) k w =
  match locals_user context with
  | Some u => k u w
  | None => (Throw unauthorized, w)
  end.
Proof. unfold bind, requireUser. destruct (locals_user context); reflexivity. Qed.

Lemma with_project {A} projectId userId (k : ComicProjects.row -> M A) w :
  bind (getOwnedProject projectId userId) k w =
  match first (filter (owned_project projectId userId) (projects (db w))) with
  | Some project => k project (logged (OpSelect ComicProjectsT) w)
  | None => (Throw (ActionError NOT_FOUND "Project not found."),
             logged (OpSelect ComicProjectsT) w)
  end.
Proof.
  unfold bind at 1. rewrite getOwnedProject_run. destruct (first _); reflexivity.
Qed.

Lemma with_page {A} pageId projectId userId (k : ComicPages.row -> M A) w :
  bind (getOwnedPage pageId projectId userId) k w =
  match first (filter (owned_project projectId userId) (projects (db w))) with
  | None => (Throw (ActionError NOT_FOUND "Project not found."),
             logged (OpSelect ComicProjectsT) w)
  | Some _ =>
      match first (filter (page_of pageId projectId) (pages (db w))) with
      | Some page => k page (logged (OpSelect ComicPagesT) (logged (OpSelect ComicProjectsT) w))
      | None => (Throw (ActionError NOT_FOUND "Page not found."),
                 logged (OpSelect ComicPagesT) (logged (OpSelect ComicProjectsT) w))
      end
  end.
Proof.
  unfold bind at 1. rewrite getOwnedPage_run.
  destruct (first (filter (owned_project _ _) _)); [|reflexivity].
  destruct (first _); reflexivity.
Qed.

Lemma owned_project_true projectId userId r :
  owned_project projectId userId r = true <->
  ComicProjects.id r = projectId /\ ComicProjects.userId r = userId.
Proof.
  unfold owned_project, sql.and. rewrite andb_true_iff, !sql_eq_true. reflexivity.
Qed.

Lemma page_of_true pageId projectId r :
  page_of pageId projectId r = true <->
  ComicPages.id r = pageId /\ ComicPages.projectId r = projectId.
Proof.
  unfold page_of, sql.and. rewrite andb_true_iff, !sql_eq_true. reflexivity.
Qed.

Lemma fresh_key {R} (key : R -> string) (k : string) (l : list R) :
  existsb (fun x => String.eqb (key x) k) l = false ->
  forall x, In x l -> key x <> k.
Proof.
  intros E x Hx Hk. apply not_true_iff_false in E. apply E.
  apply existsb_exists. exists x. split; [exact Hx|]. now apply String.eqb_eq.
Qed.

Lemma min1_accepts path s : min1 path s = [] -> (1 <= String.length s)%nat.
Proof.
  unfold min1. destruct (1 <=? String.length s)%nat eqn:E; [|discriminate].
  intros _. now apply Nat.leb_le.
Qed.

Lemma num_min1_accepts path n : num_min1 path n = [] -> (1 <= n)%Z.
Proof.
  unfold num_min1. destruct (1 <=? n)%Z eqn:E; [|discriminate].
  intros _. now apply Z.leb_le.
Qed.

Lemma patched_project_maps i env l :
  map (fun r => if sql.eq (ComicProjects.id r) (updateProject.id i)
                then updateProject.set i env r else r) l
  = map (fun r => if by_project_id (updateProject.id i) r
                  then patched_project i env r else r) l.
Proof. apply map_ext. intros r. unfold by_project_id. now rewrite updateProject_set_patched. Qed.

Lemma patched_page_maps i env l :
  map (fun r => if sql.eq (ComicPages.id r) (updatePage.id i)
                then updatePage.set i env r else r) l
  = map (fun r => if by_page_id (updatePage.id i) r then patched_page i env r else r) l.
Proof. apply map_ext. intros r. unfold by_page_id. now rewrite updatePage_set_patched. Qed.

Lemma patched_panel_maps i l :
  map (fun r => if sql.eq (ComicPanels.id r) (updatePanel.id i)
                then updatePanel.set i r else r) l
  = map (fun r => if by_panel_id (updatePanel.id i) r then patched_panel i r else r) l.
Proof. apply map_ext. intros r. unfold by_panel_id. now rewrite updatePanel_set_patched. Qed.

(** Whatever a call returns, the tables move by one of the transitions of
    its action. *)
Lemma server_step q context env w :
  db_step q (db w) (db (snd (server q context env w))).
Proof.
  rewrite server_run. destruct (schema_of q) eqn:Hs; [|apply st_none].
  destruct q; cbn [handler_of schema_of] in *; rewrite fmap_run; cbn [snd].
  - unfold createProject.handler. rewrite with_user.
    destruct (locals_user context) as [u|]; [|apply st_none].
    unfold bind, insert, ret. cbn.
    destruct (existsb _ _) eqn:E; cbn; [apply st_none|].
    apply st_insert_project.
    + exact (fresh_key ComicProjects.id _ _ E).
    + cbn. exact (min1_accepts _ _ Hs).
  - unfold updateProject.handler. rewrite with_user.
    destruct (locals_user context) as [u|]; [|apply st_none].
    rewrite with_project. destruct (first _); [|apply st_none].
    unfold bind, update, ret. cbn. rewrite patched_project_maps.
    apply st_update_project.
    unfold updateProject.schema in Hs.
    apply app_eq_nil in Hs. destruct Hs as [_ Hs].
    apply app_eq_nil in Hs. destruct Hs as [Hs _].
    intros t Ht. rewrite Ht in Hs. exact (min1_accepts _ _ Hs).
  - unfold listProjects.handler. rewrite with_user.
    destruct (locals_user context) as [u|]; apply st_none.
  - unfold createPage.handler. rewrite with_user.
    destruct (locals_user context) as [u|]; [|apply st_none].
    rewrite with_project. destruct (first _) as [project|] eqn:Ep; [|apply st_none].
    unfold bind, insert, ret. cbn.
    destruct (existsb _ _) eqn:E; cbn; [apply st_none|].
    apply st_insert_page.
    + exact (fresh_key ComicPages.id _ _ E).
    + apply first_filter_in in Ep. destruct Ep as [Hin Hc].
      apply owned_project_true in Hc. exists project. split; [exact Hin|]. apply Hc.
    + cbn. unfold createPage.schema in Hs. apply app_eq_nil in Hs.
      exact (num_min1_accepts _ _ (proj2 Hs)).
  - unfold updatePage.handler. rewrite with_user.
    destruct (locals_user context) as [u|]; [|apply st_none].
    rewrite with_page. destruct (first _); [|apply st_none].
    destruct (first _); [|apply st_none].
    unfold bind, update, ret. cbn. rewrite patched_page_maps.
    apply st_update_page.
    unfold updatePage.schema in Hs.
    apply app_eq_nil in Hs. destruct Hs as [_ Hs].
    apply app_eq_nil in Hs. destruct Hs as [_ Hs].
    apply app_eq_nil in Hs. destruct Hs as [Hs _].
    intros n Hn. rewrite Hn in Hs. exact (num_min1_accepts _ _ Hs).
  - unfold deletePage.handler. rewrite with_user.
    destruct (locals_user context) as [u|]; [|apply st_none].
    rewrite with_page. destruct (first _); [|apply st_none].
    destruct (first _); [|apply st_none].
    unfold bind, delete, ret. cbn. apply st_delete_page.
  - unfold listPages.handler. rewrite with_user.
    destruct (locals_user context) as [u|]; [|apply st_none].
    rewrite with_project. destruct (first _); apply st_none.
  - unfold createPanel.handler. rewrite with_user.
    destruct (locals_user context) as [u|]; [|apply st_none].
    rewrite with_page. destruct (first _); [|apply st_none].
    destruct (first _) as [page|] eqn:Eg; [|apply st_none].
    unfold bind, insert, ret. cbn.
    destruct (existsb _ _) eqn:E; cbn; [apply st_none|].
    apply st_insert_panel.
    + exact (fresh_key ComicPanels.id _ _ E).
    + apply first_filter_in in Eg. destruct Eg as [Hin Hc].
      apply page_of_true in Hc. exists page. split; [exact Hin|]. apply Hc.
  - unfold updatePanel.handler. rewrite with_user.
    destruct (locals_user context) as [u|]; [|apply st_none].
    rewrite with_page. destruct (first _); [|apply st_none].
    destruct (first _); [|apply st_none].
    unfold bind, select, update, ret, throw. cbn.
    destruct (first _); cbn; [|apply st_none].
    rewrite patched_panel_maps. apply st_update_panel.
  - unfold deletePanel.handler. rewrite with_user.
    destruct (locals_user context) as [u|]; [|apply st_none].
    rewrite with_page. destruct (first _); [|apply st_none].
    destruct (first _); [|apply st_none].
    unfold bind, delete, ret, throw. cbn.
    destruct (_ =? _)%nat; cbn; apply st_delete_panel.
  - unfold listPanels.handler. rewrite with_user.
    destruct (locals_user context) as [u|]; [|apply st_none].
    rewrite with_page. destruct (first _); [|apply st_none].
    destruct (first _); apply st_none.
Qed.

(** ** Invariants of the store over any sequence of calls *)

Lemma run_invariant (I : Db -> Prop) :
  (forall q d d', db_step q d d' -> I d -> I d') ->
  forall cs w, I (db w) -> I (db (run cs w)).
Proof.
  intros Hstep cs. induction cs as [|c cs IH]; intros w Hw; [exact Hw|].
  simpl. apply IH. unfold step. eapply Hstep; [apply server_step|exact Hw].
Qed.

Lemma unique_ids_NoDup l : unique_ids l = true <-> NoDup l.
Proof.
  induction l as [|k l IH]; simpl.
  - split; [constructor|reflexivity].
  - rewrite andb_true_iff, negb_true_iff, IH. split.
    + intros [Hk Hl]. constructor; [|exact Hl].
      intros Hin. apply not_true_iff_false in Hk. apply Hk.
      apply existsb_exists. exists k. split; [exact Hin|apply String.eqb_refl].
    + intros H. inversion H as [|? ? Hk Hl]; subst. split; [|exact Hl].
      apply not_true_iff_false. intros He. apply existsb_exists in He.
      destruct He as (x & Hx & E). apply String.eqb_eq in E. now subst.
Qed.

Section Keys.
Context {R : Type} (key : R -> string).

Lemma NoDup_keys_insert (l : list R) (r : R) :
  NoDup (map key l) -> (forall x, In x l -> key x <> key r) -> NoDup (map key (l ++ [r])).
Proof.
  intros Hl Hr. rewrite map_app. simpl.
  apply NoDup_app; [exact Hl|repeat constructor; intros []|].
  intros k Hk [<-|[]]. apply in_map_iff in Hk. destruct Hk as (x & E & Hx).
  exact (Hr x Hx E).
Qed.

Lemma keys_update (c : R -> bool) (f : R -> R) (l : list R) :
  (forall r, key (f r) = key r) ->
  map key (map (fun r => if c r then f r else r) l) = map key l.
Proof.
  intros Hf. rewrite map_map. apply map_ext. intros r. destruct (c r); auto.
Qed.

Lemma NoDup_keys_delete (c : R -> bool) (l : list R) :
  NoDup (map key l) -> NoDup (map key (filter c l)).
Proof.
  induction l as [|a l IH]; simpl; intros H; [constructor|].
  inversion H as [|? ? Ha Hl]; subst.
  destruct (c a); simpl; [|now apply IH].
  constructor; [|now apply IH].
  intros Hin. apply Ha. apply in_map_iff in Hin. destruct Hin as (x & E & Hx).
  apply filter_In in Hx. apply in_map_iff. exists x. tauto.
Qed.

(** With unique keys a key names one row. *)
Lemma NoDup_keys_same (l : list R) (a b : R) :
  NoDup (map key l) -> In a l -> In b l -> key a = key b -> a = b.
Proof.
  induction l as [|x l IH]; simpl; intros H Ha Hb E; [destruct Ha|].
  inversion H as [|? ? Hx Hl]; subst.
  destruct Ha as [->|Ha], Hb as [->|Hb]; auto.
  - exfalso. apply Hx. rewrite E. now apply in_map.
  - exfalso. apply Hx. rewrite <- E. now apply in_map.
Qed.
End Keys.

Lemma keys_ok_iff d :
  keys_ok d = true <->
  NoDup (map ComicProjects.id (projects d)) /\ NoDup (map ComicPages.id (pages d))
  /\ NoDup (map ComicPanels.id (panels d)).
Proof.
  unfold keys_ok. rewrite !andb_true_iff, !unique_ids_NoDup. tauto.
Qed.

Lemma keys_step q d d' : db_step q d d' -> keys_ok d = true -> keys_ok d' = true.
Proof.
  rewrite !keys_ok_iff. intros Hs (H1 & H2 & H3).
  destruct Hs; cbn [projects pages panels]; repeat split;
    try assumption;
    try (apply NoDup_keys_insert; assumption);
    try (apply NoDup_keys_delete; assumption);
    try (rewrite keys_update; [assumption|reflexivity]).
Qed.

Lemma refs_ok_iff d :
  refs_ok d = true <->
  (forall g, In g (pages d) ->
             exists p, In p (projects d) /\ ComicProjects.id p = ComicPages.projectId g) /\
  (forall n, In n (panels d) ->
             exists g, In g (pages d) /\ ComicPages.id g = ComicPanels.pageId n).
Proof.
  unfold refs_ok. rewrite andb_true_iff, !forallb_forall.
  split; intros [H1 H2]; split; intros x Hx.
  - apply H1 in Hx. apply existsb_exists in Hx. destruct Hx as (p & Hp & E).
    exists p. split; [exact Hp|]. now apply String.eqb_eq.
  - apply H2 in Hx. apply existsb_exists in Hx. destruct Hx as (g & Hg & E).
    exists g. split; [exact Hg|]. now apply String.eqb_eq.
  - destruct (H1 x Hx) as (p & Hp & E). apply existsb_exists. exists p.
    split; [exact Hp|]. now apply String.eqb_eq.
  - destruct (H2 x Hx) as (g & Hg & E). apply existsb_exists. exists g.
    split; [exact Hg|]. now apply String.eqb_eq.
Qed.

Lemma in_map_if_inv {A} (c : A -> bool) (f : A -> A) (l : list A) (y : A) :
  In y (map (fun r => if c r then f r else r) l) ->
  exists x, In x l /\ (y = x \/ y = f x).
Proof.
  intros H. apply in_map_iff in H. destruct H as (x & E & Hx).
  exists x. split; [exact Hx|]. destruct (c x); auto.
Qed.

Lemma in_map_if_any {A} (c : A -> bool) (f : A -> A) (l : list A) (x : A) :
  In x l -> In (if c x then f x else x) (map (fun r => if c r then f r else r) l).
Proof. intros H. apply in_map_iff. now exists x. Qed.

Lemma refs_step q d d' : db_step q d d' -> refs_ok d = true -> refs_ok d' = true.
Proof.
  rewrite !refs_ok_iff. intros Hs (H1 & H2).
  destruct Hs; cbn [projects pages panels]; split; try assumption.
  - intros g Hg. destruct (H1 g Hg) as (x & Hx & E). exists x.
    split; [apply in_or_app; now left|exact E].
  - intros g Hg. destruct (H1 g Hg) as (x & Hx & E).
    eexists. split; [apply (in_map_if_any _ _ _ x Hx)|].
    rewrite <- E. destruct (by_project_id _ x); reflexivity.
  - intros g' Hg. apply in_app_or in Hg. destruct Hg as [Hg|[<-|[]]]; auto.
  - intros n Hn. destruct (H2 n Hn) as (x & Hx & E). exists x.
    split; [apply in_or_app; now left|exact E].
  - intros g Hg. apply in_map_if_inv in Hg. destruct Hg as (x & Hx & [->| ->]); auto.
    exact (H1 x Hx).
  - intros n Hn. destruct (H2 n Hn) as (x & Hx & E).
    eexists. split; [apply (in_map_if_any _ _ _ x Hx)|].
    rewrite <- E. destruct (by_page_id _ x); reflexivity.
  - intros g Hg. apply filter_In in Hg. now apply H1.
  - intros n Hn. apply filter_In in Hn. destruct Hn as [Hn Hc].
    destruct (H2 n Hn) as (x & Hx & E). exists x. split; [|exact E].
    apply filter_In. split; [exact Hx|]. unfold by_page_id. now rewrite E.
  - intros n' Hn. apply in_app_or in Hn. destruct Hn as [Hn|[<-|[]]]; auto.
  - intros n Hn. apply in_map_if_inv in Hn. destruct Hn as (x & Hx & [->| ->]); auto.
    exact (H2 x Hx).
  - intros n Hn. apply filter_In in Hn. now apply H2.
Qed.

Lemma fields_ok_iff d :
  fields_ok d = true <->
  (forall p, In p (projects d) -> (1 <= String.length (ComicProjects.title p))%nat) /\
  (forall g, In g (pages d) -> (1 <= ComicPages.pageNumber g)%Z).
Proof.
  unfold fields_ok. rewrite andb_true_iff, !forallb_forall.
  split; intros [H1 H2]; split; intros x Hx.
  - apply Nat.leb_le. now apply H1.
  - apply Z.leb_le. now apply H2.
  - apply Nat.leb_le. now apply H1.
  - apply Z.leb_le. now apply H2.
Qed.

Lemma fields_step q d d' : db_step q d d' -> fields_ok d = true -> fields_ok d' = true.
Proof.
  rewrite !fields_ok_iff. intros Hs (H1 & H2).
  destruct Hs as [ | i p d Hf Ht | i env d Ht | i g d Hf Hp Hn | i env d Hn | i d
                   | i n d Hf Hg | i d | i d ];
    cbn [projects pages panels]; split; try assumption.
  - intros x Hx. apply in_app_or in Hx. destruct Hx as [Hx|[<-|[]]]; auto.
  - intros y Hy. apply in_map_if_inv in Hy. destruct Hy as (x & Hx & [->| ->]); auto.
    cbn. destruct (updateProject.title i) as [t|] eqn:E; cbn; auto.
  - intros x Hx. apply in_app_or in Hx. destruct Hx as [Hx|[<-|[]]]; auto.
  - intros y Hy. apply in_map_if_inv in Hy. destruct Hy as (x & Hx & [->| ->]); auto.
    cbn. destruct (updatePage.pageNumber i) as [n|] eqn:E; cbn; auto.
  - intros g Hg. apply filter_In in Hg. now apply H2.
Qed.

(** X5: the primary keys of the three tables stay unique over any
    sequence of calls: inserts are refused on a taken key, the [set]
    objects never assign [id], deletes only drop rows. *)
Theorem primary_keys_stay_unique (cs : list Call) (w : World) :
  keys_ok (db w) = true -> keys_ok (db (run cs w)) = true.
Proof. apply (run_invariant (fun d => keys_ok d = true)). exact keys_step. Qed.

Lemma primary_keys_stay_unique_witness :
  keys_ok (db (run sample_calls sample_world)) = true.
Proof. apply (primary_keys_stay_unique sample_calls sample_world). reflexivity. Defined.

(** X6: if every page points to a project row and every panel to a page
    row, this is still so after any sequence of calls: pages and panels are
    inserted only under a parent the resolver has just found, no action
    removes a project, [deletePage] removes the panels of the page with it,
    and no update assigns [id], [projectId] or [pageId]. *)
Theorem references_stay_valid (cs : list Call) (w : World) :
  refs_ok (db w) = true -> refs_ok (db (run cs w)) = true.
Proof. apply (run_invariant (fun d => refs_ok d = true)). exact refs_step. Qed.

Lemma references_stay_valid_witness :
  refs_ok (db (run (mkCall alice sample_env (DeletePage (deletePage.mk "g1" "p1"))
                      :: sample_calls) sample_world)) = true.
Proof.
  apply (references_stay_valid
           (mkCall alice sample_env (DeletePage (deletePage.mk "g1" "p1")) :: sample_calls)
           sample_world).
  reflexivity.
Defined.

(** X7: if every stored project title has at least one character and every
    stored page number is at least 1, this is still so after any sequence of
    calls: the schemas of the create and update actions turn down an empty
    title and a page number below 1 before the handler runs. *)
Theorem field_constraints_kept (cs : list Call) (w : World) :
  fields_ok (db w) = true -> fields_ok (db (run cs w)) = true.
Proof. apply (run_invariant (fun d => fields_ok d = true)). exact fields_step. Qed.

Lemma field_constraints_kept_witness :
  fields_ok
    (db (run [mkCall alice sample_env
                (UpdateProject (updateProject.mk "p1" (Some "") None None None None));
              mkCall alice sample_env
                (CreatePage (createPage.mk "p1" 0%Z None None None))]
             sample_world)) = true.
Proof.
  apply (field_constraints_kept
           [mkCall alice sample_env
              (UpdateProject (updateProject.mk "p1" (Some "") None None None None));
            mkCall alice sample_env (CreatePage (createPage.mk "p1" 0%Z None None None))]
           sample_world).
  reflexivity.
Defined.

(** ** What a call can touch *)

(** X15: the tables an action can change.  The project actions leave pages
    and panels alone, [createPage] and [updatePage] leave projects and panels
    alone, [deletePage] leaves projects alone, the panel actions leave
    projects and pages alone, and the three listings change no table.  An
    update keeps the number of rows, a create adds at most one row, and no
    action removes a project. *)
Theorem action_frame (q : Request) (context : Context) (env : Env) (w : World) :
  let d := db w in
  let d' := db (snd (server q context env w)) in
  match q with
  | CreateProject _ =>
      pages d' = pages d /\ panels d' = panels d /\
      (length (projects d') <= S (length (projects d)))%nat
  | UpdateProject _ =>
      pages d' = pages d /\ panels d' = panels d /\
      length (projects d') = length (projects d)
  | CreatePage _ =>
      projects d' = projects d /\ panels d' = panels d /\
      (length (pages d') <= S (length (pages d)))%nat
  | UpdatePage _ =>
      projects d' = projects d /\ panels d' = panels d /\
      length (pages d') = length (pages d)
  | DeletePage _ => projects d' = projects d
  | CreatePanel _ =>
      projects d' = projects d /\ pages d' = pages d /\
      (length (panels d') <= S (length (panels d)))%nat
  | UpdatePanel _ =>
      projects d' = projects d /\ pages d' = pages d /\
      length (panels d') = length (panels d)
  | DeletePanel _ => projects d' = projects d /\ pages d' = pages d
  | ListProjects _ | ListPages _ | ListPanels _ => d' = d
  end.
Proof.
  cbv zeta. pose proof (server_step q context env w) as H.
  remember (db w) as d eqn:Ed. remember (db (snd (server q context env w))) as d' eqn:Ed'.
  clear Ed Ed'.
  destruct H as [q| | | | | | | | ]; [destruct q|..]; cbn [projects pages panels];
    repeat split; auto;
    try (rewrite length_app; simpl; lia);
    try (now rewrite length_map).
Qed.

Lemma filter_negb_none {A} (c : A -> bool) (l : list A) :
  filter c l = [] -> filter (fun r => negb (c r)) l = l.
Proof.
  induction l as [|a l IH]; simpl; [reflexivity|].
  destruct (c a); [discriminate|]. intros H. simpl. now rewrite IH.
Qed.

Ltac statements :=
  unfold bind, select, insert, update, delete, ret, throw; cbn;
  repeat match goal with
         | |- context [if ?c then _ else _] => destruct c eqn:?; cbn
         | |- context [match first ?l with _ => _ end] => destruct (first l) eqn:?; cbn
         end.

Ltac past_user :=
  rewrite with_user; destruct (locals_user _) as [?u|] eqn:?; [|try reflexivity].

Ltac past_project :=
  rewrite with_project;
  destruct (first (filter (owned_project _ _) _)) as [?project|] eqn:?; [|try reflexivity].

Ltac past_page :=
  rewrite with_page;
  destruct (first (filter (owned_project _ _) _)) as [?project|] eqn:?; [|try reflexivity];
  destruct (first (filter (page_of _ _) _)) as [?page|] eqn:?; [|try reflexivity].

(** X1: the three listings only read.  Whatever the input and whoever
    calls, [listProjects], [listPages] and [listPanels] leave the tables as
    they were and send nothing but selects, at most three of them. *)
Theorem listings_read_only (q : Request) (context : Context) (env : Env) (w : World) :
  is_listing q = true ->
  exists sel,
    snd (server q context env w) = mkWorld (db w) (trace w ++ sel) /\
    forallb is_select sel = true /\ (length sel <= 3)%nat.
Proof.
  intros Hq. rewrite server_run.
  assert (Hnone : exists sel, w = mkWorld (db w) (trace w ++ sel) /\
                              forallb is_select sel = true /\ (length sel <= 3)%nat).
  { exists []. rewrite app_nil_r. destruct w. simpl. repeat split; try lia. }
  destruct (schema_of q); [|exact Hnone].
  destruct q; try discriminate; cbn [handler_of]; rewrite fmap_run; cbn [snd].
  - unfold listProjects.handler. rewrite with_user.
    destruct (locals_user context); [|exact Hnone].
    exists [OpSelect ComicProjectsT]. unfold select, bind, ret, logged. cbn. repeat split; try lia.
  - unfold listPages.handler. rewrite with_user.
    destruct (locals_user context); [|exact Hnone].
    rewrite with_project. destruct (first _).
    + exists [OpSelect ComicProjectsT; OpSelect ComicPagesT]. unfold select, bind, ret, logged. cbn.
      rewrite <- ?app_assoc. repeat split; try lia.
    + exists [OpSelect ComicProjectsT]. unfold select, bind, ret, logged. cbn. repeat split; try lia.
  - unfold listPanels.handler. rewrite with_user.
    destruct (locals_user context); [|exact Hnone].
    rewrite with_page. destruct (first _).
    + destruct (first _).
      * exists [OpSelect ComicProjectsT; OpSelect ComicPagesT; OpSelect ComicPanelsT]. unfold select, bind, ret, logged. cbn.
        rewrite <- ?app_assoc. repeat split; try lia.
      * exists [OpSelect ComicProjectsT; OpSelect ComicPagesT]. unfold select, bind, ret, logged. cbn.
        rewrite <- ?app_assoc. repeat split; try lia.
    + exists [OpSelect ComicProjectsT]. unfold select, bind, ret, logged. cbn. repeat split; try lia.
Qed.

Lemma listings_read_only_witness :
  exists sel,
    snd (server (ListPanels (listPanels.mk "g1" "p1")) alice sample_env sample_world)
    = mkWorld (db sample_world) (trace sample_world ++ sel) /\
    forallb is_select sel = true /\ (length sel <= 3)%nat.
Proof.
  apply (listings_read_only (ListPanels (listPanels.mk "g1" "p1")) alice sample_env
           sample_world).
  reflexivity.
Defined.

(** ** Listings *)

(** X2: for a signed-in caller [listProjects] always succeeds; its items
    are exactly the project rows whose userId is the caller's id, no row of
    another user among them, and [total] is their number. *)
Theorem listProjects_own_rows (context : Context) (env : Env) (w : World) (u : User) :
  locals_user context = Some u ->
  exists reply w',
    listProjects.handler tt context env w = (Ok reply, w') /\
    success reply = true /\
    (forall p, In p (items (data reply)) <->
               In p (projects (db w)) /\ ComicProjects.userId p = user_id u) /\
    total (data reply) = length (items (data reply)).
Proof.
  intros Hu. unfold listProjects.handler. rewrite with_user, Hu.
  unfold bind, select, ret. cbn. eexists. eexists. split; [reflexivity|]. cbn.
  repeat split.
  - now apply filter_In in H.
  - apply filter_In in H. destruct H as [_ H]. now apply sql_eq_true in H.
  - intros [Hin E]. apply filter_In. split; [exact Hin|]. now apply sql_eq_true.
Qed.

Lemma listProjects_own_rows_witness :
  exists reply w',
    listProjects.handler tt bob sample_env sample_world = (Ok reply, w') /\
    success reply = true /\
    (forall p, In p (items (data reply)) <->
               In p (projects (db sample_world)) /\ ComicProjects.userId p = "bob") /\
    total (data reply) = length (items (data reply)).
Proof.
  apply (listProjects_own_rows bob sample_env sample_world (mkUser "bob")). reflexivity.
Defined.

(** ** Creating under an owned chain *)

Lemma first_owned_project projectId userId l p :
  first (filter (owned_project projectId userId) l) = Some p ->
  In p l /\ ComicProjects.id p = projectId /\ ComicProjects.userId p = userId.
Proof.
  intros H. apply first_filter_in in H. destruct H as [Hin Hc].
  apply owned_project_true in Hc. tauto.
Qed.

Lemma first_page_of pageId projectId l g :
  first (filter (page_of pageId projectId) l) = Some g ->
  In g l /\ ComicPages.id g = pageId /\ ComicPages.projectId g = projectId.
Proof.
  intros H. apply first_filter_in in H. destruct H as [Hin Hc].
  apply page_of_true in Hc. tauto.
Qed.

(** X14: nothing is created under a chain the caller does not own.  A
    [createPage] that succeeds found a project row with the given projectId
    owned by the caller; a [createPanel] that succeeds found such a project
    and a page row with the given pageId under it. *)
Theorem create_requires_ownership (context : Context) (env : Env) (w : World) :
  (forall i reply w1,
     createPage.handler i context env w = (Ok reply, w1) ->
     exists u p,
       locals_user context = Some u /\ In p (projects (db w)) /\
       ComicProjects.id p = createPage.projectId i /\ ComicProjects.userId p = user_id u) /\
  (forall i reply w1,
     createPanel.handler i context env w = (Ok reply, w1) ->
     exists u p g,
       locals_user context = Some u /\ In p (projects (db w)) /\
       ComicProjects.id p = createPanel.projectId i /\ ComicProjects.userId p = user_id u /\
       In g (pages (db w)) /\ ComicPages.id g = createPanel.pageId i /\
       ComicPages.projectId g = createPanel.projectId i).
Proof.
  split.
  - intros i reply w1. unfold createPage.handler. rewrite with_user.
    destruct (locals_user context) as [u|]; [|discriminate].
    rewrite with_project. destruct (first _) as [p|] eqn:Ep; [|discriminate].
    intros _. apply first_owned_project in Ep. exists u, p. tauto.
  - intros i reply w1. unfold createPanel.handler. rewrite with_user.
    destruct (locals_user context) as [u|]; [|discriminate].
    rewrite with_page.
    destruct (first (filter (owned_project _ _) _)) as [p|] eqn:Ep; [|discriminate].
    destruct (first (filter (page_of _ _) _)) as [g|] eqn:Eg; [|discriminate].
    intros _. apply first_owned_project in Ep. apply first_page_of in Eg.
    exists u, p, g. tauto.
Qed.

Lemma create_requires_ownership_witness :
  exists u p g,
    locals_user alice = Some u /\ In p (projects (db sample_world)) /\
    ComicProjects.id p = "p1" /\ ComicProjects.userId p = user_id u /\
    In g (pages (db sample_world)) /\ ComicPages.id g = "g1" /\
    ComicPages.projectId g = "p1".
Proof.
  refine (proj2 (create_requires_ownership alice sample_env sample_world)
            (createPanel.mk "g1" "p1" 1%Z None None None None None) _ _ _).
  reflexivity.
Defined.

(** ** Rows of other users *)

Lemma in_map_if_false {A} (c : A -> bool) (f : A -> A) (l : list A) (x : A) :
  In x l -> c x = false -> In x (map (fun r => if c r then f r else r) l).
Proof. intros Hin Hc. apply in_map_iff. exists x. now rewrite Hc. Qed.

(** X8: with unique project ids, [updateProject] never changes a project
    of another user: every project row whose userId is not the caller's id
    is in the table afterwards exactly as it was, whatever id and fields the
    caller supplies. *)
Theorem updateProject_own_rows_only (i : updateProject.input) (context : Context)
    (env : Env) (w : World) (u : User) (p : ComicProjects.row) :
  keys_ok (db w) = true ->
  locals_user context = Some u ->
  In p (projects (db w)) -> ComicProjects.userId p <> user_id u ->
  In p (projects (db (snd (updateProject.handler i context env w)))).
Proof.
  intros Hk Hu Hp Hother. apply keys_ok_iff in Hk. destruct Hk as (Hk & _).
  unfold updateProject.handler. rewrite with_user, Hu, with_project.
  destruct (first _) as [mine|] eqn:E; [|exact Hp].
  apply first_owned_project in E. destruct E as (Hmine & E1 & E2).
  unfold bind, update, ret. cbn. apply in_map_if_false; [exact Hp|].
  apply sql_eq_false. intros Hid. apply Hother.
  rewrite (NoDup_keys_same ComicProjects.id _ p mine Hk Hp Hmine); [exact E2|].
  now rewrite E1.
Qed.

(** Alice aims [updateProject] at Bob's project p2. *)
Lemma updateProject_own_rows_only_witness :
  In (sample_project "p2" "bob")
     (projects (db (snd (updateProject.handler
                           (updateProject.mk "p2" (Some "Mine") None None None None)
                           alice sample_env sample_world)))).
Proof.
  apply (updateProject_own_rows_only
           (updateProject.mk "p2" (Some "Mine") None None None None)
           alice sample_env sample_world (mkUser "alice") (sample_project "p2" "bob")).
  - reflexivity.
  - reflexivity.
  - simpl. auto.
  - simpl. discriminate.
Defined.

(** X9: with unique page ids, [updatePage] and [deletePage] never touch a
    page under a project the caller does not own, and [deletePage] never
    removes a panel of such a page.  (The panel actions give no such
    guarantee, see C2.) *)
Theorem pages_of_others_untouched (context : Context) (env : Env) (w : World) (u : User)
    (g : ComicPages.row) :
  keys_ok (db w) = true ->
  locals_user context = Some u ->
  In g (pages (db w)) ->
  (forall p, In p (projects (db w)) -> ComicProjects.id p = ComicPages.projectId g ->
             ComicProjects.userId p <> user_id u) ->
  (forall i, In g (pages (db (snd (updatePage.handler i context env w))))) /\
  (forall i, In g (pages (db (snd (deletePage.handler i context env w))))) /\
  (forall i n, In n (panels (db w)) -> ComicPanels.pageId n = ComicPages.id g ->
               In n (panels (db (snd (deletePage.handler i context env w))))).
Proof.
  intros Hk Hu Hg Hother. apply keys_ok_iff in Hk. destruct Hk as (_ & Hk & _).
  assert (Hnot : forall pageId projectId mine target,
            first (filter (owned_project projectId (user_id u)) (projects (db w)))
            = Some mine ->
            first (filter (page_of pageId projectId) (pages (db w))) = Some target ->
            ComicPages.id g <> pageId).
  { intros pageId projectId mine target Em Et Hid.
    apply first_owned_project in Em. destruct Em as (Hmine & E1 & E2).
    apply first_page_of in Et. destruct Et as (Ht & E3 & E4).
    assert (g = target).
    { apply (NoDup_keys_same ComicPages.id _ g target Hk Hg Ht). now rewrite E3. }
    subst target. apply (Hother mine Hmine); [now rewrite E1, E4|exact E2]. }
  split; [|split].
  - intros i. unfold updatePage.handler. rewrite with_user, Hu, with_page.
    destruct (first (filter (owned_project _ _) _)) as [mine|] eqn:Em; [|exact Hg].
    destruct (first (filter (page_of _ _) _)) as [target|] eqn:Et; [|exact Hg].
    unfold bind, update, ret. cbn. apply in_map_if_false; [exact Hg|].
    apply sql_eq_false. exact (Hnot _ _ _ _ Em Et).
  - intros i. unfold deletePage.handler. rewrite with_user, Hu, with_page.
    destruct (first (filter (owned_project _ _) _)) as [mine|] eqn:Em; [|exact Hg].
    destruct (first (filter (page_of _ _) _)) as [target|] eqn:Et; [|exact Hg].
    unfold bind, delete, ret. cbn. apply filter_In. split; [exact Hg|].
    apply negb_true_iff, sql_eq_false. exact (Hnot _ _ _ _ Em Et).
  - intros i n Hn En. unfold deletePage.handler. rewrite with_user, Hu, with_page.
    destruct (first (filter (owned_project _ _) _)) as [mine|] eqn:Em; [|exact Hn].
    destruct (first (filter (page_of _ _) _)) as [target|] eqn:Et; [|exact Hn].
    unfold bind, delete, ret. cbn. apply filter_In. split; [exact Hn|].
    apply negb_true_iff, sql_eq_false. rewrite En. exact (Hnot _ _ _ _ Em Et).
Qed.

(** Alice aims [updatePage] and [deletePage] at Bob's page g2, through her
    own project p1 and through Bob's p2. *)
Lemma pages_of_others_untouched_witness :
  In (sample_page "g2" "p2")
     (pages (db (snd (updatePage.handler
                        (updatePage.mk "g2" "p1" None (Some "Mine") None None)
                        alice sample_env sample_world)))) /\
  In (sample_page "g2" "p2")
     (pages (db (snd (deletePage.handler (deletePage.mk "g2" "p2") alice sample_env
                        sample_world)))) /\
  In (sample_panel "n2" "g2")
     (panels (db (snd (deletePage.handler (deletePage.mk "g2" "p2") alice sample_env
                         sample_world)))).
Proof.
  assert (H : forall p, In p (projects (db sample_world)) ->
                        ComicProjects.id p = ComicPages.projectId (sample_page "g2" "p2") ->
                        ComicProjects.userId p <> user_id (mkUser "alice")).
  { intros p [<-|[<-|[]]]; simpl; intros E; discriminate. }
  destruct (pages_of_others_untouched alice sample_env sample_world (mkUser "alice")
              (sample_page "g2" "p2") eq_refl eq_refl
              (or_intror (or_introl eq_refl)) H) as (H1 & H2 & H3).
  split; [apply H1|]. split; [apply H2|].
  apply H3; [simpl; auto|reflexivity].
Defined.

(** ** Create, then list *)

Lemma filter_app_one {A} (c : A -> bool) (l : list A) (x : A) :
  c x = true -> filter c (l ++ [x]) = filter c l ++ [x].
Proof. intros Hx. rewrite filter_app. simpl. now rewrite Hx. Qed.

Lemma length_app_one {A} (l : list A) (x : A) : length (l ++ [x]) = S (length l).
Proof. rewrite length_app. simpl. lia. Qed.

(** X10: a project that [createProject] has created is listed.  The row
    returned carries the generated id, the caller as owner and
    createdAt = updatedAt; the caller's [listProjects] afterwards is the
    listing from before with that row appended and [total] one higher. *)
Theorem createProject_then_listProjects (c : createProject.input) (context : Context)
    (env env' : Env) (w : World) (reply : Reply (option ComicProjects.row)) (w1 : World) :
  createProject.handler c context env w = (Ok reply, w1) ->
  exists p before,
    reply = mkReply true (Some p) /\
    ComicProjects.id p = randomUUID env /\
    (forall u, locals_user context = Some u -> ComicProjects.userId p = user_id u) /\
    ComicProjects.createdAt p = ComicProjects.updatedAt p /\
    fst (listProjects.handler tt context env' w)
    = Ok (mkReply true (mkListing before (length before))) /\
    fst (listProjects.handler tt context env' w1)
    = Ok (mkReply true (mkListing (before ++ [p]) (S (length before)))).
Proof.
  intros H. destruct (createProject_ok _ _ _ _ _ _ H) as (u & Hu & Hc).
  cbv zeta in Hc. destruct Hc as (-> & _ & ->).
  eexists. eexists. split; [reflexivity|]. cbn. split; [reflexivity|].
  split; [intros u' Hu'; congruence|]. split; [reflexivity|].
  unfold listProjects.handler. rewrite !with_user, Hu.
  unfold bind, select, ret. cbn. split; [reflexivity|].
  rewrite filter_app_one; [|apply sql_eq_true; reflexivity].
  now rewrite length_app_one.
Qed.

Lemma createProject_then_listProjects_witness :
  exists p before,
    ComicProjects.id p = "fresh-1" /\
    fst (listProjects.handler tt alice sample_env sample_world)
    = Ok (mkReply true (mkListing before (length before))) /\
    fst (listProjects.handler tt alice sample_env
           (snd (createProject.handler (createProject.mk "Issue 2" None None None None)
                   alice sample_env sample_world)))
    = Ok (mkReply true (mkListing (before ++ [p]) (S (length before)))).
Proof.
  destruct (createProject_then_listProjects
              (createProject.mk "Issue 2" None None None None) alice sample_env sample_env
              sample_world _ _ eq_refl) as (p & before & _ & Hid & _ & _ & H1 & H2).
  exists p, before. split; [exact Hid|]. split; [exact H1|exact H2].
Defined.

(** ** Successful deletes, inverted *)

Lemma filter_after_delete {A} (c : A -> bool) (l : list A) :
  filter c (filter (fun r => negb (c r)) l) = [].
Proof.
  apply filter_none. intros x Hx. apply filter_In in Hx. destruct Hx as [_ Hx].
  now apply negb_true_iff in Hx.
Qed.

Lemma deletePanel_ok i context env w reply w' :
  deletePanel.handler i context env w = (Ok reply, w') ->
  exists u page w1,
    locals_user context = Some u /\
    getOwnedPage (deletePanel.pageId i) (deletePanel.projectId i) (user_id u) w
    = (Ok page, w1).
Proof.
  unfold deletePanel.handler, requireUser.
  destruct (locals_user context) as [u|]; [|discriminate].
  unfold bind at 1. unfold ret at 1. unfold bind at 1.
  destruct (getOwnedPage _ _ _ w) as [[page|e] w1] eqn:E; [|discriminate].
  intros _. now exists u, page, w1.
Qed.

Lemma deletePage_ok i context env w reply w' :
  deletePage.handler i context env w = (Ok reply, w') ->
  exists u page w1,
    locals_user context = Some u /\
    getOwnedPage (deletePage.id i) (deletePage.projectId i) (user_id u) w = (Ok page, w1).
Proof.
  unfold deletePage.handler, requireUser.
  destruct (locals_user context) as [u|]; [|discriminate].
  unfold bind at 1. unfold ret at 1. unfold bind at 1.
  destruct (getOwnedPage _ _ _ w) as [[page|e] w1] eqn:E; [|discriminate].
  intros _. now exists u, page, w1.
Qed.

(** ** The input contract and the errors *)

Lemma min1_nil_iff path s : min1 path s = [] <-> s <> "".
Proof.
  unfold min1. destruct s; simpl; split; intros H; try reflexivity; try discriminate.
  now contradiction H.
Qed.

Lemma num_min1_nil_iff path n : num_min1 path n = [] <-> (1 <= n)%Z.
Proof.
  unfold num_min1. destruct (1 <=? n)%Z eqn:E.
  - apply Z.leb_le in E. tauto.
  - apply Z.leb_gt in E. split; [discriminate|lia].
Qed.

Lemma refine_nil_iff b message : refine b message = [] <-> b = true.
Proof. destruct b; simpl; split; intros H; try reflexivity; discriminate. Qed.

Lemma supplied_true_iff {A} (o : option A) : supplied o = true <-> o <> None.
Proof. destruct o; simpl; split; intros H; try reflexivity; try discriminate; congruence. Qed.

Lemma optional_min1_nil_iff path o : optional (min1 path) o = [] <-> o <> Some "".
Proof.
  destruct o as [s|]; simpl.
  - rewrite min1_nil_iff. split; congruence.
  - split; [discriminate|reflexivity].
Qed.

Lemma optional_num_min1_nil_iff path o :
  optional (num_min1 path) o = [] <-> forall n, o = Some n -> (1 <= n)%Z.
Proof.
  destruct o as [m|]; simpl.
  - rewrite num_min1_nil_iff. split.
    + intros H n E. now injection E as <-.
    + intros H. now apply H.
  - split; [discriminate|reflexivity].
Qed.

Lemma app_nil_iff {A} (l l' : list A) : l ++ l' = [] <-> l = [] /\ l' = [].
Proof.
  split; [apply app_eq_nil|]. intros [-> ->]. reflexivity.
Qed.

(** X16: the input contract.  The schema of an action reports no issue
    exactly on the inputs written out in [acceptable]: every id and the
    project title non-empty, a page number at least 1, a supplied title of a
    project update non-empty, and at least one mutable field in an update;
    a panel index may be any integer.  On those inputs, and only on those,
    the action runs its handler. *)
Theorem schema_accepts_iff (q : Request) :
  (schema_of q = [] <-> acceptable q) /\
  (forall context env w,
     acceptable q -> server q context env w = handler_of q context env w) /\
  (forall context env w,
     ~ acceptable q ->
     server q context env w = (Throw (ActionInputError (schema_of q)), w)).
Proof.
  assert (Hiff : schema_of q = [] <-> acceptable q).
  { destruct q; cbn [schema_of acceptable].
    - unfold createProject.schema. apply min1_nil_iff.
    - unfold updateProject.schema, updateProject.some_field.
      rewrite !app_nil_iff, min1_nil_iff, optional_min1_nil_iff, refine_nil_iff.
      rewrite !orb_true_iff, !supplied_true_iff. tauto.
    - unfold listProjects.schema. tauto.
    - unfold createPage.schema.
      rewrite !app_nil_iff, min1_nil_iff, num_min1_nil_iff. tauto.
    - unfold updatePage.schema, updatePage.some_field.
      rewrite !app_nil_iff, !min1_nil_iff, optional_num_min1_nil_iff, refine_nil_iff.
      rewrite !orb_true_iff, !supplied_true_iff. tauto.
    - unfold deletePage.schema. rewrite !app_nil_iff, !min1_nil_iff. tauto.
    - unfold listPages.schema. apply min1_nil_iff.
    - unfold createPanel.schema. rewrite !app_nil_iff, !min1_nil_iff. tauto.
    - unfold updatePanel.schema, updatePanel.some_field.
      rewrite !app_nil_iff, !min1_nil_iff, refine_nil_iff.
      rewrite !orb_true_iff, !supplied_true_iff. tauto.
    - unfold deletePanel.schema. rewrite !app_nil_iff, !min1_nil_iff. tauto.
    - unfold listPanels.schema. rewrite !app_nil_iff, !min1_nil_iff. tauto. }
  split; [exact Hiff|]. split.
  - intros context env w Ha. apply Hiff in Ha. now rewrite server_run, Ha.
  - intros context env w Hn. rewrite server_run.
    destruct (schema_of q) eqn:E; [|reflexivity].
    exfalso. apply Hn. now apply Hiff.
Qed.

(** A panel may be created at a negative index; a page may not be created
    with page number 0. *)
Lemma schema_accepts_iff_witness :
  server (CreatePanel (createPanel.mk "g1" "p1" (-3)%Z None None None None None))
         alice sample_env sample_world
  = handler_of (CreatePanel (createPanel.mk "g1" "p1" (-3)%Z None None None None None))
               alice sample_env sample_world /\
  server (CreatePage (createPage.mk "p1" 0%Z None None None)) alice sample_env sample_world
  = (Throw (ActionInputError [too_small "pageNumber"]), sample_world).
Proof.
  split.
  - apply (schema_accepts_iff
             (CreatePanel (createPanel.mk "g1" "p1" (-3)%Z None None None None None))).
    simpl. split; discriminate.
  - apply (proj2 (proj2 (schema_accepts_iff
                           (CreatePage (createPage.mk "p1" 0%Z None None None))))
             alice sample_env sample_world).
    simpl. lia.
Defined.


(** ** The store with its refusals: what it adds are failures *)

Lemma refines_refl {A} (m : M A) : refines m m.
Proof. intros w a w' H. exact H. Qed.

Section Refines.
Context {A B : Type}.

Lemma refines_throw (e : Thrown) (p : M A) : refines (throw e) p.
Proof. intros w a w' H. discriminate H. Qed.

Lemma refines_bind (s p : M A) (ks kp : A -> M B) :
  refines s p -> (forall a, refines (ks a) (kp a)) -> refines (bind s ks) (bind p kp).
Proof.
  intros Hm Hk w b w'. unfold bind.
  destruct (s w) as [[a|e] w1] eqn:Es; [|discriminate].
  rewrite (Hm _ _ _ Es). apply Hk.
Qed.

Lemma refines_fmap (f : A -> B) (s p : M A) : refines s p -> refines (fmap f s) (fmap f p).
Proof. intros H. unfold fmap. apply refines_bind; [exact H|]. intros a. apply refines_refl. Qed.
End Refines.

Lemma handed_back_ok {R} (T : Strict.Table R) l r :
  Strict.handed_back T l = Ok r -> r = l /\ forallb (Strict.readable T) l = true.
Proof.
  unfold Strict.handed_back. destruct (forallb _ l); [|discriminate].
  intros H. injection H as <-. auto.
Qed.

Lemma handed_back_readable {R} (T : Strict.Table R) l :
  forallb (Strict.readable T) l = true -> Strict.handed_back T l = Ok l.
Proof. unfold Strict.handed_back. now intros ->. Qed.

Lemma handed_back_unreadable {R} (T : Strict.Table R) l :
  forallb (Strict.readable T) l = false -> Strict.handed_back T l = Throw RangeError.
Proof. unfold Strict.handed_back. now intros ->. Qed.

Section RefinesStatements.
Context {R : Type} (T : Strict.Table R).

Lemma refines_select cond : refines (Strict.select T cond) (select (Strict.plain T) cond).
Proof.
  intros w a w'. unfold Strict.select, select. intros H. injection H as H <-.
  apply handed_back_ok in H. destruct H as [-> _]. reflexivity.
Qed.

Lemma refines_insert r : refines (Strict.insert T r) (insert (Strict.plain T) r).
Proof.
  intros w a w'. unfold Strict.insert, insert.
  destruct (existsb _ _); cbn [orb]; [discriminate|].
  destruct (negb _); [discriminate|].
  intros H. injection H as H <-.
  apply handed_back_ok in H. destruct H as [-> _]. reflexivity.
Qed.

Lemma refines_update s cond :
  refines (Strict.update T s cond) (update (Strict.plain T) s cond).
Proof.
  intros w a w'. unfold Strict.update, update. intros H. injection H as H <-.
  apply handed_back_ok in H. destruct H as [-> _]. reflexivity.
Qed.

Lemma refines_delete cond : refines (Strict.delete T cond) (delete (Strict.plain T) cond).
Proof.
  intros w a w'. unfold Strict.delete, delete.
  destruct (existsb _ _); [discriminate|]. intros H. exact H.
Qed.
End RefinesStatements.

Ltac refines_step :=
  lazymatch goal with
  | |- refines (fmap _ _) (fmap _ _) => apply refines_fmap
  | |- refines (bind _ _) (bind _ _) => apply refines_bind; [|intros ?]
  | |- refines (match ?x with _ => _ end) (match ?x with _ => _ end) => destruct x
  | |- refines (Strict.select ?T _) _ => apply (refines_select T)
  | |- refines (Strict.insert ?T _) _ => apply (refines_insert T)
  | |- refines (Strict.update ?T _ _) _ => apply (refines_update T)
  | |- refines (Strict.delete ?T _) _ => apply (refines_delete T)
  | |- refines ?m ?m => apply refines_refl
  end.

Lemma refines_getOwnedProject projectId userId :
  refines (Strict.getOwnedProject projectId userId) (getOwnedProject projectId userId).
Proof. unfold Strict.getOwnedProject, getOwnedProject. repeat refines_step. Qed.

Lemma refines_getOwnedPage pageId projectId userId :
  refines (Strict.getOwnedPage pageId projectId userId) (getOwnedPage pageId projectId userId).
Proof.
  unfold Strict.getOwnedPage, getOwnedPage.
  apply refines_bind; [apply refines_getOwnedProject|intros _]. repeat refines_step.
Qed.

Ltac refines_handler :=
  repeat first
    [ apply refines_getOwnedProject
    | apply refines_getOwnedPage
    | refines_step ].

(** Every handler over the store with its refusals returns only what the
    handler over the permissive store returns, from the same world to the
    same world. *)
Lemma strict_handler_refines q context env :
  refines (Strict.handler_of q context env) (handler_of q context env).
Proof.
  destruct q; cbn [Strict.handler_of handler_of]; apply refines_fmap;
    [ unfold Strict.createProject, createProject.handler
    | unfold Strict.updateProject, updateProject.handler
    | unfold Strict.listProjects, listProjects.handler
    | unfold Strict.createPage, createPage.handler
    | unfold Strict.updatePage, updatePage.handler
    | unfold Strict.deletePage, deletePage.handler
    | unfold Strict.listPages, listPages.handler
    | unfold Strict.createPanel, createPanel.handler
    | unfold Strict.updatePanel, updatePanel.handler
    | unfold Strict.deletePanel, deletePanel.handler
    | unfold Strict.listPanels, listPanels.handler ];
    refines_handler.
Qed.

(** ** The handlers over the store with its refusals *)

Lemma forallb_always {A} (l : list A) : forallb (fun _ => true) l = true.
Proof. induction l; auto. Qed.

Lemma existsb_never {A} (l : list A) : existsb (fun _ => false) l = false.
Proof. induction l; auto. Qed.

Lemma strict_getOwnedProject_eq projectId userId w :
  Strict.getOwnedProject projectId userId w = getOwnedProject projectId userId w.
Proof.
  unfold Strict.getOwnedProject, getOwnedProject, bind, Strict.select, select,
    Strict.handed_back.
  cbn [Strict.readable Strict.plain Strict.tbl_ComicProjects].
  rewrite forallb_always. reflexivity.
Qed.

Lemma strict_with_project {A} projectId userId (k : ComicProjects.row -> M A) w :
  bind (Strict.getOwnedProject projectId userId) k w =
  match first (filter (owned_project projectId userId) (projects (db w))) with
  | Some project => k project (logged (OpSelect ComicProjectsT) w)
  | None => (Throw (ActionError NOT_FOUND "Project not found."),
             logged (OpSelect ComicProjectsT) w)
  end.
Proof.
  rewrite <- with_project. unfold bind. now rewrite strict_getOwnedProject_eq.
Qed.

Lemma strict_with_page {A} pageId projectId userId (k : ComicPages.row -> M A) w :
  bind (Strict.getOwnedPage pageId projectId userId) k w =
  match first (filter (owned_project projectId userId) (projects (db w))) with
  | None => (Throw (ActionError NOT_FOUND "Project not found."),
             logged (OpSelect ComicProjectsT) w)
  | Some _ =>
      if forallb readable_page (filter (page_of pageId projectId) (pages (db w)))
      then match first (filter (page_of pageId projectId) (pages (db w))) with
           | Some page =>
               k page (logged (OpSelect ComicPagesT) (logged (OpSelect ComicProjectsT) w))
           | None => (Throw (ActionError NOT_FOUND "Page not found."),
                      logged (OpSelect ComicPagesT) (logged (OpSelect ComicProjectsT) w))
           end
      else (Throw RangeError,
            logged (OpSelect ComicPagesT) (logged (OpSelect ComicProjectsT) w))
  end.
Proof.
  unfold Strict.getOwnedPage. unfold bind at 1. unfold bind at 1.
  pose proof (strict_with_project projectId userId (fun p => ret p) w) as Hp.
  unfold bind in Hp at 1.
  destruct (Strict.getOwnedProject projectId userId w) as [[p|e] w1];
    destruct (first (filter (owned_project _ _) _)); try discriminate Hp.
  - injection Hp as _ ->.
    unfold bind, Strict.select, Strict.handed_back.
    cbn [Strict.readable Strict.plain Strict.tbl_ComicPages rows tbl_ComicPages tname logged db].
    fold (page_of pageId projectId). fold readable_page.
    change (fun r => safe_integer (ComicPages.pageNumber r)) with readable_page.
    destruct (forallb readable_page _); [|reflexivity].
    destruct (first _); reflexivity.
  - injection Hp as -> ->. reflexivity.
Qed.

Lemma no_children pageId (page : ComicPages.row) (gone : list ComicPages.row)
    (l : list ComicPanels.row) :
  existsb (fun r => existsb (fun n => String.eqb (ComicPanels.pageId n) (ComicPages.id r)) l)
          gone = false ->
  In page gone -> ComicPages.id page = pageId ->
  forall n, In n l -> ComicPanels.pageId n <> pageId.
Proof.
  intros E Hin Hid n Hn Hp. apply not_true_iff_false in E. apply E.
  apply existsb_exists. exists page. split; [exact Hin|].
  apply existsb_exists. exists n. split; [exact Hn|].
  apply String.eqb_eq. now rewrite Hid.
Qed.

Lemma strict_deletePage_ok i context env w reply w' :
  Strict.deletePage i context env w = (Ok reply, w') ->
  exists u mine page,
    locals_user context = Some u /\
    first (filter (owned_project (deletePage.projectId i) (user_id u)) (projects (db w)))
    = Some mine /\
    first (filter (page_of (deletePage.id i) (deletePage.projectId i)) (pages (db w)))
    = Some page /\
    (forall n, In n (panels (db w)) -> ComicPanels.pageId n <> deletePage.id i) /\
    reply = mkReply true tt /\
    db w' = mkDb (projects (db w))
                 (filter (fun r => negb (by_page_id (deletePage.id i) r)) (pages (db w)))
                 (filter (fun r => negb (sql.eq (ComicPanels.pageId r) (deletePage.id i)))
                         (panels (db w))).
Proof.
  unfold Strict.deletePage. rewrite with_user.
  destruct (locals_user context) as [u|]; [|discriminate].
  rewrite strict_with_page.
  destruct (first (filter (owned_project _ _) _)) as [mine|] eqn:Em; [|discriminate].
  destruct (forallb readable_page _); [|discriminate].
  destruct (first (filter (page_of _ _) _)) as [page|] eqn:Eg; [|discriminate].
  unfold bind at 1. unfold Strict.delete at 1.
  cbn [Strict.referenced Strict.plain Strict.tbl_ComicPages rows tbl_ComicPages tname
       logged db with_rows].
  destruct (existsb _ _) eqn:Eref; [discriminate|].
  unfold bind, Strict.delete, ret.
  cbn [Strict.referenced Strict.plain Strict.tbl_ComicPanels rows tbl_ComicPanels tname
       logged db with_rows projects pages panels].
  rewrite existsb_never. intros H. injection H as <- <-.
  exists u, mine, page. repeat split; try assumption.
  apply first_page_of in Eg. destruct Eg as (Hin & Hid & _).
  apply (no_children (deletePage.id i) page _ _ Eref); [|exact Hid].
  apply filter_In. split; [exact Hin|]. now apply sql_eq_true.
Qed.

Lemma listPanels_needs_page j context env w reply :
  (forall g, In g (pages (db w)) -> ComicPages.id g <> listPanels.pageId j) ->
  fst (listPanels.handler j context env w) <> Ok reply.
Proof.
  intros Hnone H.
  destruct (listPanels.handler j context env w) as [r w2] eqn:E. simpl in H. subst r.
  apply listPanels_ok in E. destruct E as (_ & _ & u & page & _ & E).
  apply fst_pair_run in E. apply getOwnedPage_ok in E. destruct E as (_ & Hin & Hid & _).
  exact (Hnone page Hin Hid).
Qed.

Lemma refines_listPanels j context env :
  refines (Strict.listPanels j context env) (listPanels.handler j context env).
Proof. unfold Strict.listPanels, listPanels.handler. refines_handler. Qed.

(** C5 (amended): when [deletePage], for an authenticated owner of the
    resolved chain, returns success, no page row with id P and no panel row
    with pageId P is left, every other page and panel row and all projects
    are kept, and a later [listPanels] for pageId P does not return an
    item list: it never succeeds, whoever calls it and under whatever
    projectId, and from the same caller with the same projectId it throws
    NOT_FOUND "Page not found.". *)
Theorem deletePage_cascade (i : deletePage.input) (context : Context) (env : Env)
    (w : World) (reply : Reply unit) (w' : World) :
  Strict.deletePage i context env w = (Ok reply, w') ->
  reply = mkReply true tt /\
  (forall g, In g (pages (db w')) <->
             In g (pages (db w)) /\ ComicPages.id g <> deletePage.id i) /\
  (forall n, In n (panels (db w')) <->
             In n (panels (db w)) /\ ComicPanels.pageId n <> deletePage.id i) /\
  projects (db w') = projects (db w) /\
  (forall j context' env' reply',
     listPanels.pageId j = deletePage.id i ->
     fst (Strict.listPanels j context' env' w') <> Ok reply') /\
  (forall env',
     fst (Strict.listPanels (listPanels.mk (deletePage.id i) (deletePage.projectId i))
            context env' w')
     = Throw (ActionError NOT_FOUND "Page not found.")).
Proof.
  intros H. apply strict_deletePage_ok in H.
  destruct H as (u & mine & page & Hu & Em & Eg & Hnone & -> & Hdb).
  assert (Hpages : forall g, In g (pages (db w')) <->
                             In g (pages (db w)) /\ ComicPages.id g <> deletePage.id i).
  { intros g. rewrite Hdb. cbn [pages]. rewrite filter_In. unfold by_page_id.
    rewrite negb_true_iff, sql_eq_false. reflexivity. }
  split; [reflexivity|]. split; [exact Hpages|]. split; [|split; [|split]].
  - intros n. rewrite Hdb. cbn [panels]. rewrite filter_In.
    rewrite negb_true_iff, sql_eq_false. reflexivity.
  - now rewrite Hdb.
  - intros j context' env' reply' Hj Hok.
    destruct (Strict.listPanels j context' env' w') as [r w2] eqn:E. simpl in Hok. subst r.
    apply refines_listPanels in E.
    apply (listPanels_needs_page j context' env' w' reply').
    + intros g Hg. apply Hpages in Hg. rewrite Hj. apply Hg.
    + now rewrite E.
  - intros env'. unfold Strict.listPanels. rewrite with_user, Hu, strict_with_page.
    cbn [listPanels.pageId listPanels.projectId]. rewrite Hdb. cbn [projects pages].
    rewrite Em.
    assert (Hgone : filter (page_of (deletePage.id i) (deletePage.projectId i))
                      (filter (fun r => negb (by_page_id (deletePage.id i) r)) (pages (db w)))
                    = []).
    { apply filter_none. intros g Hg. apply filter_In in Hg. destruct Hg as [_ Hg].
      unfold page_of, sql.and. unfold by_page_id in Hg.
      apply negb_true_iff in Hg. now rewrite Hg. }
    rewrite Hgone. reflexivity.
Qed.

(** Alice deletes her page g3, which has no panel, and lists it. *)
Lemma deletePage_cascade_witness :
  db (snd (Strict.deletePage (deletePage.mk "g3" "p1") alice sample_env sample_world3))
  = sample_db /\
  fst (Strict.listPanels (listPanels.mk "g3" "p1") alice sample_env
         (snd (Strict.deletePage (deletePage.mk "g3" "p1") alice sample_env sample_world3)))
  = Throw (ActionError NOT_FOUND "Page not found.").
Proof.
  split; [reflexivity|].
  apply (deletePage_cascade (deletePage.mk "g3" "p1") alice sample_env sample_world3
           (mkReply true tt)
           (snd (Strict.deletePage (deletePage.mk "g3" "p1") alice sample_env
                   sample_world3))).
  reflexivity.
Defined.

(** C5, as the claim has it, fails.  Alice deletes her page g3, which has
    no panel, and lists its panels again: the delete succeeds, and the
    listing is not an empty item list but the resolver's NOT_FOUND
    "Page not found.".  And her page g1, which has panel n1, is not removed
    at all: the page row is deleted before its panels, and the store refuses
    that while n1 points to it. *)
Lemma deletePage_then_listPanels_counterexample :
  let after := Strict.deletePage (deletePage.mk "g3" "p1") alice sample_env sample_world3 in
  fst after = Ok (mkReply true tt) /\
  fst (Strict.listPanels (listPanels.mk "g3" "p1") alice sample_env (snd after))
  = Throw (ActionError NOT_FOUND "Page not found.") /\
  ~ (exists reply,
       fst (Strict.listPanels (listPanels.mk "g3" "p1") alice sample_env (snd after))
       = Ok reply /\ items (data reply) = []) /\
  Strict.deletePage (deletePage.mk "g1" "p1") alice sample_env sample_world3
  = (Throw (ConstraintError ComicPagesT),
     mkWorld sample_db3 [OpSelect ComicProjectsT; OpSelect ComicPagesT; OpDelete ComicPagesT]).
Proof.
  cbv zeta. split; [reflexivity|]. split; [reflexivity|]. split; [|reflexivity].
  intros (reply & H & _). vm_compute in H. discriminate.
Qed.

(** ** Listing pages from the store with its refusals *)

Lemma forallb_false_iff {A} (f : A -> bool) (l : list A) :
  forallb f l = false <-> exists x, In x l /\ f x = false.
Proof.
  split.
  - induction l as [|a l IH]; simpl; [discriminate|].
    destruct (f a) eqn:Ea; simpl.
    + intros H. destruct (IH H) as (x & Hx & Hf). exists x. auto.
    + intros _. exists a. auto.
  - intros (x & Hx & Hf). apply not_true_iff_false. intros H.
    rewrite forallb_forall in H. rewrite (H x Hx) in Hf. discriminate.
Qed.

(** X3: [listPages] answers only the owner of the project.  When the
    caller owns a project row with the given id and every page number
    stored under that project is a safe integer, the items are exactly the
    page rows with that projectId and [total] is their number; when one of
    those page numbers is not a safe integer the call throws [RangeError];
    when no project row has both that id and the caller as owner it throws
    NOT_FOUND "Project not found.", whatever the pages hold. *)
Theorem listPages_owner_only (i : listPages.input) (context : Context) (env : Env)
    (w : World) (u : User) :
  locals_user context = Some u ->
  ((exists p, In p (projects (db w)) /\ ComicProjects.id p = listPages.projectId i /\
              ComicProjects.userId p = user_id u) ->
   (forall g, In g (pages (db w)) -> ComicPages.projectId g = listPages.projectId i ->
              safe_integer (ComicPages.pageNumber g) = true) ->
   exists reply w',
     Strict.listPages i context env w = (Ok reply, w') /\
     (forall g, In g (items (data reply)) <->
                In g (pages (db w)) /\ ComicPages.projectId g = listPages.projectId i) /\
     total (data reply) = length (items (data reply))) /\
  ((exists p, In p (projects (db w)) /\ ComicProjects.id p = listPages.projectId i /\
              ComicProjects.userId p = user_id u) ->
   (exists g, In g (pages (db w)) /\ ComicPages.projectId g = listPages.projectId i /\
              safe_integer (ComicPages.pageNumber g) = false) ->
   fst (Strict.listPages i context env w) = Throw RangeError) /\
  ((forall p, In p (projects (db w)) -> ComicProjects.id p = listPages.projectId i ->
              ComicProjects.userId p <> user_id u) ->
   fst (Strict.listPages i context env w)
   = Throw (ActionError NOT_FOUND "Project not found.")).
Proof.
  intros Hu. unfold Strict.listPages. rewrite with_user, Hu, strict_with_project.
  split; [|split].
  - intros (p & Hp & E1 & E2) Hsafe.
    destruct (filter_some (owned_project (listPages.projectId i) (user_id u)) _ p Hp)
      as (y & Hy & _); [now apply owned_project_true|].
    rewrite Hy. unfold bind, Strict.select, ret.
    cbn [Strict.readable Strict.plain Strict.tbl_ComicPages rows tbl_ComicPages tname
         logged db].
    rewrite handed_back_readable.
    + eexists. eexists. split; [reflexivity|]. cbn. split; [|reflexivity].
      intros g. rewrite filter_In, sql_eq_true. reflexivity.
    + apply forallb_forall. intros g Hg. apply filter_In in Hg. destruct Hg as [Hg Hc].
      apply sql_eq_true in Hc. cbn. now apply Hsafe.
  - intros (p & Hp & E1 & E2) (g & Hg & Hproj & Hunsafe).
    destruct (filter_some (owned_project (listPages.projectId i) (user_id u)) _ p Hp)
      as (y & Hy & _); [now apply owned_project_true|].
    rewrite Hy. unfold bind, Strict.select, ret.
    cbn [Strict.readable Strict.plain Strict.tbl_ComicPages rows tbl_ComicPages tname
         logged db].
    rewrite handed_back_unreadable; [reflexivity|].
    apply forallb_false_iff. exists g. split; [|exact Hunsafe].
    apply filter_In. split; [exact Hg|]. now apply sql_eq_true.
  - intros Hnone. rewrite filter_none; [reflexivity|].
    intros p Hp. apply not_true_iff_false. intros Hc.
    apply owned_project_true in Hc. destruct Hc as [E1 E2]. exact (Hnone p Hp E1 E2).
Qed.

(** Alice lists the pages of her project p1; she lists them again after a
    page with page number 2^53 has got into it; Bob asks for the same
    project. *)
Lemma listPages_owner_only_witness :
  (exists reply w',
     Strict.listPages (listPages.mk "p1") alice sample_env sample_world = (Ok reply, w') /\
     (forall g, In g (items (data reply)) <->
                In g (pages (db sample_world)) /\ ComicPages.projectId g = "p1") /\
     total (data reply) = length (items (data reply))) /\
  fst (Strict.listPages (listPages.mk "p1") alice sample_env
         (mkWorld (mkDb (projects sample_db)
                        (pages sample_db
                         ++ [ComicPages.mk "g9" "p1" 9007199254740992%Z None None None
                                           40%Z 40%Z])
                        (panels sample_db)) []))
  = Throw RangeError /\
  fst (Strict.listPages (listPages.mk "p1") bob sample_env sample_world)
  = Throw (ActionError NOT_FOUND "Project not found.").
Proof.
  split; [|split].
  - apply (listPages_owner_only (listPages.mk "p1") alice sample_env sample_world
             (mkUser "alice") eq_refl).
    + exists (sample_project "p1" "alice"). simpl. auto.
    + intros g [<-|[<-|[]]]; reflexivity.
  - apply (listPages_owner_only (listPages.mk "p1") alice sample_env _
             (mkUser "alice") eq_refl).
    + exists (sample_project "p1" "alice"). simpl. auto.
    + exists (ComicPages.mk "g9" "p1" 9007199254740992%Z None None None 40%Z 40%Z).
      simpl. auto.
  - apply (listPages_owner_only (listPages.mk "p1") bob sample_env sample_world
             (mkUser "bob") eq_refl).
    intros p [<-|[<-|[]]]; simpl; intros H; discriminate.
Defined.

(** ** Failures of the store with its refusals *)

Lemma strict_server_run q context env w :
  Strict.server q context env w =
  match schema_of q with
  | [] => Strict.handler_of q context env w
  | issues => (Throw (ActionInputError issues), w)
  end.
Proof. unfold Strict.server. apply defineAction_run. Qed.

Ltac strict_statements :=
  unfold bind, Strict.select, Strict.insert, Strict.update, Strict.delete,
    Strict.handed_back, ret, throw;
  cbn;
  rewrite ?forallb_always, ?existsb_never;
  repeat (match goal with
          | |- context [if ?c then _ else _] => destruct c eqn:?; cbn
          | |- context [match first ?l with _ => _ end] => destruct (first l) eqn:?; cbn
          end;
          rewrite ?forallb_always, ?existsb_never).

Ltac strict_past_project :=
  rewrite strict_with_project;
  destruct (first (filter (owned_project _ _) _)) as [?project|] eqn:?.

Ltac strict_past_page :=
  rewrite strict_with_page;
  destruct (first (filter (owned_project _ _) _)) as [?project|] eqn:?;
  [ destruct (forallb readable_page (filter (page_of _ _) _)) eqn:?;
    [ destruct (first (filter (page_of _ _) _)) as [?page|] eqn:? | ] | ].

Ltac unchanged_or_range :=
  intros ?H ?Hne;
  first [ reflexivity
        | discriminate
        | match goal with
          | H : Throw RangeError = Throw _, Hne : _ <> RangeError |- _ =>
              injection H as <-; now contradiction Hne
          end ].

(** X4: a call that throws anything but [RangeError] (the input error,
    UNAUTHORIZED, NOT_FOUND, an insert or a delete the store refuses) leaves
    the three tables exactly as they were: every handler throws its own
    errors before its first write, a refused statement writes nothing, and
    [deletePanel], which throws NOT_FOUND after its delete, does so only when
    the delete removed no row.  [RangeError] is the exception: it can follow
    a row that was written. *)
Theorem failed_call_changes_nothing (q : Request) (context : Context) (env : Env)
    (w : World) (e : Thrown) :
  fst (Strict.server q context env w) = Throw e ->
  e <> RangeError ->
  db (snd (Strict.server q context env w)) = db w.
Proof.
  rewrite strict_server_run. destruct (schema_of q); [|reflexivity].
  destruct q; cbn [Strict.handler_of]; rewrite fmap_run; cbn [fst snd].
  - unfold Strict.createProject. past_user; try (intros; reflexivity).
    strict_statements; unchanged_or_range.
  - unfold Strict.updateProject. past_user; try (intros; reflexivity).
    strict_past_project; try (intros; reflexivity).
    strict_statements; unchanged_or_range.
  - unfold Strict.listProjects. past_user; try (intros; reflexivity).
    strict_statements; unchanged_or_range.
  - unfold Strict.createPage. past_user; try (intros; reflexivity).
    strict_past_project; try (intros; reflexivity).
    strict_statements; unchanged_or_range.
  - unfold Strict.updatePage. past_user; try (intros; reflexivity).
    strict_past_page; try (intros; reflexivity).
    strict_statements; unchanged_or_range.
  - unfold Strict.deletePage. past_user; try (intros; reflexivity).
    strict_past_page; try (intros; reflexivity).
    strict_statements; unchanged_or_range.
  - unfold Strict.listPages. past_user; try (intros; reflexivity).
    strict_past_project; try (intros; reflexivity).
    strict_statements; unchanged_or_range.
  - unfold Strict.createPanel. past_user; try (intros; reflexivity).
    strict_past_page; try (intros; reflexivity).
    strict_statements; unchanged_or_range.
  - unfold Strict.updatePanel. past_user; try (intros; reflexivity).
    strict_past_page; try (intros; reflexivity).
    strict_statements; unchanged_or_range.
  - unfold Strict.deletePanel. past_user; try (intros; reflexivity).
    strict_past_page; try (intros; reflexivity).
    unfold bind, Strict.delete, ret, throw. cbn. rewrite existsb_never.
    destruct (_ =? _)%nat eqn:E; cbn; [|discriminate].
    intros _ _. apply length_zero_iff_nil in E.
    rewrite (filter_negb_none _ _ E). now destruct (db w).
  - unfold Strict.listPanels. past_user; try (intros; reflexivity).
    strict_past_page; try (intros; reflexivity).
    strict_statements; unchanged_or_range.
Qed.

(** Alice deletes page g1 while panel n1 points to it: the store refuses,
    nothing is lost.  She creates a page with page number 2^53: the call
    throws [RangeError], and the row is in the table. *)
Lemma failed_call_changes_nothing_witness :
  fst (Strict.server (DeletePage (deletePage.mk "g1" "p1")) alice sample_env sample_world)
  = Throw (ConstraintError ComicPagesT) /\
  db (snd (Strict.server (DeletePage (deletePage.mk "g1" "p1")) alice sample_env
             sample_world)) = sample_db /\
  fst (Strict.server (CreatePage (createPage.mk "p1" 9007199254740992%Z None None None))
         alice sample_env sample_world) = Throw RangeError /\
  In (ComicPages.mk "fresh-1" "p1" 9007199254740992%Z None None None 100%Z 100%Z)
     (pages (db (snd (Strict.server
                        (CreatePage (createPage.mk "p1" 9007199254740992%Z None None None))
                        alice sample_env sample_world)))).
Proof.
  split; [reflexivity|]. split.
  - apply (failed_call_changes_nothing (DeletePage (deletePage.mk "g1" "p1")) alice
             sample_env sample_world (ConstraintError ComicPagesT)).
    + reflexivity.
    + discriminate.
  - split; [reflexivity|]. simpl. auto.
Defined.

Ltac one_of_the_errors :=
  intros ?H;
  first [ discriminate
        | solve [injection H as <-; cbn; auto 10]
        | solve [injection H as <-; cbn; do 4 right; left; split; [reflexivity|eauto]]
        | solve [injection H as <-; cbn; do 5 right; split; reflexivity] ].

(** X17: the errors a call can end in.  A call that throws throws the
    input error of its schema, UNAUTHORIZED from [requireUser], NOT_FOUND with
    one of the three messages "Project not found.", "Page not found." and
    "Panel not found.", the store's refusal of a statement, which only the
    three create actions and [deletePage] can meet, or [RangeError], which
    only the actions that read page or panel rows can meet. *)
Theorem thrown_errors (q : Request) (context : Context) (env : Env) (w : World)
    (e : Thrown) :
  fst (Strict.server q context env w) = Throw e ->
  e = ActionInputError (schema_of q) \/
  e = ActionError UNAUTHORIZED "You must be signed in to perform this action." \/
  e = ActionError NOT_FOUND "Project not found." \/
  e = ActionError NOT_FOUND "Page not found." \/
  e = ActionError NOT_FOUND "Panel not found." \/
  (can_be_refused q = true /\ exists t, e = ConstraintError t) \/
  (reads_numbers q = true /\ e = RangeError).
Proof.
  rewrite strict_server_run. destruct (schema_of q) eqn:Hs.
  2: { intros H. injection H as <-. now left. }
  intros H. right. revert H.
  destruct q; cbn [Strict.handler_of]; rewrite fmap_run; cbn [fst].
  - unfold Strict.createProject. past_user; try one_of_the_errors.
    strict_statements; one_of_the_errors.
  - unfold Strict.updateProject. past_user; try one_of_the_errors.
    strict_past_project; try one_of_the_errors.
    strict_statements; one_of_the_errors.
  - unfold Strict.listProjects. past_user; try one_of_the_errors.
    strict_statements; one_of_the_errors.
  - unfold Strict.createPage. past_user; try one_of_the_errors.
    strict_past_project; try one_of_the_errors.
    strict_statements; one_of_the_errors.
  - unfold Strict.updatePage. past_user; try one_of_the_errors.
    strict_past_page; try one_of_the_errors.
    strict_statements; one_of_the_errors.
  - unfold Strict.deletePage. past_user; try one_of_the_errors.
    strict_past_page; try one_of_the_errors.
    strict_statements; one_of_the_errors.
  - unfold Strict.listPages. past_user; try one_of_the_errors.
    strict_past_project; try one_of_the_errors.
    strict_statements; one_of_the_errors.
  - unfold Strict.createPanel. past_user; try one_of_the_errors.
    strict_past_page; try one_of_the_errors.
    strict_statements; one_of_the_errors.
  - unfold Strict.updatePanel. past_user; try one_of_the_errors.
    strict_past_page; try one_of_the_errors.
    strict_statements; one_of_the_errors.
  - unfold Strict.deletePanel. past_user; try one_of_the_errors.
    strict_past_page; try one_of_the_errors.
    strict_statements; one_of_the_errors.
  - unfold Strict.listPanels. past_user; try one_of_the_errors.
    strict_past_page; try one_of_the_errors.
    strict_statements; one_of_the_errors.
Qed.

(** Alice deletes page g1 while panel n1 points to it. *)
Lemma thrown_errors_witness :
  can_be_refused (DeletePage (deletePage.mk "g1" "p1")) = true /\
  fst (Strict.server (DeletePage (deletePage.mk "g1" "p1")) alice sample_env sample_world)
  = Throw (ConstraintError ComicPagesT).
Proof.
  split; [reflexivity|].
  destruct (thrown_errors (DeletePage (deletePage.mk "g1" "p1")) alice sample_env
              sample_world (ConstraintError ComicPagesT) eq_refl)
    as [H|[H|[H|[H|[H|[[_ (t & H)]|[_ H]]]]]]]; try discriminate H.
  reflexivity.
Defined.

(** ** Create, then list, on the store with its refusals *)

Lemma forallb_app_one {A} (f : A -> bool) (l : list A) (x : A) :
  forallb f l = true -> f x = true -> forallb f (l ++ [x]) = true.
Proof. intros Hl Hx. rewrite forallb_app, Hl. simpl. now rewrite Hx. Qed.

Lemma strict_createPage_ok i context env w reply w1 :
  Strict.createPage i context env w = (Ok reply, w1) ->
  exists u mine,
    locals_user context = Some u /\
    first (filter (owned_project (createPage.projectId i) (user_id u)) (projects (db w)))
    = Some mine /\
    let g := ComicPages.mk (randomUUID env) (createPage.projectId i) (createPage.pageNumber i)
               (createPage.title i) (createPage.thumbnailUrl i) (createPage.notes i)
               (now env) (now env) in
    reply = mkReply true (Some g) /\
    readable_page g = true /\
    db w1 = mkDb (projects (db w)) (pages (db w) ++ [g]) (panels (db w)).
Proof.
  unfold Strict.createPage. rewrite with_user.
  destruct (locals_user context) as [u|]; [|discriminate].
  strict_past_project; [|discriminate].
  unfold bind, Strict.insert, Strict.handed_back, ret.
  cbn [Strict.readable Strict.parent_present Strict.plain Strict.tbl_ComicPages rows
       tbl_ComicPages tname pk logged db with_rows forallb andb].
  destruct (_ || _); [discriminate|].
  match goal with |- context [safe_integer ?n] => destruct (safe_integer n) eqn:Es end;
    cbn [andb]; [|discriminate].
  intros H. injection H as <- <-. exists u, project. repeat split; assumption.
Qed.

(** X11: a page that [createPage] has created is listed.  When
    [createPage] returns and the caller's [listPages] of that project
    answered before, it answers afterwards with the listing from before, the
    new row appended, and [total] one higher; the returned row carries the
    generated id, the given projectId and createdAt = updatedAt. *)
Theorem createPage_then_listPages (c : createPage.input) (context : Context)
    (env env' : Env) (w : World) (reply : Reply (option ComicPages.row)) (w1 : World)
    (before : list ComicPages.row) :
  Strict.createPage c context env w = (Ok reply, w1) ->
  fst (Strict.listPages (listPages.mk (createPage.projectId c)) context env' w)
  = Ok (mkReply true (mkListing before (length before))) ->
  exists g,
    reply = mkReply true (Some g) /\
    ComicPages.id g = randomUUID env /\
    ComicPages.projectId g = createPage.projectId c /\
    ComicPages.createdAt g = ComicPages.updatedAt g /\
    fst (Strict.listPages (listPages.mk (createPage.projectId c)) context env' w1)
    = Ok (mkReply true (mkListing (before ++ [g]) (S (length before)))).
Proof.
  intros H Hbefore. apply strict_createPage_ok in H.
  destruct H as (u & mine & Hu & Em & H). cbv zeta in H. destruct H as (-> & Hsafe & Hdb).
  eexists. split; [reflexivity|]. cbn. do 3 (split; [reflexivity|]).
  revert Hbefore. unfold Strict.listPages. rewrite !with_user, Hu, !strict_with_project.
  cbn [listPages.projectId]. rewrite Hdb. cbn [projects pages]. rewrite Em.
  unfold bind, Strict.select, ret.
  cbn [Strict.readable Strict.plain Strict.tbl_ComicPages rows tbl_ComicPages tname
       logged db pages fst].
  rewrite Hdb. cbn [pages].
  rewrite filter_app_one; [|apply sql_eq_true; reflexivity].
  destruct (Strict.handed_back Strict.tbl_ComicPages
              (filter (fun r => sql.eq (ComicPages.projectId r) (createPage.projectId c))
                      (pages (db w)))) as [l|e] eqn:El; [|discriminate].
  apply handed_back_ok in El. destruct El as [-> Hall].
  intros Hb. injection Hb as <-.
  rewrite handed_back_readable; [now rewrite length_app_one|].
  apply forallb_app_one; [exact Hall|exact Hsafe].
Qed.

Lemma createPage_then_listPages_witness :
  exists g,
    ComicPages.id g = "fresh-1" /\
    fst (Strict.listPages (listPages.mk "p1") alice sample_env
           (snd (Strict.createPage (createPage.mk "p1" 2%Z None None None)
                   alice sample_env sample_world)))
    = Ok (mkReply true (mkListing [sample_page "g1" "p1"; g] 2)).
Proof.
  destruct (createPage_then_listPages
              (createPage.mk "p1" 2%Z None None None) alice sample_env sample_env
              sample_world _ _ [sample_page "g1" "p1"] eq_refl eq_refl)
    as (g & _ & Hid & _ & _ & H).
  exists g. split; [exact Hid|exact H].
Defined.

Lemma strict_createPanel_ok i context env w reply w1 :
  Strict.createPanel i context env w = (Ok reply, w1) ->
  exists u mine page,
    locals_user context = Some u /\
    first (filter (owned_project (createPanel.projectId i) (user_id u)) (projects (db w)))
    = Some mine /\
    forallb readable_page
      (filter (page_of (createPanel.pageId i) (createPanel.projectId i)) (pages (db w)))
    = true /\
    first (filter (page_of (createPanel.pageId i) (createPanel.projectId i)) (pages (db w)))
    = Some page /\
    let n := ComicPanels.mk (randomUUID env) (createPanel.pageId i) (createPanel.panelIndex i)
               (createPanel.layoutJson i) (createPanel.description i)
               (createPanel.dialogue i) (createPanel.caption i) (createPanel.soundEffects i)
               (now env) in
    reply = mkReply true (Some n) /\
    readable_panel n = true /\
    db w1 = mkDb (projects (db w)) (pages (db w)) (panels (db w) ++ [n]).
Proof.
  unfold Strict.createPanel. rewrite with_user.
  destruct (locals_user context) as [u|]; [|discriminate].
  strict_past_page; try discriminate.
  unfold bind, Strict.insert, Strict.handed_back, ret.
  cbn [Strict.readable Strict.parent_present Strict.plain Strict.tbl_ComicPanels rows
       tbl_ComicPanels tname pk logged db with_rows forallb andb].
  destruct (_ || _); [discriminate|].
  match goal with |- context [safe_integer ?n] => destruct (safe_integer n) eqn:Es end;
    cbn [andb]; [|discriminate].
  intros H. injection H as <- <-. exists u, project, page. repeat split; assumption.
Qed.

(** X12: a panel that [createPanel] has created is listed.  When
    [createPanel] returns and the caller's [listPanels] of that page
    answered before, it answers afterwards with the listing from before, the
    new row appended, and [total] one higher; the returned row carries the
    generated id and the given pageId. *)
Theorem createPanel_then_listPanels (c : createPanel.input) (context : Context)
    (env env' : Env) (w : World) (reply : Reply (option ComicPanels.row)) (w1 : World)
    (before : list ComicPanels.row) :
  Strict.createPanel c context env w = (Ok reply, w1) ->
  fst (Strict.listPanels (listPanels.mk (createPanel.pageId c) (createPanel.projectId c))
         context env' w)
  = Ok (mkReply true (mkListing before (length before))) ->
  exists n,
    reply = mkReply true (Some n) /\
    ComicPanels.id n = randomUUID env /\
    ComicPanels.pageId n = createPanel.pageId c /\
    fst (Strict.listPanels (listPanels.mk (createPanel.pageId c) (createPanel.projectId c))
           context env' w1)
    = Ok (mkReply true (mkListing (before ++ [n]) (S (length before)))).
Proof.
  intros H Hbefore. apply strict_createPanel_ok in H.
  destruct H as (u & mine & page & Hu & Em & Hr & Eg & H).
  cbv zeta in H. destruct H as (-> & Hsafe & Hdb).
  eexists. split; [reflexivity|]. cbn. do 2 (split; [reflexivity|]).
  revert Hbefore. unfold Strict.listPanels. rewrite !with_user, Hu, !strict_with_page.
  cbn [listPanels.pageId listPanels.projectId]. rewrite Hdb. cbn [projects pages].
  rewrite Em, Hr, Eg.
  unfold bind, Strict.select, ret.
  cbn [Strict.readable Strict.plain Strict.tbl_ComicPanels rows tbl_ComicPanels tname
       logged db panels fst].
  rewrite Hdb. cbn [panels].
  rewrite filter_app_one; [|apply sql_eq_true; reflexivity].
  destruct (Strict.handed_back Strict.tbl_ComicPanels
              (filter (fun r => sql.eq (ComicPanels.pageId r) (createPanel.pageId c))
                      (panels (db w)))) as [l|e] eqn:El; [|discriminate].
  apply handed_back_ok in El. destruct El as [-> Hall].
  intros Hb. injection Hb as <-.
  rewrite handed_back_readable; [now rewrite length_app_one|].
  apply forallb_app_one; [exact Hall|exact Hsafe].
Qed.

Lemma createPanel_then_listPanels_witness :
  exists n,
    fst (Strict.listPanels (listPanels.mk "g1" "p1") alice sample_env
           (snd (Strict.createPanel
                   (createPanel.mk "g1" "p1" 1%Z None None (Some "Hello") None None)
                   alice sample_env sample_world)))
    = Ok (mkReply true (mkListing [sample_panel "n1" "g1"; n] 2)).
Proof.
  destruct (createPanel_then_listPanels
              (createPanel.mk "g1" "p1" 1%Z None None (Some "Hello") None None)
              alice sample_env sample_env sample_world _ _ [sample_panel "n1" "g1"]
              eq_refl eq_refl)
    as (n & _ & _ & _ & H).
  exists n. exact H.
Defined.

(** ** Deleting twice *)

Lemma strict_deletePanel_ok i context env w reply w1 :
  Strict.deletePanel i context env w = (Ok reply, w1) ->
  exists u mine page,
    locals_user context = Some u /\
    first (filter (owned_project (deletePanel.projectId i) (user_id u)) (projects (db w)))
    = Some mine /\
    forallb readable_page
      (filter (page_of (deletePanel.pageId i) (deletePanel.projectId i)) (pages (db w)))
    = true /\
    first (filter (page_of (deletePanel.pageId i) (deletePanel.projectId i)) (pages (db w)))
    = Some page /\
    db w1 = mkDb (projects (db w)) (pages (db w))
                 (filter (fun r => negb (by_panel_id (deletePanel.id i) r)) (panels (db w))).
Proof.
  unfold Strict.deletePanel. rewrite with_user.
  destruct (locals_user context) as [u|]; [|discriminate].
  strict_past_page; try discriminate.
  unfold bind, Strict.delete, ret, throw.
  cbn [Strict.referenced Strict.plain Strict.tbl_ComicPanels rows tbl_ComicPanels tname
       logged db with_rows].
  rewrite existsb_never. destruct (_ =? _)%nat; [discriminate|].
  intros H. injection H as _ <-. exists u, project, page. repeat split; assumption.
Qed.

(** X13: a delete cannot be repeated.  After a [deletePanel] that
    returned success, the same call again throws NOT_FOUND
    "Panel not found."; after a [deletePage] that returned success, the same
    call again throws NOT_FOUND "Page not found.".  In both cases the second
    call removes nothing. *)
Theorem delete_not_repeatable (context : Context) (env env' : Env) (w : World) :
  (forall i reply w1,
     Strict.deletePanel i context env w = (Ok reply, w1) ->
     fst (Strict.deletePanel i context env' w1)
     = Throw (ActionError NOT_FOUND "Panel not found.") /\
     db (snd (Strict.deletePanel i context env' w1)) = db w1) /\
  (forall i reply w1,
     Strict.deletePage i context env w = (Ok reply, w1) ->
     fst (Strict.deletePage i context env' w1)
     = Throw (ActionError NOT_FOUND "Page not found.") /\
     db (snd (Strict.deletePage i context env' w1)) = db w1).
Proof.
  split.
  - intros i reply w1 H. apply strict_deletePanel_ok in H.
    destruct H as (u & mine & page & Hu & Em & Hr & Eg & Hdb).
    unfold Strict.deletePanel. rewrite with_user, Hu, strict_with_page.
    rewrite Hdb. cbn [projects pages]. rewrite Em, Hr, Eg.
    unfold bind, Strict.delete, ret, throw.
    cbn [Strict.referenced Strict.plain Strict.tbl_ComicPanels rows tbl_ComicPanels tname
         logged db with_rows].
    rewrite existsb_never, Hdb. cbn [panels projects pages]. unfold by_panel_id.
    rewrite (filter_after_delete (fun r => sql.eq (ComicPanels.id r) (deletePanel.id i))).
    cbn [length Nat.eqb fst snd db].
    split; [reflexivity|].
    now rewrite (filter_negb_none _ _
                   (filter_after_delete
                      (fun r => sql.eq (ComicPanels.id r) (deletePanel.id i)) _)).
  - intros i reply w1 H. apply strict_deletePage_ok in H.
    destruct H as (u & mine & page & Hu & Em & Eg & Hnone & _ & Hdb).
    unfold Strict.deletePage. rewrite with_user, Hu, strict_with_page.
    rewrite Hdb. cbn [projects pages]. rewrite Em.
    assert (Hgone : filter (page_of (deletePage.id i) (deletePage.projectId i))
                      (filter (fun r => negb (by_page_id (deletePage.id i) r)) (pages (db w)))
                    = []).
    { apply filter_none. intros g Hg. apply filter_In in Hg. destruct Hg as [_ Hg].
      unfold page_of, sql.and. unfold by_page_id in Hg.
      apply negb_true_iff in Hg. now rewrite Hg. }
    rewrite Hgone. cbn [forallb first hd_error fst snd logged db]. now rewrite Hdb.
Qed.

(** Alice deletes her panel n1 twice, and her page g3, which has no panel,
    twice. *)
Lemma delete_not_repeatable_witness :
  fst (Strict.deletePanel (deletePanel.mk "n1" "g1" "p1") alice sample_env
         (snd (Strict.deletePanel (deletePanel.mk "n1" "g1" "p1") alice sample_env
                 sample_world3)))
  = Throw (ActionError NOT_FOUND "Panel not found.") /\
  fst (Strict.deletePage (deletePage.mk "g3" "p1") alice sample_env
         (snd (Strict.deletePage (deletePage.mk "g3" "p1") alice sample_env sample_world3)))
  = Throw (ActionError NOT_FOUND "Page not found.").
Proof.
  destruct (delete_not_repeatable alice sample_env sample_env sample_world3) as [H1 H2].
  split.
  - apply (H1 (deletePanel.mk "n1" "g1" "p1") (mkReply true tt) _ eq_refl).
  - apply (H2 (deletePage.mk "g3" "p1") (mkReply true tt) _ eq_refl).
Defined.
